(** * Simple Git Clone Manager (app.py): a shallow embedding

    The development follows [app.py]:

    - Python values as they come out of [json.load] and as the
      program builds them (dictionaries keep insertion order);
    - the module constant [SAMPLE_CONFIG] and the reference [self.repos],
      which may denote the very same dictionary object;
    - [pathlib] paths (POSIX flavour) for the clone destination;
    - [CloneThread.run] as a function from the behaviour of the
      environment (directory creation, process launch, the output of the
      process interleaved with calls of [stop()]) to the sequence of
      effects it performs;
    - the slots of [SimpleCloneManager] as computations over the
      window state which may raise.

    A Python [str] is a [string]: a sequence of code points below 256,
    compared code point by code point as Python does. *)

From Stdlib Require Import ZArith List String Ascii Bool Lia.
From Stdlib Require Import Sorted Permutation Orders Mergesort DecimalString.
From Stdlib Require Import RelationClasses.
Import ListNotations.
Open Scope string_scope.

Set Warnings "-register-all".

(** ** Python strings *)

Definition LF : string := String (ascii_of_nat 10) EmptyString.
Definition DQUOTE : string := String (ascii_of_nat 34) EmptyString.

(** [str.isspace] on one code point below 256. *)
Definition isspace (c : ascii) : bool :=
  let n := nat_of_ascii c in
  (Nat.leb 9 n && Nat.leb n 13) || (Nat.leb 28 n && Nat.leb n 32)
  || Nat.eqb n 133 || Nat.eqb n 160.

(** [s.rstrip()], [s.lstrip()] and [s.strip()] without argument. *)
Fixpoint rstrip (s : string) : string :=
  match s with
  | EmptyString => EmptyString
  | String c r =>
      match rstrip r with
      | EmptyString => if isspace c then EmptyString else String c EmptyString
      | r' => String c r'
      end
  end.

Fixpoint lstrip (s : string) : string :=
  match s with
  | EmptyString => EmptyString
  | String c r => if isspace c then lstrip r else s
  end.

Definition strip (s : string) : string := rstrip (lstrip s).

(** [str(n)] for an [int]. *)
Definition str_of_int (n : Z) : string := NilZero.string_of_int (Z.to_int n).

(** [str(b)] for a [bool], as an f-string prints it. *)
Definition str_of_bool (b : bool) : string := if b then "True" else "False".

(** Truth value of a [str]: [not s] holds exactly for the empty one. *)
Definition truthy (s : string) : bool := negb (s =? "").

(** [sep.join(xs)]. *)
Fixpoint join (sep : string) (xs : list string) : string :=
  match xs with
  | [] => ""
  | [x] => x
  | x :: rest => x ++ sep ++ join sep rest
  end.

(** [needle in hay] for two strings. *)
Fixpoint substring_of (needle hay : string) : bool :=
  prefix needle hay
  || match hay with
     | EmptyString => false
     | String _ rest => substring_of needle rest
     end.

(** ** [sorted] on a list of [str]

    [sorted] is a stable sort by [<]; on strings that is the order of
    [String.leb].  The merge sort of the Standard Library is stable too. *)

Module StrOrder <: TotalLeBool.
Definition t := string.
Definition leb := String.leb.
Theorem leb_total : forall a1 a2, leb a1 a2 = true \/ leb a2 a1 = true.
Proof. exact String.leb_total. Qed.
End StrOrder.

Module StrSort := Sort StrOrder.

Definition sorted (xs : list string) : list string := StrSort.sort xs.

(** ** Exceptions

    Only instances of [Exception] are modelled.  [FileNotFoundError] is the
    one class the program catches by name; every other class is carried as
    text.  The message is [str(e)]. *)

Inductive exn : Type :=
| FileNotFoundError (msg : string)
| OtherError (cls : string) (msg : string).

Definition str_of_exn (e : exn) : string :=
  match e with
  | FileNotFoundError m => m
  | OtherError _ m => m
  end.

Definition TypeError (m : string) : exn := OtherError "TypeError" m.
Definition KeyError (k : string) : exn := OtherError "KeyError" ("'" ++ k ++ "'").
Definition AttributeError (m : string) : exn := OtherError "AttributeError" m.

(** A computation that returns or raises. *)
Definition result (A : Type) : Type := (exn + A)%type.

Definition rbind {A B} (r : result A) (k : A -> result B) : result B :=
  match r with
  | inl e => inl e
  | inr a => k a
  end.

(** ** Python values

    What [json.load] produces and what the program itself builds.  A float is
    carried by the text [json.dump] prints for it.  A [dict] is the list of
    its items in insertion order; its keys are strings throughout this
    program and pairwise different. *)

Inductive pyval : Type :=
| PNone
| PBool (b : bool)
| PInt (n : Z)
| PFloat (repr : string)
| PStr (s : string)
| PList (xs : list pyval)
| PDict (kvs : list (string * pyval)).

Definition type_name (v : pyval) : string :=
  match v with
  | PNone => "NoneType"
  | PBool _ => "bool"
  | PInt _ => "int"
  | PFloat _ => "float"
  | PStr _ => "str"
  | PList _ => "list"
  | PDict _ => "dict"
  end.

(** *** Dictionaries *)

Section Dict.
Context {V : Type}.

Fixpoint dict_get (k : string) (d : list (string * V)) : option V :=
  match d with
  | [] => None
  | (k', v) :: rest => if k =? k' then Some v else dict_get k rest
  end.

Definition dict_mem (k : string) (d : list (string * V)) : bool :=
  match dict_get k d with
  | Some _ => true
  | None => false
  end.

(** [d[k] = v]: an existing key keeps its place, a new key goes last. *)
Fixpoint dict_set (k : string) (v : V) (d : list (string * V)) : list (string * V) :=
  match d with
  | [] => [(k, v)]
  | (k', v') :: rest =>
      if k =? k' then (k, v) :: rest else (k', v') :: dict_set k v rest
  end.

Definition dict_keys (d : list (string * V)) : list string := map fst d.

End Dict.

Fixpoint nodupb (xs : list string) : bool :=
  match xs with
  | [] => true
  | x :: rest => negb (existsb (String.eqb x) rest) && nodupb rest
  end.

(** *** The operations the program applies to [self.repos] *)

(** [key in v] for a string [key]. *)
Definition py_contains (key : string) (v : pyval) : result bool :=
  match v with
  | PDict kvs => inr (dict_mem key kvs)
  | PList xs =>
      inr (existsb (fun x => match x with PStr s => key =? s | _ => false end) xs)
  | PStr s => inr (substring_of key s)
  | _ => inl (TypeError ("argument of type '" ++ type_name v ++ "' is not iterable"))
  end.

(** [v[key]] for a string [key]. *)
Definition py_getitem (v : pyval) (key : string) : result pyval :=
  match v with
  | PDict kvs =>
      match dict_get key kvs with
      | Some x => inr x
      | None => inl (KeyError key)
      end
  | PList _ => inl (TypeError "list indices must be integers or slices, not str")
  | PStr _ => inl (TypeError "string indices must be integers, not 'str'")
  | _ => inl (TypeError ("'" ++ type_name v ++ "' object is not subscriptable"))
  end.

(** [v[key] = x] for a string [key]; the result is the updated object. *)
Definition py_setitem (v : pyval) (key : string) (x : pyval) : result pyval :=
  match v with
  | PDict kvs => inr (PDict (dict_set key x kvs))
  | PList _ => inl (TypeError "list indices must be integers or slices, not str")
  | _ => inl (TypeError ("'" ++ type_name v ++ "' object does not support item assignment"))
  end.

(** [v.keys()]. *)
Definition py_keys (v : pyval) : result (list string) :=
  match v with
  | PDict kvs => inr (dict_keys kvs)
  | _ => inl (AttributeError ("'" ++ type_name v ++ "' object has no attribute 'keys'"))
  end.

(** *** The shape of a catalog

    category -> project -> component -> URL, every level a dictionary. *)

Definition is_str (v : pyval) : bool :=
  match v with
  | PStr _ => true
  | _ => false
  end.

Definition is_dict_of (p : pyval -> bool) (v : pyval) : bool :=
  match v with
  | PDict kvs => nodupb (dict_keys kvs) && forallb (fun kv => p (snd kv)) kvs
  | _ => false
  end.

Definition is_project : pyval -> bool := is_dict_of is_str.
Definition is_category : pyval -> bool := is_dict_of is_project.
Definition is_catalog : pyval -> bool := is_dict_of is_category.

(** [catalog[category][project][component]], when every level is there. *)
Definition lookup3 (catalog : pyval) (category project component : string)
  : result pyval :=
  rbind (py_getitem catalog category) (fun c =>
  rbind (py_getitem c project) (fun p =>
  py_getitem p component)).

(** [catalog[category][project].keys()]. *)
Definition component_names (catalog : pyval) (category project : string)
  : result (list string) :=
  rbind (py_getitem catalog category) (fun c =>
  rbind (py_getitem c project) py_keys).

(** [catalog[category].keys()]. *)
Definition project_names (catalog : pyval) (category : string) : result (list string) :=
  rbind (py_getitem catalog category) py_keys.

(** ** [json.dump(obj, f, indent=2)]

    The text the encoder of the [json] module writes with its defaults
    ([ensure_ascii] on, separators [","] and [": "]). *)

Definition hex_digit (n : nat) : string :=
  String (nth n ["0"; "1"; "2"; "3"; "4"; "5"; "6"; "7"; "8"; "9";
                 "a"; "b"; "c"; "d"; "e"; "f"]%char "0"%char) EmptyString.

Definition BACKSLASH : string := String (ascii_of_nat 92) EmptyString.

Definition escape_char (c : ascii) : string :=
  let n := nat_of_ascii c in
  if Nat.eqb n 34 then BACKSLASH ++ DQUOTE
  else if Nat.eqb n 92 then BACKSLASH ++ BACKSLASH
  else if Nat.eqb n 8 then BACKSLASH ++ "b"
  else if Nat.eqb n 12 then BACKSLASH ++ "f"
  else if Nat.eqb n 10 then BACKSLASH ++ "n"
  else if Nat.eqb n 13 then BACKSLASH ++ "r"
  else if Nat.eqb n 9 then BACKSLASH ++ "t"
  else if Nat.leb 32 n && Nat.leb n 126 then String c EmptyString
  else BACKSLASH ++ "u00" ++ hex_digit (n / 16) ++ hex_digit (n mod 16).

Fixpoint escape_string (s : string) : string :=
  match s with
  | EmptyString => EmptyString
  | String c r => escape_char c ++ escape_string r
  end.

Definition json_quote (s : string) : string := DQUOTE ++ escape_string s ++ DQUOTE.

Fixpoint spaces (n : nat) : string :=
  match n with
  | O => ""
  | S k => " " ++ spaces k
  end.

Definition newline_indent (level : nat) : string := LF ++ spaces (2 * level).

Fixpoint json_encode (level : nat) (v : pyval) : string :=
  match v with
  | PNone => "null"
  | PBool true => "true"
  | PBool false => "false"
  | PInt n => str_of_int n
  | PFloat r => r
  | PStr s => json_quote s
  | PList [] => "[]"
  | PList xs =>
      "[" ++ newline_indent (S level)
      ++ join ("," ++ newline_indent (S level)) (map (json_encode (S level)) xs)
      ++ newline_indent level ++ "]"
  | PDict [] => "{}"
  | PDict kvs =>
      "{" ++ newline_indent (S level)
      ++ join ("," ++ newline_indent (S level))
           (map (fun kv => json_quote (fst kv) ++ ": " ++ json_encode (S level) (snd kv)) kvs)
      ++ newline_indent level ++ "}"
  end.

Definition json_dumps (v : pyval) : string := json_encode 0 v.

(** ** [SAMPLE_CONFIG], as the module defines it *)

Definition SAMPLE_CONFIG : pyval :=
  PDict
    [ ("dev",
       PDict
         [ ("ProjectA",
            PDict
              [ ("Test", PStr "https://github.com/abhisheksainiofficial7060/testrepo.git");
                ("Component2", PStr "https://github.com/user/projectA-component2.git") ]);
           ("ProjectB",
            PDict
              [ ("Component1", PStr "https://github.com/user/projectB-component1.git") ]) ]);
      ("localization",
       PDict
         [ ("ProjectA",
            PDict
              [ ("ui", PStr "https://github.com/user/localization-projectA-ui.git");
                ("strings", PStr "https://github.com/user/localization-projectA-strings.git") ]) ]) ].

(** ** [pathlib.Path], POSIX flavour

    A path is its root ([""], ["/"] or ["//"]) and its components; empty
    components and ["."] are dropped when a string is parsed. *)

Record Path : Type := { root : string; parts : list string }.

Fixpoint split_on (sep : ascii) (s : string) : list string :=
  match s with
  | EmptyString => [EmptyString]
  | String c r =>
      match split_on sep r with
      | [] => [String c EmptyString]
      | h :: t => if Ascii.eqb c sep then EmptyString :: h :: t else String c h :: t
      end
  end.

Definition path_parts (s : string) : list string :=
  filter (fun p => negb (p =? "") && negb (p =? ".")) (split_on "/"%char s).

Definition path_root (s : string) : string :=
  if prefix "///" s then "/"
  else if prefix "//" s then "//"
  else if prefix "/" s then "/"
  else "".

(** [Path(s)]. *)
Definition Path_of (s : string) : Path :=
  {| root := path_root s; parts := path_parts s |}.

(** [p / s]: an absolute right operand replaces the left one. *)
Definition truediv (p : Path) (s : string) : Path :=
  let q := Path_of s in
  if truthy (root q) then q
  else {| root := root p; parts := parts p ++ parts q |}.

(** [str(p)]. *)
Definition str_of_path (p : Path) : string :=
  match root p, parts p with
  | EmptyString, [] => "."
  | r, ps => r ++ join "/" ps
  end.

(** [p.parent]. *)
Definition parent (p : Path) : Path :=
  {| root := root p; parts := removelast (parts p) |}.

(** The paths [Path_of] and [truediv] make: one of the three roots, and
    components that are not empty, not ["."] and hold no separator. *)
Definition no_slash (s : string) : bool :=
  forallb (fun c => negb (Ascii.eqb c "/"%char)) (list_ascii_of_string s).

Definition good_part (s : string) : bool :=
  negb (s =? "") && negb (s =? ".") && no_slash s.

Definition wf_path (p : Path) : bool :=
  ((root p =? "") || (root p =? "/") || (root p =? "//")) && forallb good_part (parts p).


(** ** [str(v)] and [repr(v)]

    Needed where an f-string prints a value taken from the catalog.  A float
    is carried by its JSON text, which is its [repr] except for the three
    non-finite values. *)

Definition SQUOTE : string := "'".

Definition contains_char (c : ascii) (s : string) : bool :=
  existsb (Ascii.eqb c) (list_ascii_of_string s).

Definition printable (n : nat) : bool :=
  (Nat.leb 32 n && Nat.leb n 126)
  || (Nat.leb 161 n && negb (Nat.eqb n 173)).

Definition repr_char (quote : ascii) (c : ascii) : string :=
  let n := nat_of_ascii c in
  if Ascii.eqb c quote || Nat.eqb n 92 then BACKSLASH ++ String c EmptyString
  else if Nat.eqb n 9 then BACKSLASH ++ "t"
  else if Nat.eqb n 10 then BACKSLASH ++ "n"
  else if Nat.eqb n 13 then BACKSLASH ++ "r"
  else if printable n then String c EmptyString
  else BACKSLASH ++ "x" ++ hex_digit (n / 16) ++ hex_digit (n mod 16).

Definition repr_str (s : string) : string :=
  let quote :=
    if contains_char "'"%char s && negb (contains_char (ascii_of_nat 34) s)
    then ascii_of_nat 34 else "'"%char in
  String quote (join "" (map (repr_char quote) (list_ascii_of_string s)))
  ++ String quote EmptyString.

Fixpoint py_repr (v : pyval) : string :=
  match v with
  | PNone => "None"
  | PBool b => str_of_bool b
  | PInt n => str_of_int n
  | PFloat r =>
      if r =? "Infinity" then "inf"
      else if r =? "-Infinity" then "-inf"
      else if r =? "NaN" then "nan"
      else r
  | PStr s => repr_str s
  | PList xs => "[" ++ join ", " (map py_repr xs) ++ "]"
  | PDict kvs =>
      "{" ++ join ", " (map (fun kv => repr_str (fst kv) ++ ": " ++ py_repr (snd kv)) kvs)
      ++ "}"
  end.

Definition py_str (v : pyval) : string :=
  match v with
  | PStr s => s
  | _ => py_repr v
  end.

(** ** [CloneThread] *)

Record CloneThread : Type := { url : pyval; dest : string; _stopped : bool }.

(** [CloneThread(url, dest)]. *)
Definition new_CloneThread (u : pyval) (d : string) : CloneThread :=
  {| url := u; dest := d; _stopped := false |}.

(** [stop()]. *)
Definition stop (self : CloneThread) : CloneThread :=
  {| url := url self; dest := dest self; _stopped := true |}.

(** What [run] does to the outside, in order. *)
Inductive effect : Type :=
| Mkdir (path : string)
| Popen (argv : list pyval)
| Kill
| LogEmit (text : string)
| FinishedEmit (success : bool) (info : string).

(** What the outside does to [run].  The standard output of the process is
    the sequence of its lines; a call of [stop()] from the other thread falls
    between two reads of a line, before the first or after the last. *)
Inductive stdout_event : Type :=
| Line (text : string)
| StopCall.

Inductive stream_end : Type :=
| Eof (ret : Z)
| ReadRaises (e : exn).

Inductive launch : Type :=
| LaunchRaises (e : exn)
| Launched (out : list stdout_event) (fin : stream_end).

Record run_env : Type := { mkdir_raises : option exn; popen : launch }.

(** The two [except] clauses of [run]. *)
Definition run_except (e : exn) : list effect :=
  match e with
  | FileNotFoundError _ =>
      [ LogEmit ("Error: 'git' not found. Please install Git and ensure it is on PATH." ++ LF);
        FinishedEmit false "git-not-found" ]
  | _ =>
      [ LogEmit ("Unexpected error: " ++ str_of_exn e ++ LF);
        FinishedEmit false (str_of_exn e) ]
  end.

(** [for line in proc.stdout: ...]; the boolean tells whether the loop left
    [run] through its [return]. *)
Fixpoint for_line_in_stdout (self : CloneThread) (out : list stdout_event)
  : list effect * bool :=
  match out with
  | [] => ([], false)
  | StopCall :: rest => for_line_in_stdout (stop self) rest
  | Line line :: rest =>
      if _stopped self then
        ([ Kill; LogEmit ("Clone aborted by user." ++ LF); FinishedEmit false "aborted" ],
         true)
      else
        let (t, returned) := for_line_in_stdout self rest in
        (LogEmit (rstrip line) :: t, returned)
  end.

(** After the loop: [ret = proc.wait()] and the report. *)
Definition after_wait (ret : Z) : list effect :=
  if (ret =? 0)%Z then
    [ LogEmit ("Clone completed successfully." ++ LF); FinishedEmit true "success" ]
  else
    [ LogEmit ("git exited with code " ++ str_of_int ret ++ LF);
      FinishedEmit false ("exit " ++ str_of_int ret) ].

(** [run()]: its effects, and whether it returned or let an exception out. *)
Definition run (self : CloneThread) (env : run_env) : list effect * result unit :=
  let dest_path := Path_of (dest self) in
  let mk := Mkdir (str_of_path (parent dest_path)) in
  match mkdir_raises env with
  | Some e => ([mk], inl e)
  | None =>
      let head :=
        [ mk;
          LogEmit ("Starting clone: " ++ py_str (url self) ++ " -> " ++ dest self ++ LF);
          Popen [PStr "git"; PStr "clone"; url self; PStr (dest self)] ] in
      match popen env with
      | LaunchRaises e => ((head ++ run_except e)%list, inr tt)
      | Launched out fin =>
          let (t, returned) := for_line_in_stdout self out in
          if returned then ((head ++ t)%list, inr tt)
          else
            match fin with
            | ReadRaises e => ((head ++ t ++ run_except e)%list, inr tt)
            | Eof ret => ((head ++ t ++ after_wait ret)%list, inr tt)
            end
      end
  end.

(** The [finished_signal] emissions among some effects. *)
Definition finished_of (t : list effect) : list (bool * string) :=
  flat_map (fun x => match x with FinishedEmit s i => [(s, i)] | _ => [] end) t.

Definition logs_of (t : list effect) : list string :=
  flat_map (fun x => match x with LogEmit s => [s] | _ => [] end) t.

Definition is_Popen (x : effect) : bool :=
  match x with
  | Popen _ => true
  | _ => false
  end.

Definition is_Kill (x : effect) : bool :=
  match x with
  | Kill => true
  | _ => false
  end.

Definition is_Line (x : stdout_event) : bool :=
  match x with
  | Line _ => true
  | StopCall => false
  end.

(** The lines among some events of the standard output, as [run] logs them. *)
Definition logged_lines (out : list stdout_event) : list effect :=
  flat_map (fun x => match x with Line l => [LogEmit (rstrip l)] | StopCall => [] end) out.

(** What [run] reports once the output is exhausted. *)
Definition end_report (fin : stream_end) : list effect :=
  match fin with
  | Eof ret => after_wait ret
  | ReadRaises e => run_except e
  end.

(** The effects every run starts with once the directory is there. *)
Definition run_head (self : CloneThread) : list effect :=
  [ Mkdir (str_of_path (parent (Path_of (dest self))));
    LogEmit ("Starting clone: " ++ py_str (url self) ++ " -> " ++ dest self ++ LF);
    Popen [PStr "git"; PStr "clone"; url self; PStr (dest self)] ].

(** The effects of the branch that sees the flag. *)
Definition abort_report : list effect :=
  [ Kill; LogEmit ("Clone aborted by user." ++ LF); FinishedEmit false "aborted" ].

(** ** Widgets

    A [QComboBox] that is not editable: its texts and the current index
    ([None] for -1).  Every operation returns the new state of the box and the
    argument of [currentTextChanged] when the signal is emitted, which is when
    the current text changes (Qt 6, the binding the program tries first). *)

Record QComboBox : Type := { items : list string; currentIndex : option nat }.

Definition empty_combo : QComboBox := {| items := []; currentIndex := None |}.

Definition currentText (cb : QComboBox) : string :=
  match currentIndex cb with
  | Some i => nth i (items cb) ""
  | None => ""
  end.

Definition count (cb : QComboBox) : nat := List.length (items cb).

Definition text_changed (old new : QComboBox) : option string :=
  if currentText old =? currentText new then None else Some (currentText new).

Definition cb_clear (cb : QComboBox) : QComboBox * option string :=
  (empty_combo, text_changed cb empty_combo).

(** [addItems]: the first items put into an empty box make index 0 current. *)
Definition cb_addItems (texts : list string) (cb : QComboBox)
  : QComboBox * option string :=
  let cb' :=
    {| items := (items cb ++ texts)%list;
       currentIndex :=
         match currentIndex cb, items cb, texts with
         | None, [], _ :: _ => Some 0
         | i, _, _ => i
         end |} in
  (cb', text_changed cb cb').

Definition cb_setCurrentIndex (i : nat) (cb : QComboBox) : QComboBox * option string :=
  let cb' :=
    {| items := items cb;
       currentIndex := if Nat.ltb i (count cb) then Some i else None |} in
  (cb', text_changed cb cb').

Fixpoint findText (text : string) (xs : list string) : option nat :=
  match xs with
  | [] => None
  | x :: rest =>
      if text =? x then Some 0
      else match findText text rest with
           | Some i => Some (S i)
           | None => None
           end
  end.

(** [setCurrentText]: selects the item with that text, if there is one. *)
Definition cb_setCurrentText (text : string) (cb : QComboBox)
  : QComboBox * option string :=
  match findText text (items cb) with
  | Some i => cb_setCurrentIndex i cb
  | None => (cb, None)
  end.

(** The data of a sidebar item ([Qt.UserRole]). *)
Inductive sidebar_item : Type :=
| CategoryItem (cat : string)
| ProjectItem (cat proj : string).

Inductive box_kind : Type := Information | Warning | Critical | Question.

Record msgbox : Type := { kind : box_kind; title : string; text : string }.

(** ** The file [repos.json] and its surroundings *)

Inductive file_state : Type :=
| Missing
| Unreadable (e : exn)   (* it exists; opening or reading it raises *)
| Holds (content : string).

Record FileSystem : Type := {
  config_file : file_state;        (* [CONFIG_FILE] *)
  open_w_raises : option exn;      (* what [CONFIG_FILE.open("w")] raises, if it does *)
  resolved : string;               (* [str(CONFIG_FILE.resolve())] *)
  cwd : string }.                  (* [str(Path.cwd())] *)

Definition set_config_file (f : file_state) (s : FileSystem) : FileSystem :=
  {| config_file := f; open_w_raises := open_w_raises s;
     resolved := resolved s; cwd := cwd s |}.

(** ** The main window

    [self.repos] is a reference.  It denotes either the module's
    [SAMPLE_CONFIG] object or the object of the last successful [json.load];
    an update through [self.repos] changes the object it denotes. *)

Inductive repos_ref : Type := TheSample | Loaded.

Record Window : Type := mkWindow {
  sample_config : pyval;  (* the object [SAMPLE_CONFIG] *)
  repos_obj : pyval;  (* the object the last [json.load] made *)
  repos : repos_ref;  (* [self.repos] *)
  fs : FileSystem;
  cat_combo : QComboBox;
  project_combo : QComboBox;
  component_combo : QComboBox;
  sidebar : list sidebar_item;
  dest_line : string;
  clone_btn_enabled : bool;  (* [self.clone_btn.isEnabled()] *)
  log_view : list string;  (* the lines appended to the log view *)
  boxes : list msgbox;  (* the message boxes shown so far *)
  dialog_open : bool;  (* the Add New Project dialog is showing *)
  threads : list (CloneThread * bool);  (* the threads started; the flag tells which still run *)
  stderr : list exn }.  (* exceptions that left a slot *)

Definition set_sample_config (x : pyval) (w : Window) : Window :=
  mkWindow x (repos_obj w) (repos w) (fs w) (cat_combo w) (project_combo w) (component_combo w) (sidebar w) (dest_line w) (clone_btn_enabled w) (log_view w) (boxes w) (dialog_open w) (threads w) (stderr w).

Definition set_repos_obj (x : pyval) (w : Window) : Window :=
  mkWindow (sample_config w) x (repos w) (fs w) (cat_combo w) (project_combo w) (component_combo w) (sidebar w) (dest_line w) (clone_btn_enabled w) (log_view w) (boxes w) (dialog_open w) (threads w) (stderr w).

Definition set_repos (x : repos_ref) (w : Window) : Window :=
  mkWindow (sample_config w) (repos_obj w) x (fs w) (cat_combo w) (project_combo w) (component_combo w) (sidebar w) (dest_line w) (clone_btn_enabled w) (log_view w) (boxes w) (dialog_open w) (threads w) (stderr w).

Definition set_fs (x : FileSystem) (w : Window) : Window :=
  mkWindow (sample_config w) (repos_obj w) (repos w) x (cat_combo w) (project_combo w) (component_combo w) (sidebar w) (dest_line w) (clone_btn_enabled w) (log_view w) (boxes w) (dialog_open w) (threads w) (stderr w).

Definition set_cat_combo (x : QComboBox) (w : Window) : Window :=
  mkWindow (sample_config w) (repos_obj w) (repos w) (fs w) x (project_combo w) (component_combo w) (sidebar w) (dest_line w) (clone_btn_enabled w) (log_view w) (boxes w) (dialog_open w) (threads w) (stderr w).

Definition set_project_combo (x : QComboBox) (w : Window) : Window :=
  mkWindow (sample_config w) (repos_obj w) (repos w) (fs w) (cat_combo w) x (component_combo w) (sidebar w) (dest_line w) (clone_btn_enabled w) (log_view w) (boxes w) (dialog_open w) (threads w) (stderr w).

Definition set_component_combo (x : QComboBox) (w : Window) : Window :=
  mkWindow (sample_config w) (repos_obj w) (repos w) (fs w) (cat_combo w) (project_combo w) x (sidebar w) (dest_line w) (clone_btn_enabled w) (log_view w) (boxes w) (dialog_open w) (threads w) (stderr w).

Definition set_sidebar (x : list sidebar_item) (w : Window) : Window :=
  mkWindow (sample_config w) (repos_obj w) (repos w) (fs w) (cat_combo w) (project_combo w) (component_combo w) x (dest_line w) (clone_btn_enabled w) (log_view w) (boxes w) (dialog_open w) (threads w) (stderr w).

Definition set_dest_line (x : string) (w : Window) : Window :=
  mkWindow (sample_config w) (repos_obj w) (repos w) (fs w) (cat_combo w) (project_combo w) (component_combo w) (sidebar w) x (clone_btn_enabled w) (log_view w) (boxes w) (dialog_open w) (threads w) (stderr w).

Definition set_clone_btn_enabled (x : bool) (w : Window) : Window :=
  mkWindow (sample_config w) (repos_obj w) (repos w) (fs w) (cat_combo w) (project_combo w) (component_combo w) (sidebar w) (dest_line w) x (log_view w) (boxes w) (dialog_open w) (threads w) (stderr w).

Definition set_log_view (x : list string) (w : Window) : Window :=
  mkWindow (sample_config w) (repos_obj w) (repos w) (fs w) (cat_combo w) (project_combo w) (component_combo w) (sidebar w) (dest_line w) (clone_btn_enabled w) x (boxes w) (dialog_open w) (threads w) (stderr w).

Definition set_boxes (x : list msgbox) (w : Window) : Window :=
  mkWindow (sample_config w) (repos_obj w) (repos w) (fs w) (cat_combo w) (project_combo w) (component_combo w) (sidebar w) (dest_line w) (clone_btn_enabled w) (log_view w) x (dialog_open w) (threads w) (stderr w).

Definition set_dialog_open (x : bool) (w : Window) : Window :=
  mkWindow (sample_config w) (repos_obj w) (repos w) (fs w) (cat_combo w) (project_combo w) (component_combo w) (sidebar w) (dest_line w) (clone_btn_enabled w) (log_view w) (boxes w) x (threads w) (stderr w).

Definition set_threads (x : list (CloneThread * bool)) (w : Window) : Window :=
  mkWindow (sample_config w) (repos_obj w) (repos w) (fs w) (cat_combo w) (project_combo w) (component_combo w) (sidebar w) (dest_line w) (clone_btn_enabled w) (log_view w) (boxes w) (dialog_open w) x (stderr w).

Definition set_stderr (x : list exn) (w : Window) : Window :=
  mkWindow (sample_config w) (repos_obj w) (repos w) (fs w) (cat_combo w) (project_combo w) (component_combo w) (sidebar w) (dest_line w) (clone_btn_enabled w) (log_view w) (boxes w) (dialog_open w) (threads w) x.
Definition repos_value (w : Window) : pyval :=
  match repos w with
  | TheSample => sample_config w
  | Loaded => repos_obj w
  end.

(** An update in place of the object [self.repos] denotes. *)
Definition store_repos (v : pyval) (w : Window) : Window :=
  match repos w with
  | TheSample => set_sample_config v w
  | Loaded => set_repos_obj v w
  end.

Definition in_flight (w : Window) : nat :=
  List.length (filter (fun t => snd t) (threads w)).

(** *** Slots as computations: a state, and a result or an exception *)

Definition M (A : Type) : Type := Window -> result A * Window.

Definition ret {A} (a : A) : M A := fun w => (inr a, w).

Definition raise {A} (e : exn) : M A := fun w => (inl e, w).

Definition bind {A B} (m : M A) (k : A -> M B) : M B :=
  fun w =>
    match m w with
    | (inl e, w') => (inl e, w')
    | (inr a, w') => k a w'
    end.

Definition get : M Window := fun w => (inr w, w).

Definition modify (f : Window -> Window) : M unit := fun w => (inr tt, f w).

Definition lift {A} (r : result A) : M A := fun w => (r, w).

(** [try: m except Exception as e: ...], the handler being the caller's. *)
Definition try_ {A} (m : M A) : M (result A) :=
  fun w => let (r, w') := m w in (inr r, w').

(** A slot called by Qt: an exception that leaves it is reported and the
    caller goes on. *)
Definition slot (m : M unit) : M unit :=
  fun w =>
    match m w with
    | (inl e, w') => (inr tt, set_stderr (stderr w' ++ [e])%list w')
    | (inr _, w') => (inr tt, w')
    end.

Declare Scope slot_scope.
Delimit Scope slot_scope with slot.
Notation "x <- m ;; k" := (bind m (fun x => k))
  (at level 61, m at next level, right associativity) : slot_scope.
Notation "m ;; k" := (bind m (fun _ => k))
  (at level 61, right associativity) : slot_scope.
Open Scope slot_scope.

Fixpoint for_each {A} (xs : list A) (body : A -> M unit) : M unit :=
  match xs with
  | [] => ret tt
  | x :: rest => body x ;; for_each rest body
  end.

Definition message (k : box_kind) (title text : string) : M unit :=
  modify (fun w =>
    set_boxes (boxes w ++ [{| kind := k; title := title; text := text |}])%list w).

Definition append_log (text : string) : M unit :=
  modify (fun w => set_log_view (log_view w ++ [text])%list w).

(** [with CONFIG_FILE.open("w") as f: json.dump(v, f, indent=2)]. *)
Definition write_config (v : pyval) : M unit :=
  fun w =>
    match open_w_raises (fs w) with
    | Some e => (inl e, w)
    | None => (inr tt, set_fs (set_config_file (Holds (json_dumps v)) (fs w)) w)
    end.

(** ** [SimpleCloneManager] *)

(** What [load_or_create_config] returns: the [SAMPLE_CONFIG] object itself,
    or the new object [json.load] made. *)
Inductive loaded : Type :=
| RetSample
| RetNew (data : pyval).

(** [self.repos = ...] with the value [load_or_create_config] returned. *)
Definition assign_repos (l : loaded) : M unit :=
  modify (fun w =>
    match l with
    | RetSample => set_repos TheSample w
    | RetNew data => set_repos Loaded (set_repos_obj data w)
    end).

(** What the user and the file system answer while [clone_button_clicked]
    looks at the destination. *)
Record click_env : Type := {
  dest_exists : bool;            (* [dest_path.exists()] *)
  dest_any : result bool;        (* [any(dest_path.iterdir())] *)
  answer_yes : bool;             (* the answer to the question is [Yes] *)
  clear_raises : option exn }.   (* what [rmtree] or [unlink] raises, if it does *)

(** Lines 467 to 476 of [save_new_project]: the update of the catalog in
    memory, which the specification calls [upsertComponent]. *)
Definition upsertComponent (repo_type_key project_name component_name repo_url : string)
  : M unit :=
  w <- get ;;
  known <- lift (py_contains repo_type_key (repos_value w)) ;;
  (if negb known
   then v <- lift (py_setitem (repos_value w) repo_type_key (PDict [])) ;;
        modify (store_repos v)
   else ret tt) ;;
  w <- get ;;
  c <- lift (py_getitem (repos_value w) repo_type_key) ;;
  present <- lift (py_contains project_name c) ;;
  (if negb present
   then c' <- lift (py_setitem c project_name (PDict [])) ;;
        v <- lift (py_setitem (repos_value w) repo_type_key c') ;;
        modify (store_repos v)
   else ret tt) ;;
  w <- get ;;
  c <- lift (py_getitem (repos_value w) repo_type_key) ;;
  p <- lift (py_getitem c project_name) ;;
  p' <- lift (py_setitem p component_name (PStr repo_url)) ;;
  c' <- lift (py_setitem c project_name p') ;;
  v <- lift (py_setitem (repos_value w) repo_type_key c') ;;
  modify (store_repos v).

Definition component_combo_do (op : QComboBox -> QComboBox * option string) : M unit :=
  modify (fun w => set_component_combo (fst (op (component_combo w))) w).

Definition on_project_change (text : string) : M unit :=
  component_combo_do cb_clear ;;
  w <- get ;;
  let cat := currentText (cat_combo w) in
  let proj := text in
  if truthy cat && truthy proj then
    in_repos <- lift (py_contains cat (repos_value w)) ;;
    if in_repos then
      c <- lift (py_getitem (repos_value w) cat) ;;
      in_cat <- lift (py_contains proj c) ;;
      if in_cat then
        p <- lift (py_getitem c proj) ;;
        ks <- lift (py_keys p) ;;
        component_combo_do (cb_addItems (sorted ks))
      else ret tt
    else ret tt
  else ret tt.

(** An operation on [project_combo]; [currentTextChanged] is connected to
    [on_project_change]. *)
Definition project_combo_do (op : QComboBox -> QComboBox * option string) : M unit :=
  w <- get ;;
  let (cb, signal) := op (project_combo w) in
  modify (set_project_combo cb) ;;
  match signal with
  | Some t => slot (on_project_change t)
  | None => ret tt
  end.

Definition on_category_change (text : string) : M unit :=
  project_combo_do cb_clear ;;
  w <- get ;;
  if truthy text then
    in_repos <- lift (py_contains text (repos_value w)) ;;
    if in_repos then
      c <- lift (py_getitem (repos_value w) text) ;;
      ks <- lift (py_keys c) ;;
      project_combo_do (cb_addItems (sorted ks)) ;;
      w <- get ;;
      if Nat.ltb 0 (count (project_combo w)) then
        project_combo_do (cb_setCurrentIndex 0) ;;
        w <- get ;;
        on_project_change (currentText (project_combo w))
      else ret tt
    else ret tt
  else ret tt.

(** An operation on [cat_combo]; [currentTextChanged] is connected to
    [on_category_change]. *)
Definition cat_combo_do (op : QComboBox -> QComboBox * option string) : M unit :=
  w <- get ;;
  let (cb, signal) := op (cat_combo w) in
  modify (set_cat_combo cb) ;;
  match signal with
  | Some t => slot (on_category_change t)
  | None => ret tt
  end.

Definition populate_sidebar : M unit :=
  modify (set_sidebar []) ;;
  w <- get ;;
  cats <- lift (py_keys (repos_value w)) ;;
  for_each (sorted cats) (fun cat =>
    modify (fun w => set_sidebar (sidebar w ++ [CategoryItem cat])%list w) ;;
    c <- lift (py_getitem (repos_value w) cat) ;;
    projs <- lift (py_keys c) ;;
    for_each (sorted projs) (fun proj =>
      modify (fun w => set_sidebar (sidebar w ++ [ProjectItem cat proj])%list w))).

Definition clone_finished (success : bool) (info : string) : M unit :=
  append_log ("Clone finished. success=" ++ str_of_bool success ++ ", info=" ++ info) ;;
  message Information "Clone Finished"
    ("Finished: success=" ++ str_of_bool success ++ ", info=" ++ info) ;;
  modify (set_clone_btn_enabled true).

Definition clone_button_clicked (env : click_env) : M unit :=
  w <- get ;;
  let cat := currentText (cat_combo w) in
  let proj := currentText (project_combo w) in
  let comp := currentText (component_combo w) in
  if negb (truthy cat) || negb (truthy proj) || negb (truthy comp) then
    message Warning "Selection required" "Please select category, project and component."
  else
    match lookup3 (repos_value w) cat proj comp with
    | inl _ => message Critical "Error" "Repo URL not found in config for selected item."
    | inr u =>
        let d := strip (dest_line w) in
        if negb (truthy d) then
          message Warning "Destination required" "Please select a destination folder."
        else
          let dest_path := truediv (truediv (Path_of d) proj) comp in
          go_on <-
            (if dest_exists env then
               nonempty <- lift (dest_any env) ;;
               if nonempty then
                 message Question "Destination Not Empty"
                   ("The destination folder " ++ str_of_path dest_path
                    ++ " already exists and is not empty. Overwrite?") ;;
                 if answer_yes env then
                   match clear_raises env with
                   | Some e =>
                       message Critical "Error"
                         ("Failed to clear destination: " ++ str_of_exn e) ;;
                       ret false
                   | None => ret true
                   end
                 else ret false
               else ret true
             else ret true) ;;
          if go_on then
            modify (set_clone_btn_enabled false) ;;
            append_log ("Cloning " ++ py_str u ++ " into " ++ str_of_path dest_path ++ " ...") ;;
            modify (fun w =>
              set_threads
                (threads w ++ [(new_CloneThread u (str_of_path dest_path), true)])%list w)
          else ret tt
    end.

Section WithJson.

(** [json.load] on the text of the file: the value, or the exception. *)
Variable json_load : string -> result pyval.

Definition load_or_create_config : M loaded :=
  w <- get ;;
  match config_file (fs w) with
  | Missing =>
      write_config (sample_config w) ;;
      message Information "Sample Config Created"
        ("repos.json was not found and a sample has been created at "
         ++ resolved (fs w) ++ LF ++ LF ++ "Please update it with your repo links.") ;;
      ret RetSample
  | Unreadable e =>
      message Critical "Config Error" ("Failed to read repos.json: " ++ str_of_exn e) ;;
      ret RetSample
  | Holds content =>
      match json_load content with
      | inr data => ret (RetNew data)
      | inl e =>
          message Critical "Config Error" ("Failed to read repos.json: " ++ str_of_exn e) ;;
          ret RetSample
      end
  end.

Definition refresh_projects : M unit :=
  l <- load_or_create_config ;;
  assign_repos l ;;
  populate_sidebar ;;
  w <- get ;;
  let cur_cat := currentText (cat_combo w) in
  cat_combo_do cb_clear ;;
  w <- get ;;
  ks <- lift (py_keys (repos_value w)) ;;
  cat_combo_do (cb_addItems (sorted ks)) ;;
  w <- get ;;
  (if truthy cur_cat then
     again <- lift (py_contains cur_cat (repos_value w)) ;;
     if again then cat_combo_do (cb_setCurrentText cur_cat) else ret tt
   else ret tt) ;;
  append_log "Refreshed project list from repos.json".

Definition save_new_project
  (repo_type project_name component_name repo_url : string) : M unit :=
  if negb (truthy project_name) || negb (truthy component_name) || negb (truthy repo_url)
  then message Warning "Validation" "Please fill all fields."
  else
    let repo_type_key := repo_type in
    upsertComponent repo_type_key project_name component_name repo_url ;;
    w <- get ;;
    written <- try_ (write_config (repos_value w)) ;;
    match written with
    | inl e => message Critical "Error" ("Failed to write repos.json: " ++ str_of_exn e)
    | inr _ =>
        append_log ("Added project: " ++ repo_type_key ++ "/" ++ project_name ++ "/"
                    ++ component_name ++ LF) ;;
        message Information "Saved" "Project added successfully." ;;
        modify (set_dialog_open false) ;;
        refresh_projects ;;
        cat_combo_do (cb_setCurrentText repo_type_key) ;;
        project_combo_do (cb_setCurrentText project_name) ;;
        component_combo_do (cb_setCurrentText component_name)
    end.

(** [add_project_dialog], the user choosing a repo type (or leaving the first
    one), typing the three texts and pressing Save. *)
Definition add_project_dialog (choice : option nat) (project component repo_url : string)
  : M unit :=
  w <- get ;;
  ks <- lift (py_keys (repos_value w)) ;;
  let type_combo := fst (cb_addItems (sorted ks) empty_combo) in
  let type_combo :=
    match choice with
    | Some i => if Nat.ltb i (count type_combo) then fst (cb_setCurrentIndex i type_combo)
                else type_combo
    | None => type_combo
    end in
  modify (set_dialog_open true) ;;
  slot (save_new_project (currentText type_combo)
          (strip project) (strip component) (strip repo_url)).

(** The state the module and the constructor start from. *)
Definition blank (files : FileSystem) : Window :=
  {| sample_config := SAMPLE_CONFIG; repos_obj := PNone; repos := TheSample;
     fs := files;
     cat_combo := empty_combo; project_combo := empty_combo;
     component_combo := empty_combo;
     sidebar := []; dest_line := ""; clone_btn_enabled := true;
     log_view := []; boxes := []; dialog_open := false; threads := []; stderr := [] |}.

(** [SimpleCloneManager.__init__]. *)
Definition init : M unit :=
  l <- load_or_create_config ;;
  assign_repos l ;;
  w <- get ;;
  ks <- lift (py_keys (repos_value w)) ;;
  modify (fun w => set_cat_combo (fst (cb_addItems (sorted ks) (cat_combo w))) w) ;;
  modify (fun w =>
    set_dest_line (str_of_path (truediv (Path_of (cwd (fs w))) "cloned")) w) ;;
  populate_sidebar ;;
  w <- get ;;
  if Nat.ltb 0 (count (cat_combo w)) then
    cat_combo_do (cb_setCurrentIndex 0) ;;
    w <- get ;;
    on_category_change (currentText (cat_combo w))
  else ret tt.

(** *** What happens to the window *)

Inductive event : Type :=
| ClickCloneButton (env : click_env)     (* the Clone push button *)
| TriggerCloneAction (env : click_env)   (* the Clone action of the toolbar *)
| TriggerRefresh                         (* the Refresh action *)
| TriggerAddProject (choice : option nat) (project component repo_url : string)
| ThreadRuns (i : nat) (env : run_env)   (* the thread started i-th runs to its end *)
| FileChanged (f : file_state).          (* another program rewrites or removes repos.json *)

(** The signals of a thread reach the slots connected in
    [clone_button_clicked]. *)
Fixpoint deliver (t : list effect) : M unit :=
  match t with
  | [] => ret tt
  | LogEmit s :: rest => slot (append_log s) ;; deliver rest
  | FinishedEmit success info :: rest => slot (clone_finished success info) ;; deliver rest
  | _ :: rest => deliver rest
  end.

Fixpoint mark_done (i : nat) (ts : list (CloneThread * bool)) : list (CloneThread * bool) :=
  match ts, i with
  | [], _ => []
  | (th, _) :: rest, O => (th, false) :: rest
  | t :: rest, S j => t :: mark_done j rest
  end.

Definition thread_runs (i : nat) (env : run_env) : M unit :=
  w <- get ;;
  match nth_error (threads w) i with
  | Some (th, true) =>
      let (t, outcome) := run th env in
      deliver t ;;
      modify (fun w => set_threads (mark_done i (threads w)) w) ;;
      match outcome with
      | inl e => modify (fun w => set_stderr (stderr w ++ [e])%list w)
      | inr _ => ret tt
      end
  | _ => ret tt
  end.

(** One event.  A disabled push button emits no [clicked]; the toolbar
    action is never disabled. *)
Definition step (w : Window) (ev : event) : Window :=
  snd
    (match ev with
     | ClickCloneButton env =>
         if clone_btn_enabled w then slot (clone_button_clicked env) w else (inr tt, w)
     | TriggerCloneAction env => slot (clone_button_clicked env) w
     | TriggerRefresh => slot refresh_projects w
     | TriggerAddProject choice p c u => slot (add_project_dialog choice p c u) w
     | ThreadRuns i env => thread_runs i env w
     | FileChanged f => (inr tt, set_fs (set_config_file f (fs w)) w)
     end).

Definition steps (w : Window) (evs : list event) : Window := fold_left step evs w.

End WithJson.

(** ** The catalog update, in one expression

    "Creates category and project levels if absent; sets or overwrites
    catalog[category][project][component] = url": the dictionary found at a
    key, or an empty one, is updated and put back. *)

Definition sub_dict (v : option pyval) : list (string * pyval) :=
  match v with
  | Some (PDict d) => d
  | _ => []
  end.

Definition upsert_spec (catalog : list (string * pyval))
  (category project component url_ : string) : list (string * pyval) :=
  let projects := sub_dict (dict_get category catalog) in
  let components := sub_dict (dict_get project projects) in
  dict_set category
    (PDict (dict_set project (PDict (dict_set component (PStr url_) components)) projects))
    catalog.

(** ** Frame conditions

    A computation that leaves the started threads and the state of the
    Clone push button as they are. *)

Definition keeps_clone_state {A} (m : M A) : Prop :=
  forall w, threads (snd (m w)) = threads w
            /\ clone_btn_enabled (snd (m w)) = clone_btn_enabled w.

Definition is_toolbar_clone (ev : event) : bool :=
  match ev with
  | TriggerCloneAction _ => true
  | _ => false
  end.

(** At most one task runs, and none while the push button is enabled. *)
Definition one_clone_at_a_time (w : Window) : Prop :=
  in_flight w <= 1 /\ (clone_btn_enabled w = true -> in_flight w = 0).

(** ** A stand-in for [json.load] in examples

    The decoder is the library's; an example fixes its answer on the texts
    that occur in it.  A text it does not list is rejected the way the
    library rejects the empty text. *)

Definition JSONDecodeError (m : string) : exn := OtherError "JSONDecodeError" m.

Definition json_load_known (known : list (string * result pyval)) (content : string)
  : result pyval :=
  match dict_get content known with
  | Some r => r
  | None => inl (JSONDecodeError "Expecting value: line 1 column 1 (char 0)")
  end.

(** ** Data for examples *)

Definition example_thread : CloneThread :=
  new_CloneThread (PStr "https://github.com/user/projectB-component1.git")
    "/home/u/cloned/ProjectB/Component1".

(** No [repos.json] yet, in a directory that can be written. *)
Definition example_files : FileSystem :=
  {| config_file := Missing; open_w_raises := None;
     resolved := "/home/u/repos.json"; cwd := "/home/u" |}.

(** The window after [__init__] there: the sample catalog, first category,
    first project and first component selected. *)
Definition example_window : Window := snd (init (json_load_known []) (blank example_files)).

(** Output of a clone: two lines, and a call of [stop()] between them. *)
Definition example_output : list stdout_event :=
  [ Line ("Cloning into 'Component1'..." ++ LF);
    StopCall;
    Line ("remote: Counting objects" ++ LF) ].

(** The sample catalog with one more project, and a decoder that knows the
    texts of the examples: the catalogs as [json.dump] writes them, an array,
    and a text cut short after its first brace. *)
Definition sample_with_new_project : pyval :=
  PDict (upsert_spec (sub_dict (Some SAMPLE_CONFIG))
           "dev" "NewProject" "core" "https://example.org/core.git").

(** A catalog whose only category has the empty name. *)
Definition unnamed_category_catalog : pyval :=
  PDict [("", PDict [("ProjectA",
                      PDict [("ui", PStr "https://github.com/user/localization-projectA-ui.git")])])].

Definition example_json_load : string -> result pyval :=
  json_load_known
    [ (json_dumps SAMPLE_CONFIG, inr SAMPLE_CONFIG);
      (json_dumps sample_with_new_project, inr sample_with_new_project);
      (json_dumps unnamed_category_catalog, inr unnamed_category_catalog);
      ("[]", inr (PList []));
      ("{", inl (JSONDecodeError
                   "Expecting property name enclosed in double quotes: line 1 column 2 (char 1)")) ].

(** A [repos.json] that is cut short and cannot be written. *)
Definition broken_files : FileSystem :=
  {| config_file := Holds "{";
     open_w_raises := Some (OtherError "PermissionError"
                              "[Errno 13] Permission denied: 'repos.json'");
     resolved := "/home/u/repos.json"; cwd := "/home/u" |}.

(** The window after [__init__] on a file holding
    [unnamed_category_catalog]. *)
Definition unnamed_window : Window :=
  snd (init example_json_load
         (blank {| config_file := Holds (json_dumps unnamed_category_catalog);
                   open_w_raises := None;
                   resolved := "/home/u/repos.json"; cwd := "/home/u" |})).

(** [example_window] after the user has chosen the category
    [localization]. *)
Definition localization_window : Window :=
  snd (cat_combo_do (cb_setCurrentText "localization") example_window).

(** The user adds the component [core] of a new project [NewProject] to the
    first category, in [example_window] and in the window opened on
    [broken_files]. *)
Definition add_new_project : event :=
  TriggerAddProject None "NewProject" "core" "https://example.org/core.git".

Definition window_after_add : Window :=
  step example_json_load example_window add_new_project.

Definition broken_window_after_add : Window :=
  step example_json_load (snd (init example_json_load (blank broken_files)))
    add_new_project.

(** The destination does not exist yet. *)
Definition fresh_destination : click_env :=
  {| dest_exists := false; dest_any := inr false; answer_yes := false;
     clear_raises := None |}.

(** ** What the three boxes should show

    The names the category, project and component boxes list for a catalog
    and a selection; an empty name counts as no selection, and so does a name
    the catalog does not have. *)

Definition box_of (texts : list string) : QComboBox := fst (cb_addItems texts empty_combo).

Definition category_list (v : pyval) : list string :=
  match py_keys v with
  | inr ks => sorted ks
  | inl _ => []
  end.

Definition project_list (v : pyval) (cat : string) : list string :=
  if truthy cat then
    match project_names v cat with
    | inr names => sorted names
    | inl _ => []
    end
  else [].

Definition component_list (v : pyval) (cat proj : string) : list string :=
  if truthy cat && truthy proj then
    match component_names v cat proj with
    | inr names => sorted names
    | inl _ => []
    end
  else [].

(** The catalog is well shaped and every box lists what belongs to the
    selection in the box before it. *)
Definition in_sync (w : Window) : Prop :=
  is_catalog (repos_value w) = true
  /\ items (cat_combo w) = category_list (repos_value w)
  /\ items (project_combo w)
     = project_list (repos_value w) (currentText (cat_combo w))
  /\ items (component_combo w)
     = component_list (repos_value w) (currentText (cat_combo w))
         (currentText (project_combo w)).

(** [on_sidebar_item_clicked] on an item made by [populate_sidebar]. *)
Definition on_sidebar_item_clicked (item : sidebar_item) : M unit :=
  match item with
  | CategoryItem _ => ret tt
  | ProjectItem cat proj =>
      cat_combo_do (cb_setCurrentText cat) ;;
      project_combo_do (cb_setCurrentText proj) ;;
      on_project_change proj
  end.

(** * Properties *)

(** ** Dictionaries *)

Section DictFacts.
Context {V : Type}.
Implicit Types (d : list (string * V)) (k : string) (v : V).

Lemma dict_get_set_same d k v : dict_get k (dict_set k v d) = Some v.
Proof.
  induction d as [|[k' v'] d IH]; simpl.
  - now rewrite String.eqb_refl.
  - destruct (k =? k') eqn:E; simpl.
    + now rewrite String.eqb_refl.
    + now rewrite E.
Qed.

Lemma dict_get_set_other d k k' v :
  k' <> k -> dict_get k' (dict_set k v d) = dict_get k' d.
Proof.
  intros Hne. induction d as [|[k0 v0] d IH]; simpl.
  - apply String.eqb_neq in Hne. now rewrite Hne.
  - destruct (k =? k0) eqn:E; simpl.
    + apply String.eqb_eq in E. subst k0.
      apply String.eqb_neq in Hne. now rewrite Hne.
    + destruct (k' =? k0); auto.
Qed.

Lemma dict_get_In d k v : dict_get k d = Some v -> In (k, v) d.
Proof.
  induction d as [|[k' v'] d IH]; simpl; [discriminate|].
  destruct (k =? k') eqn:E.
  - apply String.eqb_eq in E. subst. intros [= ->]. now left.
  - auto.
Qed.

Lemma dict_get_None d k : dict_get k d = None -> ~ In k (dict_keys d).
Proof.
  induction d as [|[k' v'] d IH]; simpl; [tauto|].
  destruct (k =? k') eqn:E; [discriminate|].
  apply String.eqb_neq in E. intros H [Hk|Hk]; [congruence|]. now apply IH.
Qed.

Lemma dict_get_Some_key d k v : dict_get k d = Some v -> In k (dict_keys d).
Proof.
  intros H. apply dict_get_In in H. unfold dict_keys.
  now apply (in_map fst) in H.
Qed.

Lemma dict_keys_set_present d k v v0 :
  dict_get k d = Some v0 -> dict_keys (dict_set k v d) = dict_keys d.
Proof.
  induction d as [|[k' v'] d IH]; simpl; [discriminate|].
  destruct (k =? k') eqn:E; simpl.
  - apply String.eqb_eq in E. now subst.
  - intros H. now rewrite IH.
Qed.

Lemma dict_keys_set_absent d k v :
  dict_get k d = None -> dict_keys (dict_set k v d) = (dict_keys d ++ [k])%list.
Proof.
  induction d as [|[k' v'] d IH]; simpl; [reflexivity|].
  destruct (k =? k') eqn:E; simpl; [discriminate|].
  intros H. now rewrite IH.
Qed.

Lemma forallb_dict_set (P : string * V -> bool) d k v :
  forallb P d = true -> P (k, v) = true -> forallb P (dict_set k v d) = true.
Proof.
  intros Hd Hv. induction d as [|[k' v'] d IH]; simpl in *.
  - now rewrite Hv.
  - apply andb_true_iff in Hd as [H1 H2].
    destruct (k =? k'); simpl.
    + now rewrite Hv, H2.
    + now rewrite H1, IH.
Qed.

Lemma forallb_dict_get (P : string * V -> bool) d k v :
  forallb P d = true -> dict_get k d = Some v -> P (k, v) = true.
Proof.
  intros Hd Hg. apply dict_get_In in Hg.
  rewrite forallb_forall in Hd. now apply Hd.
Qed.

End DictFacts.

Lemma nodupb_NoDup xs : nodupb xs = true <-> NoDup xs.
Proof.
  induction xs as [|x xs IH]; simpl.
  - split; [constructor | reflexivity].
  - rewrite andb_true_iff, negb_true_iff, IH. split.
    + intros [Hx Hn]. constructor; auto.
      intros Hin. assert (existsb (String.eqb x) xs = true) as E.
      { apply existsb_exists. exists x. split; [assumption | apply String.eqb_refl]. }
      congruence.
    + intros H. inversion H as [|? ? Hx Hn]; subst. split; auto.
      destruct (existsb (String.eqb x) xs) eqn:E; auto.
      apply existsb_exists in E as (y & Hy & Exy).
      apply String.eqb_eq in Exy. now subst.
Qed.

Lemma nodupb_dict_set {V} (d : list (string * V)) k v :
  nodupb (dict_keys d) = true -> nodupb (dict_keys (dict_set k v d)) = true.
Proof.
  intros H. destruct (dict_get k d) eqn:E.
  - now rewrite (dict_keys_set_present _ _ _ _ E).
  - rewrite (dict_keys_set_absent _ _ _ E).
    apply nodupb_NoDup. apply nodupb_NoDup in H.
    apply NoDup_app; [assumption | repeat constructor; intros [] | ].
    intros x Hx [<-|[]]. now apply (dict_get_None _ _ E).
Qed.

Lemma NoDup_count_occ_1 (xs : list string) x :
  NoDup xs -> In x xs -> count_occ string_dec xs x = 1.
Proof.
  intros Hn Hin. rewrite (NoDup_count_occ string_dec) in Hn.
  specialize (Hn x). apply (count_occ_In string_dec) in Hin. lia.
Qed.

Lemma dict_set_set_same {V} (d : list (string * V)) k x y :
  dict_set k x (dict_set k y d) = dict_set k x d.
Proof.
  induction d as [|[k' v'] d IH]; simpl.
  - now rewrite String.eqb_refl.
  - destruct (k =? k') eqn:E; simpl.
    + now rewrite String.eqb_refl.
    + now rewrite E, IH.
Qed.

Lemma dict_mem_get {V} (d : list (string * V)) k :
  dict_mem k d = match dict_get k d with Some _ => true | None => false end.
Proof. reflexivity. Qed.

(** ** Well-shaped catalogs *)

Lemma is_dict_of_get P d k x :
  is_dict_of P (PDict d) = true -> dict_get k d = Some x -> P x = true.
Proof.
  simpl. intros H Hg. apply andb_true_iff in H as [_ H].
  apply (forallb_dict_get _ _ _ _ H Hg).
Qed.

Lemma is_dict_of_set P d k x :
  is_dict_of P (PDict d) = true -> P x = true ->
  is_dict_of P (PDict (dict_set k x d)) = true.
Proof.
  simpl. intros H Hx. apply andb_true_iff in H as [H1 H2].
  apply andb_true_iff. split.
  - now apply nodupb_dict_set.
  - now apply forallb_dict_set.
Qed.

Lemma is_dict_of_inv P v :
  is_dict_of P v = true -> exists d, v = PDict d.
Proof. destruct v; simpl; try discriminate. eauto. Qed.

Lemma is_dict_of_sub_dict P Q d k :
  (forall x, P x = true -> is_dict_of Q x = true) ->
  is_dict_of P (PDict d) = true ->
  is_dict_of Q (PDict (sub_dict (dict_get k d))) = true.
Proof.
  intros HPQ H. destruct (dict_get k d) as [x|] eqn:E; [|reflexivity].
  pose proof (HPQ _ (is_dict_of_get _ _ _ _ H E)) as Hx.
  destruct (is_dict_of_inv _ _ Hx) as [d' ->]. exact Hx.
Qed.

Lemma sub_dict_get P d k x :
  is_dict_of P x = true -> dict_get k d = Some x -> PDict (sub_dict (dict_get k d)) = x.
Proof.
  intros Hx E. rewrite E. destruct (is_dict_of_inv _ _ Hx) as [d' ->]. reflexivity.
Qed.

Lemma upsert_spec_is_catalog cats c p k u :
  is_catalog (PDict cats) = true -> is_catalog (PDict (upsert_spec cats c p k u)) = true.
Proof.
  intros H. unfold upsert_spec. apply is_dict_of_set; [exact H|].
  assert (is_category (PDict (sub_dict (dict_get c cats))) = true) as Hc.
  { apply (is_dict_of_sub_dict is_category); auto. }
  apply is_dict_of_set; [exact Hc|].
  assert (is_project (PDict (sub_dict (dict_get p (sub_dict (dict_get c cats))))) = true)
    as Hp.
  { apply (is_dict_of_sub_dict is_project); auto. }
  apply is_dict_of_set; [exact Hp | reflexivity].
Qed.

Lemma upsert_spec_lookup cats c p k u :
  lookup3 (PDict (upsert_spec cats c p k u)) c p k = inr (PStr u).
Proof.
  unfold lookup3, upsert_spec. simpl.
  rewrite dict_get_set_same. simpl.
  rewrite dict_get_set_same. simpl.
  now rewrite dict_get_set_same.
Qed.

Lemma upsert_spec_twice cats c p k u1 u2 :
  upsert_spec (upsert_spec cats c p k u1) c p k u2 = upsert_spec cats c p k u2.
Proof.
  unfold upsert_spec.
  rewrite dict_get_set_same. cbn [sub_dict].
  rewrite dict_get_set_same. cbn [sub_dict].
  now rewrite !dict_set_set_same.
Qed.

(** ** The update in place of [self.repos] *)

Lemma repos_value_store v w : repos_value (store_repos v w) = v.
Proof. unfold repos_value, store_repos. destruct w as [? ? []]; reflexivity. Qed.

Lemma store_store v v' w : store_repos v (store_repos v' w) = store_repos v w.
Proof. unfold store_repos. destruct w as [? ? []]; reflexivity. Qed.

Lemma upsertComponent_refines w cats c p k u :
  repos_value w = PDict cats -> is_catalog (PDict cats) = true ->
  upsertComponent c p k u w = (inr tt, store_repos (PDict (upsert_spec cats c p k u)) w).
Proof.
  intros Hv Hc.
  unfold upsertComponent, bind, get, lift, modify, ret.
  rewrite Hv. cbn [py_contains].
  rewrite dict_mem_get.
  destruct (dict_get c cats) as [x|] eqn:Ec; cbn -[store_repos upsert_spec dict_set dict_get].
  - rewrite Hv. cbn [py_getitem]. rewrite Ec.
    pose proof (is_dict_of_get _ _ _ _ Hc Ec) as Hx.
    destruct (is_dict_of_inv _ _ Hx) as [projs ->].
    cbn [py_contains]. rewrite dict_mem_get.
    destruct (dict_get p projs) as [y|] eqn:Ep; cbn -[store_repos upsert_spec dict_set dict_get].
    + rewrite Hv. cbn -[store_repos upsert_spec dict_set dict_get]. rewrite Ec.
      cbn -[store_repos upsert_spec dict_set dict_get]. rewrite Ep.
      pose proof (is_dict_of_get _ _ _ _ Hx Ep) as Hy.
      destruct (is_dict_of_inv _ _ Hy) as [comps ->].
      cbn -[store_repos upsert_spec dict_set dict_get].
      unfold upsert_spec. rewrite Ec. cbn [sub_dict]. rewrite Ep. reflexivity.
    + repeat (rewrite ?repos_value_store, ?dict_get_set_same, ?store_store;
              cbn -[store_repos upsert_spec dict_set]).
      unfold upsert_spec. rewrite Ec. cbn [sub_dict]. rewrite Ep.
      cbn [sub_dict]. rewrite !dict_set_set_same. reflexivity.
  - repeat (rewrite ?repos_value_store, ?dict_get_set_same, ?store_store;
              cbn -[store_repos upsert_spec dict_set]).
    unfold upsert_spec. rewrite Ec. cbn [sub_dict dict_get].
    rewrite !dict_set_set_same. cbn [dict_set]. reflexivity.
Qed.

(** ** [sorted] *)

Lemma string_leb_trans a b c :
  String.leb a b = true -> String.leb b c = true -> String.leb a c = true.
Proof.
  unfold String.leb. revert b c.
  induction a as [|x a IH]; intros [|y b] [|z c]; simpl; try easy.
  unfold Ascii.compare.
  destruct (N.compare_spec (N_of_ascii x) (N_of_ascii y)) as [E1|L1|G1];
    destruct (N.compare_spec (N_of_ascii y) (N_of_ascii z)) as [E2|L2|G2];
    destruct (N.compare_spec (N_of_ascii x) (N_of_ascii z)) as [E3|L3|G3];
    try easy; try lia.
  apply IH.
Qed.

Lemma sorted_Permutation xs : Permutation xs (sorted xs).
Proof. apply StrSort.Permuted_sort. Qed.

Lemma sorted_StronglySorted xs :
  StronglySorted (fun a b => String.leb a b = true) (sorted xs).
Proof.
  apply StrSort.StronglySorted_sort.
  intros a b c. apply string_leb_trans.
Qed.

(** ** [CloneThread.run] *)

Lemma for_line_no_Popen out : forall self,
  existsb is_Popen (fst (for_line_in_stdout self out)) = false.
Proof.
  induction out as [|[l|] out IH]; intros self; simpl; auto.
  destruct (_stopped self); [reflexivity|].
  specialize (IH self). destruct (for_line_in_stdout self out). exact IH.
Qed.

Lemma for_line_finished out : forall self,
  finished_of (fst (for_line_in_stdout self out))
  = if snd (for_line_in_stdout self out) then [(false, "aborted")] else [].
Proof.
  induction out as [|[l|] out IH]; intros self; simpl; auto.
  destruct (_stopped self); [reflexivity|].
  specialize (IH self). destruct (for_line_in_stdout self out). exact IH.
Qed.

Lemma for_line_lines ls tl : forall self,
  _stopped self = false ->
  for_line_in_stdout self (map Line ls ++ tl)
  = (logged_lines (map Line ls) ++ fst (for_line_in_stdout self tl),
     snd (for_line_in_stdout self tl))%list.
Proof.
  induction ls as [|l ls IH]; intros self Hs; simpl.
  - now destruct (for_line_in_stdout self tl).
  - rewrite Hs, (IH self Hs). reflexivity.
Qed.

Lemma for_line_stopped out : forall self,
  _stopped self = true ->
  for_line_in_stdout self out
  = if existsb is_Line out then (abort_report, true) else ([], false).
Proof.
  induction out as [|[l|] out IH]; intros self Hs; simpl.
  - reflexivity.
  - now rewrite Hs.
  - now apply IH.
Qed.

Lemma finished_of_app a b : finished_of (a ++ b) = (finished_of a ++ finished_of b)%list.
Proof. apply flat_map_app. Qed.

Lemma run_except_finished e :
  finished_of (run_except e)
  = [(false, match e with FileNotFoundError _ => "git-not-found" | _ => str_of_exn e end)].
Proof. destruct e; reflexivity. Qed.

Lemma after_wait_finished ret :
  finished_of (after_wait ret)
  = [if (ret =? 0)%Z then (true, "success") else (false, "exit " ++ str_of_int ret)].
Proof. unfold after_wait. destruct (ret =? 0)%Z; reflexivity. Qed.

(** Once the directory is there, [run] returns and has emitted
    [finished_signal] once. *)
Lemma run_reports_once self env :
  mkdir_raises env = None ->
  snd (run self env) = inr tt /\
  exists report, finished_of (fst (run self env)) = [report].
Proof.
  intros Hm. unfold run. rewrite Hm.
  destruct (popen env) as [e|out fin].
  - split; [reflexivity|]. simpl. rewrite run_except_finished. eauto.
  - pose proof (for_line_finished out self) as Hf.
    destruct (for_line_in_stdout self out) as [t returned]. simpl in Hf.
    destruct returned.
    + split; [reflexivity|]. simpl. rewrite Hf. eauto.
    + destruct fin as [ret|e]; (split; [reflexivity|]); simpl;
        rewrite finished_of_app, Hf; simpl.
      * rewrite after_wait_finished. eauto.
      * rewrite run_except_finished. eauto.
Qed.

(** What [run] reports, outcome by outcome, once the directory is there. *)
Lemma run_report self env :
  mkdir_raises env = None ->
  finished_of (fst (run self env)) =
  match popen env with
  | LaunchRaises (FileNotFoundError _) => [(false, "git-not-found")]
  | LaunchRaises e => [(false, str_of_exn e)]
  | Launched out fin =>
      if snd (for_line_in_stdout self out) then [(false, "aborted")]
      else match fin with
           | Eof ret =>
               if (ret =? 0)%Z then [(true, "success")]
               else [(false, "exit " ++ str_of_int ret)]
           | ReadRaises (FileNotFoundError _) => [(false, "git-not-found")]
           | ReadRaises e => [(false, str_of_exn e)]
           end
  end.
Proof.
  intros Hm. unfold run. rewrite Hm.
  destruct (popen env) as [e|out fin].
  - simpl. rewrite run_except_finished. now destruct e.
  - pose proof (for_line_finished out self) as Hf.
    destruct (for_line_in_stdout self out) as [t returned]. simpl in Hf |- *.
    destruct returned; [exact Hf|].
    destruct fin as [ret|e]; simpl; rewrite finished_of_app, Hf; simpl.
    + rewrite after_wait_finished. now destruct (ret =? 0)%Z.
    + rewrite run_except_finished. now destruct e.
Qed.

(** C1: [run] is meant to deliver exactly one [finished] event whatever
    happens.  The creation of the parent directory stands before the [try]:
    when it raises, the exception leaves [run] and no [finished] event is
    emitted at all. *)
Theorem run_mkdir_failure_reports_nothing (self : CloneThread) (e : exn) (l : launch) :
  snd (run self {| mkdir_raises := Some e; popen := l |}) = inl e
  /\ finished_of (fst (run self {| mkdir_raises := Some e; popen := l |})) = []
  /\ existsb is_Popen (fst (run self {| mkdir_raises := Some e; popen := l |})) = false.
Proof. repeat split. Qed.

(** C2, as amended: [stop()] is called while the task runs, after the lines
    [ls] have been read and before the events [rest].  If [rest] holds one
    more line, the task kills the process at that line, logs the abort and
    reports [finished(False, "aborted")], the line itself being dropped; if
    no line follows, the flag is never looked at and the report is the one of
    the end of the output (exit status or read error). *)
Theorem stop_observed_at_next_line
  (self : CloneThread) (env : run_env) (ls : list string)
  (rest : list stdout_event) (fin : stream_end) :
  mkdir_raises env = None ->
  _stopped self = false ->
  popen env = Launched (map Line ls ++ StopCall :: rest) fin ->
  snd (run self env) = inr tt
  /\ fst (run self env)
     = (run_head self ++ logged_lines (map Line ls)
        ++ (if existsb is_Line rest then abort_report else end_report fin))%list.
Proof.
  intros Hm Hs Hp. unfold run. rewrite Hm, Hp.
  rewrite (for_line_lines ls (StopCall :: rest) self Hs).
  cbn [for_line_in_stdout].
  rewrite (for_line_stopped rest (stop self) eq_refl).
  destruct (existsb is_Line rest); cbn [fst snd].
  - split; reflexivity.
  - rewrite app_nil_r. destruct fin; split; reflexivity.
Qed.

(** C2, a counterexample to the claim as stated: [stop()] is called before
    the process has produced any output, the process prints nothing and exits
    with status 0.  The task does not kill it, logs no abort and reports
    success. *)
Example stop_without_further_output_reports_success :
  run example_thread {| mkdir_raises := None; popen := Launched [StopCall] (Eof 0) |}
  = ([ Mkdir "/home/u/cloned/ProjectB";
       LogEmit ("Starting clone: https://github.com/user/projectB-component1.git"
                ++ " -> /home/u/cloned/ProjectB/Component1" ++ LF);
       Popen [ PStr "git"; PStr "clone";
               PStr "https://github.com/user/projectB-component1.git";
               PStr "/home/u/cloned/ProjectB/Component1" ];
       LogEmit ("Clone completed successfully." ++ LF);
       FinishedEmit true "success" ],
     inr tt).
Proof. reflexivity. Qed.

Lemma stop_observed_at_next_line_witness :
  snd (run example_thread
         {| mkdir_raises := None; popen := Launched example_output (Eof 0) |})
  = inr tt
  /\ fst (run example_thread
            {| mkdir_raises := None; popen := Launched example_output (Eof 0) |})
     = (run_head example_thread
        ++ [LogEmit "Cloning into 'Component1'..."]
        ++ [Kill; LogEmit ("Clone aborted by user." ++ LF)%string;
            FinishedEmit false "aborted"])%list.
Proof.
  exact (stop_observed_at_next_line example_thread
           {| mkdir_raises := None; popen := Launched example_output (Eof 0) |}
           [("Cloning into 'Component1'..." ++ LF)%string]
           [Line ("remote: Counting objects" ++ LF)] (Eof 0)
           eq_refl eq_refl eq_refl).
Defined.

(** ** Paths: parsing what was printed *)

Lemma split_on_nonempty sep s : split_on sep s <> [].
Proof.
  destruct s as [|c s]; simpl; [discriminate|].
  destruct (split_on sep s); [discriminate|]. destruct (Ascii.eqb c sep); discriminate.
Qed.

Lemma split_on_piece x rest :
  no_slash x = true ->
  split_on "/"%char (x ++ String "/"%char rest) = x :: split_on "/"%char rest.
Proof.
  induction x as [|a x IH]; intros H.
  - simpl. destruct (split_on "/"%char rest) eqn:E; [|reflexivity].
    now apply split_on_nonempty in E.
  - unfold no_slash in H. simpl in H. apply andb_true_iff in H as [Ha Hx].
    cbn [append split_on]. rewrite (IH Hx).
    apply negb_true_iff in Ha. now rewrite Ha.
Qed.

Lemma split_on_whole x : no_slash x = true -> split_on "/"%char x = [x].
Proof.
  induction x as [|a x IH]; intros H; [reflexivity|].
  unfold no_slash in H. simpl in H. apply andb_true_iff in H as [Ha Hx].
  cbn [split_on]. rewrite (IH Hx). apply negb_true_iff in Ha. now rewrite Ha.
Qed.

Lemma split_on_join ps :
  ps <> [] -> forallb good_part ps = true ->
  split_on "/"%char (join "/" ps) = ps.
Proof.
  induction ps as [|x ps IH]; [congruence|]. intros _ H.
  simpl in H. apply andb_true_iff in H as [Hx Hps].
  assert (no_slash x = true) as Hn by (unfold good_part in Hx; now apply andb_true_iff in Hx).
  destruct ps as [|y ps].
  - simpl. now apply split_on_whole.
  - change (join "/" (x :: y :: ps)) with (x ++ String "/"%char (join "/" (y :: ps))).
    rewrite (split_on_piece _ _ Hn), IH; [reflexivity | discriminate | exact Hps].
Qed.

Lemma split_on_no_slash s : forallb no_slash (split_on "/"%char s) = true.
Proof.
  induction s as [|c s IH]; [reflexivity|].
  cbn [split_on]. destruct (split_on "/"%char s) as [|h t] eqn:S;
    [now apply split_on_nonempty in S|].
  simpl in IH. apply andb_true_iff in IH as [Hh Ht].
  destruct (Ascii.eqb c "/"%char) eqn:E; simpl.
  - now rewrite Hh, Ht.
  - unfold no_slash in *. simpl. now rewrite E, Hh, Ht.
Qed.

Lemma filter_good ps :
  forallb good_part ps = true ->
  filter (fun p => negb (p =? "") && negb (p =? ".")) ps = ps.
Proof.
  induction ps as [|x ps IH]; [reflexivity|]. simpl. intros H.
  apply andb_true_iff in H as [Hx Hps]. unfold good_part in Hx.
  apply andb_true_iff in Hx as [Hx _]. now rewrite Hx, IH.
Qed.

Lemma path_parts_join ps :
  forallb good_part ps = true -> path_parts (join "/" ps) = ps.
Proof.
  intros H. unfold path_parts. destruct ps as [|x ps]; [reflexivity|].
  rewrite split_on_join; [now apply filter_good | discriminate | exact H].
Qed.

Lemma join_head ps :
  ps <> [] -> forallb good_part ps = true ->
  exists a rest, join "/" ps = String a rest /\ Ascii.eqb a "/"%char = false.
Proof.
  destruct ps as [|x ps]; [congruence|]. intros _ H.
  simpl in H. apply andb_true_iff in H as [Hx _]. unfold good_part in Hx.
  apply andb_true_iff in Hx as [Hx Hn]. apply andb_true_iff in Hx as [He _].
  destruct x as [|a x]; [discriminate|].
  unfold no_slash in Hn. simpl in Hn. apply andb_true_iff in Hn as [Ha _].
  apply negb_true_iff in Ha.
  exists a. destruct ps; simpl; eauto.
Qed.

Lemma prefix_cons_ne c s1 a s2 :
  Ascii.eqb a c = false -> prefix (String c s1) (String a s2) = false.
Proof.
  intros H. cbn [prefix]. destruct (ascii_dec c a) as [->|]; [|reflexivity].
  now rewrite Ascii.eqb_refl in H.
Qed.

Lemma prefix_cons_eq c s1 s2 : prefix (String c s1) (String c s2) = prefix s1 s2.
Proof. cbn [prefix]. destruct (ascii_dec c c); congruence. Qed.

Lemma path_root_relative a rest :
  Ascii.eqb a "/"%char = false -> path_root (String a rest) = "".
Proof. intros H. unfold path_root. now rewrite !prefix_cons_ne. Qed.

Lemma path_root_one a rest :
  Ascii.eqb a "/"%char = false -> path_root ("/" ++ String a rest) = "/".
Proof.
  intros H. unfold path_root. cbn [append].
  now rewrite !prefix_cons_eq, !prefix_cons_ne.
Qed.

Lemma path_root_two a rest :
  Ascii.eqb a "/"%char = false -> path_root ("//" ++ String a rest) = "//".
Proof.
  intros H. unfold path_root. cbn [append].
  now rewrite !prefix_cons_eq, !prefix_cons_ne.
Qed.

(** A path that was built by parsing and joining prints to a text that
    parses back to it. *)
Lemma Path_of_str_of_path p : wf_path p = true -> Path_of (str_of_path p) = p.
Proof.
  destruct p as [r ps]. unfold wf_path. cbn [root parts]. intros H.
  apply andb_true_iff in H as [Hr Hps].
  assert (ps = [] \/ exists a rest, join "/" ps = String a rest
                                    /\ Ascii.eqb a "/"%char = false) as Hj.
  { destruct ps; [now left | right; apply join_head; [discriminate | exact Hps]]. }
  unfold Path_of, str_of_path. cbn [root parts].
  apply orb_true_iff in Hr as [Hr|Hr]; [apply orb_true_iff in Hr as [Hr|Hr]|];
    apply String.eqb_eq in Hr; subst r.
  - destruct Hj as [->|(a & rest & E & Ha)]; [reflexivity|].
    destruct ps as [|x ps]; [discriminate|].
    cbn [append]. rewrite (path_parts_join _ Hps). f_equal.
    rewrite E. now apply path_root_relative.
  - assert (path_parts ("/" ++ join "/" ps) = ps) as Hp.
    { unfold path_parts. change ("/" ++ join "/" ps) with ("" ++ String "/"%char (join "/" ps)).
      rewrite split_on_piece by reflexivity. cbn [filter String.eqb negb andb].
      fold (path_parts (join "/" ps)). now apply path_parts_join. }
    assert (path_root ("/" ++ join "/" ps) = "/") as Hroot.
    { destruct Hj as [->|(a & rest & E & Ha)]; [reflexivity|].
      rewrite E. now apply path_root_one. }
    destruct ps; now rewrite ?Hroot, ?Hp.
  - assert (path_parts ("//" ++ join "/" ps) = ps) as Hp.
    { unfold path_parts.
      change ("//" ++ join "/" ps)
        with ("" ++ String "/"%char ("" ++ String "/"%char (join "/" ps))).
      rewrite !split_on_piece by reflexivity. cbn [filter String.eqb negb andb].
      fold (path_parts (join "/" ps)). now apply path_parts_join. }
    assert (path_root ("//" ++ join "/" ps) = "//") as Hroot.
    { destruct Hj as [->|(a & rest & E & Ha)]; [reflexivity|].
      rewrite E. now apply path_root_two. }
    destruct ps; now rewrite ?Hroot, ?Hp.
Qed.

Lemma wf_Path_of s : wf_path (Path_of s) = true.
Proof.
  unfold wf_path, Path_of. cbn [root parts]. apply andb_true_iff. split.
  - unfold path_root.
    destruct (prefix "///" s); [reflexivity|].
    destruct (prefix "//" s); [reflexivity|].
    destruct (prefix "/" s); reflexivity.
  - unfold path_parts. pose proof (split_on_no_slash s) as H.
    induction (split_on "/"%char s) as [|x xs IH]; [reflexivity|].
    simpl in H. apply andb_true_iff in H as [Hx Hxs]. simpl.
    destruct (negb (x =? "") && negb (x =? ".")) eqn:E; [|now apply IH].
    simpl. unfold good_part at 1. now rewrite E, Hx, IH.
Qed.

Lemma wf_truediv p s : wf_path p = true -> wf_path (truediv p s) = true.
Proof.
  intros H. unfold truediv. pose proof (wf_Path_of s) as Hs.
  destruct (truthy (root (Path_of s))); [exact Hs|].
  unfold wf_path in *. cbn [root parts].
  apply andb_true_iff in H as [Hr Hp]. apply andb_true_iff in Hs as [_ Hq].
  now rewrite Hr, forallb_app, Hp, Hq.
Qed.

(** [Path(str(Path(r) / p / c))] is [Path(r) / p / c]. *)
Lemma Path_of_destination r p c :
  Path_of (str_of_path (truediv (truediv (Path_of r) p) c))
  = truediv (truediv (Path_of r) p) c.
Proof. apply Path_of_str_of_path. do 2 apply wf_truediv. apply wf_Path_of. Qed.

Lemma run_shape self env :
  exists rest,
    fst (run self env) = Mkdir (str_of_path (parent (Path_of (dest self)))) :: rest
    /\ forall argv, In (Popen argv) rest ->
         argv = [PStr "git"; PStr "clone"; url self; PStr (dest self)]
         /\ mkdir_raises env = None.
Proof.
  unfold run. destruct (mkdir_raises env) as [e|] eqn:Hm.
  - exists []. split; [reflexivity | intros argv []].
  - assert (forall tail argv,
              existsb is_Popen tail = false ->
              In (Popen argv)
                 (LogEmit ("Starting clone: " ++ py_str (url self) ++ " -> "
                           ++ dest self ++ LF)
                  :: Popen [PStr "git"; PStr "clone"; url self; PStr (dest self)] :: tail) ->
              argv = [PStr "git"; PStr "clone"; url self; PStr (dest self)] /\ @None exn = None)
      as Key.
    { intros tail argv Hn [H|[H|H]]; [discriminate | now inversion H |].
      assert (existsb is_Popen tail = true) as Ht
        by (apply existsb_exists; exists (Popen argv); now split).
      congruence. }
    pose proof (for_line_no_Popen) as Hloop.
    destruct (popen env) as [e|out fin].
    + eexists. split; [reflexivity|]. intros argv. apply Key. now destruct e.
    + specialize (Hloop out self).
      destruct (for_line_in_stdout self out) as [t returned]. simpl in Hloop.
      destruct returned; [|destruct fin as [ret|e]];
        (eexists; split; [reflexivity|]; intros argv; apply Key).
      * exact Hloop.
      * rewrite existsb_app, Hloop. unfold after_wait. now destruct (ret =? 0)%Z.
      * rewrite existsb_app, Hloop. now destruct e.
Qed.

(** C8: when [clone_button_clicked] starts a clone, destination root [r]
    (the text of the destination field, stripped), project [p] and component
    [c] selected, the task gets the destination [r/p/c], the join of
    [pathlib]; for names [p] and [c] that are not absolute its components are
    those of [r], of [p] and of [c], in this order.  Whatever the environment
    does, the first thing [run] does is to create the parent directory of
    that destination, and the external command, if it is launched at all,
    comes after it, the directory has been created, and the command is
    [git clone <url> r/p/c]. *)
Theorem clone_destination (env : click_env) (w w' : Window) :
  clone_button_clicked env w = (inr tt, w') ->
  threads w' <> threads w ->
  let r := strip (dest_line w) in
  let p := currentText (project_combo w) in
  let c := currentText (component_combo w) in
  let d := truediv (truediv (Path_of r) p) c in
  exists u,
    lookup3 (repos_value w) (currentText (cat_combo w)) p c = inr u
    /\ threads w' = (threads w ++ [(new_CloneThread u (str_of_path d), true)])%list
    /\ (path_root p = "" -> path_root c = "" ->
        d = {| root := path_root r;
               parts := (path_parts r ++ path_parts p ++ path_parts c)%list |})
    /\ forall renv, exists rest,
         fst (run (new_CloneThread u (str_of_path d)) renv)
         = Mkdir (str_of_path (parent d)) :: rest
         /\ forall argv, In (Popen argv) rest ->
              argv = [PStr "git"; PStr "clone"; u; PStr (str_of_path d)]
              /\ mkdir_raises renv = None.
Proof.
  intros Hrun Hne r p c d.
  unfold clone_button_clicked, bind, get, message, modify, append_log, ret, lift in Hrun.
  fold p c r in Hrun. fold d in Hrun.
  destruct (negb (truthy (currentText (cat_combo w))) || negb (truthy p)
            || negb (truthy c)).
  { inversion Hrun; subst. now elim Hne. }
  destruct (lookup3 (repos_value w) (currentText (cat_combo w)) p c) as [e|u] eqn:Hu.
  { inversion Hrun; subst. now elim Hne. }
  destruct (negb (truthy r)).
  { inversion Hrun; subst. now elim Hne. }
  exists u. split; [reflexivity|].
  assert (threads w' = (threads w ++ [(new_CloneThread u (str_of_path d), true)])%list)
    as Ht.
  { destruct (dest_exists env); [destruct (dest_any env) as [e|[|]]|];
      cbn in Hrun;
      try (destruct (answer_yes env); [destruct (clear_raises env)|]; cbn in Hrun);
      inversion Hrun; subst; try reflexivity; now elim Hne. }
  split; [exact Ht|]. split.
  - intros Hp Hc. unfold d, truediv, Path_of. cbn [root parts].
    rewrite Hp, Hc. cbn [truthy String.eqb negb root parts]. now rewrite app_assoc.
  - intros renv.
    destruct (run_shape (new_CloneThread u (str_of_path d)) renv) as (rest & R & P).
    exists rest. cbn [dest new_CloneThread] in R.
    pose proof (Path_of_destination r p c) as Q. fold d in Q. rewrite Q in R.
    split; [exact R | exact P].
Qed.

Lemma clone_destination_witness :
  exists u,
    lookup3 (repos_value example_window) "dev" "ProjectA" "Component2" = inr u
    /\ threads (snd (clone_button_clicked fresh_destination example_window))
       = [(new_CloneThread u "/home/u/cloned/ProjectA/Component2", true)]
    /\ (path_root "ProjectA" = "" -> path_root "Component2" = "" ->
        truediv (truediv (Path_of "/home/u/cloned") "ProjectA") "Component2"
        = {| root := "/"; parts := ["home"; "u"; "cloned"; "ProjectA"; "Component2"] |})
    /\ forall renv, exists rest,
         fst (run (new_CloneThread u "/home/u/cloned/ProjectA/Component2") renv)
         = Mkdir "/home/u/cloned/ProjectA" :: rest
         /\ forall argv, In (Popen argv) rest ->
              argv = [PStr "git"; PStr "clone"; u; PStr "/home/u/cloned/ProjectA/Component2"]
              /\ mkdir_raises renv = None.
Proof.
  apply (clone_destination fresh_destination example_window
           (snd (clone_button_clicked fresh_destination example_window))).
  - reflexivity.
  - discriminate.
Defined.

(** ** The catalog update *)

Lemma py_getitem_inr v k x :
  py_getitem v k = inr x -> exists d, v = PDict d /\ dict_get k d = Some x.
Proof.
  destruct v; simpl; try discriminate.
  destruct (dict_get k kvs) eqn:E; [|discriminate].
  intros [= ->]. eauto.
Qed.

Lemma upsert_spec_preserves cats cat proj comp u c p k x :
  lookup3 (PDict cats) c p k = inr x ->
  (c, p, k) <> (cat, proj, comp) ->
  lookup3 (PDict (upsert_spec cats cat proj comp u)) c p k = inr x.
Proof.
  unfold lookup3, rbind. intros H Hne.
  destruct (py_getitem (PDict cats) c) as [|cv] eqn:E1; [discriminate|].
  destruct (py_getitem cv p) as [|pv] eqn:E2; [discriminate|].
  apply py_getitem_inr in E1 as (d1 & [= <-] & G1).
  apply py_getitem_inr in E2 as (projs & -> & G2).
  apply py_getitem_inr in H as (comps & -> & G3).
  unfold upsert_spec. cbn [py_getitem].
  destruct (string_dec c cat) as [->|Nc].
  - rewrite dict_get_set_same, G1. cbn [sub_dict py_getitem].
    destruct (string_dec p proj) as [->|Np].
    + rewrite dict_get_set_same, G2. cbn [sub_dict py_getitem].
      rewrite dict_get_set_other, G3; [reflexivity|]. congruence.
    + rewrite dict_get_set_other, G2 by assumption. cbn [py_getitem]. now rewrite G3.
  - rewrite dict_get_set_other, G1 by assumption. cbn [py_getitem].
    rewrite G2. cbn [py_getitem]. now rewrite G3.
Qed.

(** In a catalog a component is listed once under its project. *)
Lemma catalog_component_once v c p k x :
  is_catalog v = true -> lookup3 v c p k = inr x ->
  exists names,
    component_names v c p = inr names /\ count_occ string_dec names k = 1.
Proof.
  unfold lookup3, component_names, rbind. intros Hv H.
  destruct (py_getitem v c) as [|cv] eqn:E1; [discriminate|].
  destruct (py_getitem cv p) as [|pv] eqn:E2; [discriminate|].
  apply py_getitem_inr in E1 as (cats & -> & G1).
  apply py_getitem_inr in E2 as (projs & -> & G2).
  apply py_getitem_inr in H as (comps & -> & G3).
  pose proof (is_dict_of_get _ _ _ _ Hv G1) as Hc.
  pose proof (is_dict_of_get _ _ _ _ Hc G2) as Hp.
  exists (dict_keys comps). split; [reflexivity|].
  simpl in Hp. apply andb_true_iff in Hp as [Hn _].
  apply NoDup_count_occ_1; [now apply nodupb_NoDup | now apply dict_get_Some_key in G3].
Qed.

(** C6: on a catalog, the update of [save_new_project] (category and project
    created when absent, then [catalog[category][project][component] = url])
    succeeds and changes nothing but the object [self.repos] denotes; the
    result is a catalog in which the component has the URL given and every
    other entry is as before.  A second update of the same path overwrites
    the first: the component is listed once, with the second URL, and the
    catalog is the one the second update alone would have made. *)
Theorem upsertComponent_overwrites
  (w : Window) (category project component u1 u2 : string) :
  is_catalog (repos_value w) = true ->
  exists v1 v2,
    upsertComponent category project component u1 w = (inr tt, store_repos v1 w)
    /\ is_catalog v1 = true
    /\ lookup3 v1 category project component = inr (PStr u1)
    /\ (forall c p k x,
          lookup3 (repos_value w) c p k = inr x ->
          (c, p, k) <> (category, project, component) ->
          lookup3 v1 c p k = inr x)
    /\ upsertComponent category project component u2 (store_repos v1 w)
       = (inr tt, store_repos v2 w)
    /\ is_catalog v2 = true
    /\ lookup3 v2 category project component = inr (PStr u2)
    /\ (exists names,
          component_names v2 category project = inr names
          /\ count_occ string_dec names component = 1)
    /\ upsertComponent category project component u2 w = (inr tt, store_repos v2 w).
Proof.
  intros Hc.
  destruct (is_dict_of_inv _ _ Hc) as [cats Hv]. rewrite Hv in Hc.
  exists (PDict (upsert_spec cats category project component u1)).
  exists (PDict (upsert_spec cats category project component u2)).
  pose proof (upsert_spec_is_catalog cats category project component u1 Hc) as Hc1.
  pose proof (upsert_spec_is_catalog cats category project component u2 Hc) as Hc2.
  repeat split.
  - now apply upsertComponent_refines.
  - exact Hc1.
  - apply upsert_spec_lookup.
  - intros c p k x. rewrite Hv. apply upsert_spec_preserves.
  - rewrite (upsertComponent_refines (store_repos _ w) _ _ _ _ _
               (repos_value_store _ _) Hc1).
    now rewrite store_store, upsert_spec_twice.
  - exact Hc2.
  - apply upsert_spec_lookup.
  - apply (catalog_component_once _ _ _ _ (PStr u2)); [exact Hc2 | apply upsert_spec_lookup].
  - now apply upsertComponent_refines.
Qed.

Lemma upsertComponent_overwrites_witness :
  exists v1 v2,
    upsertComponent "dev" "P" "C" "u1" example_window
    = (inr tt, store_repos v1 example_window)
    /\ is_catalog v1 = true
    /\ lookup3 v1 "dev" "P" "C" = inr (PStr "u1")
    /\ (forall c p k x,
          lookup3 (repos_value example_window) c p k = inr x ->
          (c, p, k) <> ("dev", "P", "C") ->
          lookup3 v1 c p k = inr x)
    /\ upsertComponent "dev" "P" "C" "u2" (store_repos v1 example_window)
       = (inr tt, store_repos v2 example_window)
    /\ is_catalog v2 = true
    /\ lookup3 v2 "dev" "P" "C" = inr (PStr "u2")
    /\ (exists names,
          component_names v2 "dev" "P" = inr names
          /\ count_occ string_dec names "C" = 1)
    /\ upsertComponent "dev" "P" "C" "u2" example_window
       = (inr tt, store_repos v2 example_window).
Proof.
  apply (upsertComponent_overwrites example_window "dev" "P" "C" "u1" "u2").
  reflexivity.
Defined.

(** ** Loading and saving the catalog *)

Lemma fs_store v w : fs (store_repos v w) = fs w.
Proof. unfold store_repos. now destruct (repos w). Qed.

Lemma truthy_true s : s <> "" -> truthy s = true.
Proof. intros H. unfold truthy. apply String.eqb_neq in H. now rewrite H. Qed.

Section LoadFacts.

Variable json_load : string -> result pyval.

(** A file that does not parse: the notice with the cause, the
    [SAMPLE_CONFIG] object, and no write. *)
Lemma load_unparsable w content e :
  config_file (fs w) = Holds content -> json_load content = inl e ->
  load_or_create_config json_load w
  = (inr RetSample,
     set_boxes (boxes w ++ [{| kind := Critical; title := "Config Error";
                               text := "Failed to read repos.json: " ++ str_of_exn e |}])%list
       w).
Proof.
  intros Hf Hj. unfold load_or_create_config, bind, get. now rewrite Hf, Hj.
Qed.

(** No file: the content of the [SAMPLE_CONFIG] object is written, and the
    object is returned. *)
Lemma load_missing w :
  config_file (fs w) = Missing -> open_w_raises (fs w) = None ->
  exists w',
    load_or_create_config json_load w = (inr RetSample, w')
    /\ config_file (fs w') = Holds (json_dumps (sample_config w))
    /\ sample_config w' = sample_config w.
Proof.
  intros Hf Hw. unfold load_or_create_config, bind, get, write_config.
  rewrite Hf, Hw. eexists. split; [reflexivity|]. split; reflexivity.
Qed.

(** C10: a file whose text parses is returned as it was parsed, whatever its
    shape: no notice is shown, nothing else changes, and the value becomes
    [self.repos]. *)
Theorem load_returns_any_parsed_document (w : Window) (content : string) (data : pyval) :
  config_file (fs w) = Holds content ->
  json_load content = inr data ->
  load_or_create_config json_load w = (inr (RetNew data), w)
  /\ repos_value (snd (assign_repos (RetNew data) w)) = data.
Proof.
  intros Hf Hj. unfold load_or_create_config, bind, get. rewrite Hf, Hj.
  split; reflexivity.
Qed.

(** C7: the fields are filled in, the catalog is well shaped and the file
    cannot be opened for writing.  Then [save_new_project] shows the error
    with its cause and returns; the catalog in memory holds the new entry,
    the file is untouched, the dialog stays as it was and nothing is
    logged. *)
Theorem save_failure_keeps_change
  (w : Window) (repo_type project component u : string) (e : exn) :
  is_catalog (repos_value w) = true ->
  project <> "" -> component <> "" -> u <> "" ->
  open_w_raises (fs w) = Some e ->
  exists w',
    save_new_project json_load repo_type project component u w = (inr tt, w')
    /\ lookup3 (repos_value w') repo_type project component = inr (PStr u)
    /\ boxes w'
       = (boxes w ++ [{| kind := Critical; title := "Error";
                         text := "Failed to write repos.json: " ++ str_of_exn e |}])%list
    /\ fs w' = fs w
    /\ dialog_open w' = dialog_open w
    /\ log_view w' = log_view w.
Proof.
  intros Hc Hp Hk Hu He.
  destruct (is_dict_of_inv _ _ Hc) as [cats Hv]. rewrite Hv in Hc.
  unfold save_new_project.
  rewrite (truthy_true _ Hp), (truthy_true _ Hk), (truthy_true _ Hu). cbn [negb orb].
  unfold bind at 1.
  rewrite (upsertComponent_refines w cats _ _ _ _ Hv Hc).
  unfold bind, get, try_, write_config, message, modify.
  rewrite fs_store, He.
  eexists. split; [reflexivity|].
  change (repos_value (set_boxes ?b ?x)) with (repos_value x).
  rewrite repos_value_store.
  split; [apply upsert_spec_lookup|].
  unfold store_repos. destruct (repos w); repeat split; reflexivity.
Qed.

End LoadFacts.

Lemma load_returns_any_parsed_document_witness :
  load_or_create_config example_json_load
    (blank {| config_file := Holds "[]"; open_w_raises := None;
              resolved := "/home/u/repos.json"; cwd := "/home/u" |})
  = (inr (RetNew (PList [])),
     blank {| config_file := Holds "[]"; open_w_raises := None;
              resolved := "/home/u/repos.json"; cwd := "/home/u" |})
  /\ repos_value
       (snd (assign_repos (RetNew (PList []))
               (blank {| config_file := Holds "[]"; open_w_raises := None;
                         resolved := "/home/u/repos.json"; cwd := "/home/u" |})))
     = PList [].
Proof.
  apply (load_returns_any_parsed_document example_json_load
           (blank {| config_file := Holds "[]"; open_w_raises := None;
                     resolved := "/home/u/repos.json"; cwd := "/home/u" |})
           "[]" (PList [])); reflexivity.
Defined.

Lemma save_failure_keeps_change_witness :
  exists w',
    save_new_project example_json_load "dev" "NewProject" "core"
      "https://example.org/core.git"
      (snd (init example_json_load (blank broken_files)))
    = (inr tt, w')
    /\ lookup3 (repos_value w') "dev" "NewProject" "core"
       = inr (PStr "https://example.org/core.git")
    /\ boxes w'
       = (boxes (snd (init example_json_load (blank broken_files)))
          ++ [{| kind := Critical; title := "Error";
                 text := "Failed to write repos.json: "
                         ++ "[Errno 13] Permission denied: 'repos.json'" |}])%list
    /\ fs w' = broken_files
    /\ dialog_open w' = false
    /\ log_view w' = [].
Proof.
  apply (save_failure_keeps_change example_json_load
           (snd (init example_json_load (blank broken_files)))
           "dev" "NewProject" "core" "https://example.org/core.git"
           (OtherError "PermissionError" "[Errno 13] Permission denied: 'repos.json'")).
  - reflexivity.
  - discriminate.
  - discriminate.
  - discriminate.
  - reflexivity.
Defined.

(** ** The project and component lists *)

(** [on_project_change] touches the component box only. *)
Lemma on_project_change_frame text w :
  exists r cb, on_project_change text w = (r, set_component_combo cb w).
Proof.
  unfold on_project_change, component_combo_do, bind, get, lift, modify, ret.
  cbn -[sorted truthy py_contains py_getitem py_keys].
  repeat match goal with
         | |- context [if ?b then _ else _] => destruct b
         | |- context [match ?x with inl _ => _ | inr _ => _ end] => destruct x
         end; eexists _, _; destruct w; reflexivity.
Qed.

Lemma slot_on_project_change text w :
  exists w',
    slot (on_project_change text) w = (inr tt, w')
    /\ project_combo w' = project_combo w
    /\ repos_value w' = repos_value w
    /\ cat_combo w' = cat_combo w.
Proof.
  destruct (on_project_change_frame text w) as (r & cb & H).
  unfold slot. rewrite H. destruct r; eexists; repeat split; reflexivity.
Qed.

Lemma project_combo_do_spec op w :
  exists w',
    project_combo_do op w = (inr tt, w')
    /\ project_combo w' = fst (op (project_combo w))
    /\ repos_value w' = repos_value w
    /\ cat_combo w' = cat_combo w.
Proof.
  unfold project_combo_do, bind, get, modify, ret.
  destruct (op (project_combo w)) as [cb [t|]]; cbn.
  - destruct (slot_on_project_change t (set_project_combo cb w)) as (w' & H & H1 & H2 & H3).
    exists w'. rewrite H. repeat split; assumption.
  - eexists. repeat split; reflexivity.
Qed.

Lemma py_contains_of_getitem v k x : py_getitem v k = inr x -> py_contains k v = inr true.
Proof.
  intros H. apply py_getitem_inr in H as (d & -> & G).
  simpl. unfold dict_mem. now rewrite G.
Qed.

Lemma on_project_change_lists text w names :
  currentText (cat_combo w) <> "" -> text <> "" ->
  component_names (repos_value w) (currentText (cat_combo w)) text = inr names ->
  exists w',
    on_project_change text w = (inr tt, w')
    /\ items (component_combo w') = sorted names.
Proof.
  intros Hc Ht Hn. unfold component_names, rbind in Hn.
  destruct (py_getitem (repos_value w) (currentText (cat_combo w))) as [|c] eqn:E1;
    [discriminate|].
  destruct (py_getitem c text) as [|p] eqn:E2; [discriminate|].
  unfold on_project_change, component_combo_do, bind, get, lift, modify, ret.
  cbn -[sorted truthy py_contains py_getitem py_keys].
  change (repos_value (set_component_combo ?b w)) with (repos_value w).
  rewrite (truthy_true _ Hc), (truthy_true _ Ht). cbn [andb].
  rewrite (py_contains_of_getitem _ _ _ E1), E1.
  rewrite (py_contains_of_getitem _ _ _ E2), E2, Hn.
  eexists. split; reflexivity.
Qed.

Lemma on_category_change_lists text w names :
  text <> "" ->
  project_names (repos_value w) text = inr names ->
  items (project_combo (snd (on_category_change text w))) = sorted names.
Proof.
  intros Ht Hn. unfold project_names, rbind in Hn.
  destruct (py_getitem (repos_value w) text) as [|c] eqn:E1; [discriminate|].
  unfold on_category_change.
  destruct (project_combo_do_spec cb_clear w) as (w1 & R1 & P1 & V1 & _).
  unfold bind at 1. rewrite R1.
  unfold bind at 1, get at 1. rewrite (truthy_true _ Ht).
  unfold bind at 1, lift at 1. rewrite V1, (py_contains_of_getitem _ _ _ E1).
  unfold bind at 1, lift at 1. rewrite E1.
  unfold bind at 1, lift at 1. rewrite Hn.
  destruct (project_combo_do_spec (cb_addItems (sorted names)) w1) as (w2 & R2 & P2 & _).
  unfold bind at 1. rewrite R2.
  unfold bind at 1, get at 1.
  assert (items (project_combo w2) = sorted names) as I2.
  { rewrite P2, P1. reflexivity. }
  destruct (Nat.ltb 0 (count (project_combo w2))); [|exact I2].
  destruct (project_combo_do_spec (cb_setCurrentIndex 0) w2) as (w3 & R3 & P3 & _).
  unfold bind at 1. rewrite R3.
  unfold bind at 1, get at 1.
  destruct (on_project_change_frame (currentText (project_combo w3)) w3) as (r & cb & R4).
  rewrite R4. cbn [snd]. change (project_combo (set_component_combo cb w3))
    with (project_combo w3).
  rewrite P3. exact I2.
Qed.

Lemma on_category_change_empty w :
  items (project_combo (snd (on_category_change "" w))) = [].
Proof.
  unfold on_category_change.
  destruct (project_combo_do_spec cb_clear w) as (w1 & R1 & P1 & _).
  unfold bind at 1. rewrite R1. cbn. now rewrite P1.
Qed.

(** C9, as amended: for a category with a name that is not empty, the
    project box shows that category's project names, sorted; for a project
    with a name that is not empty under a selected category with a name that
    is not empty, the component box shows its component names, sorted.  A
    category or project whose name is the empty string is taken for "nothing
    selected": the box stays empty. *)
Theorem lists_show_sorted_names :
  (forall (w : Window) (category : string) (names : list string),
      category <> "" ->
      project_names (repos_value w) category = inr names ->
      items (project_combo (snd (on_category_change category w))) = sorted names
      /\ Permutation names (items (project_combo (snd (on_category_change category w))))
      /\ StronglySorted (fun a b => String.leb a b = true)
           (items (project_combo (snd (on_category_change category w)))))
  /\ (forall (w : Window) (project : string) (names : list string),
        currentText (cat_combo w) <> "" ->
        project <> "" ->
        component_names (repos_value w) (currentText (cat_combo w)) project = inr names ->
        fst (on_project_change project w) = inr tt
        /\ items (component_combo (snd (on_project_change project w))) = sorted names
        /\ Permutation names (items (component_combo (snd (on_project_change project w))))
        /\ StronglySorted (fun a b => String.leb a b = true)
             (items (component_combo (snd (on_project_change project w)))))
  /\ (forall w : Window,
        items (project_combo (snd (on_category_change "" w))) = [])
  /\ (forall (w : Window) (project : string),
        currentText (cat_combo w) = "" \/ project = "" ->
        items (component_combo (snd (on_project_change project w))) = []).
Proof.
  split; [|split; [|split]].
  - intros w category names Hc Hn.
    rewrite (on_category_change_lists category w names Hc Hn).
    split; [reflexivity|]. split; [apply sorted_Permutation | apply sorted_StronglySorted].
  - intros w project names Hc Hp Hn.
    destruct (on_project_change_lists project w names Hc Hp Hn) as (w' & R & I).
    rewrite R. cbn [fst snd]. rewrite I.
    split; [reflexivity|]. split; [reflexivity|].
    split; [apply sorted_Permutation | apply sorted_StronglySorted].
  - apply on_category_change_empty.
  - intros w project H.
    unfold on_project_change, component_combo_do, bind, get, lift, modify, ret.
    cbn -[sorted truthy py_contains py_getitem py_keys].
    assert (truthy (currentText (cat_combo w)) && truthy project = false) as E.
    { destruct H as [-> | ->]; [reflexivity | apply andb_false_r]. }
    now rewrite E.
Qed.

(** C9, a counterexample to the claim as stated: the catalog has one
    category, named by the empty string, with the project [ProjectA].  That
    category is the selected one, and the project box shows nothing. *)
Example unnamed_category_shows_no_project :
  items (cat_combo unnamed_window) = [""]
  /\ currentIndex (cat_combo unnamed_window) = Some 0
  /\ project_names (repos_value unnamed_window) (currentText (cat_combo unnamed_window))
     = inr ["ProjectA"]
  /\ items (project_combo unnamed_window) = []
  /\ items (project_combo
              (snd (on_category_change (currentText (cat_combo unnamed_window))
                      unnamed_window))) = [].
Proof. repeat split. Qed.

Lemma lists_show_sorted_names_witness :
  items (project_combo (snd (on_category_change "localization" example_window)))
  = ["ProjectA"]
  /\ items (component_combo (snd (on_project_change "ProjectA" localization_window)))
     = ["strings"; "ui"].
Proof.
  split.
  - destruct (proj1 lists_show_sorted_names example_window "localization" ["ProjectA"])
      as [H _]; [discriminate | reflexivity | exact H].
  - destruct (proj1 (proj2 lists_show_sorted_names) localization_window "ProjectA"
                ["ui"; "strings"]) as (_ & H & _);
      [discriminate | discriminate | reflexivity | exact H].
Defined.

(** ** One clone at a time, and the sample catalog as a shared object *)

(** C3: the push button is disabled while a clone runs, the toolbar action is
    not.  In [example_window] the user presses Clone and then, while that
    clone still runs, the toolbar action: a second task is started, and two
    are in flight.  (A second press of the push button is not delivered.) *)
Theorem toolbar_action_starts_second_clone :
  in_flight (steps example_json_load example_window
               [ClickCloneButton fresh_destination]) = 1
  /\ clone_btn_enabled (steps example_json_load example_window
                          [ClickCloneButton fresh_destination]) = false
  /\ in_flight (steps example_json_load example_window
                  [ClickCloneButton fresh_destination;
                   ClickCloneButton fresh_destination]) = 1
  /\ in_flight (steps example_json_load example_window
                  [ClickCloneButton fresh_destination;
                   TriggerCloneAction fresh_destination]) = 2.
Proof. repeat split. Qed.

(** C4: [load_or_create_config] returns the [SAMPLE_CONFIG] object itself,
    and [save_new_project] updates the object [self.repos] denotes.  The
    window is opened on a file that does not parse and cannot be written; the
    user adds a project (the write fails).  The next load of the same file
    still shows the notice and writes nothing, and what it returns is the
    sample object, by now holding the project the user added: not the
    catalog built into the program. *)
Theorem load_after_add_returns_changed_sample :
  fst (load_or_create_config example_json_load broken_window_after_add) = inr RetSample
  /\ fs (snd (load_or_create_config example_json_load broken_window_after_add))
     = broken_files
  /\ sample_config (snd (load_or_create_config example_json_load broken_window_after_add))
     = sample_with_new_project
  /\ lookup3 sample_with_new_project "dev" "NewProject" "core"
     = inr (PStr "https://example.org/core.git")
  /\ lookup3 SAMPLE_CONFIG "dev" "NewProject" "core" = inl (KeyError "NewProject")
  /\ repos_value (step example_json_load broken_window_after_add TriggerRefresh)
     = sample_with_new_project.
Proof. repeat split. Qed.

(** C5: the window is opened where no file exists (the sample is written and
    [self.repos] is the sample object), the user adds a project, and the file
    is removed by hand.  The next load writes and returns the sample object
    as it is by then, with the added project in it: the file written is not
    the one of the built-in catalog. *)
Theorem load_missing_after_add_writes_changed_sample :
  repos example_window = TheSample
  /\ config_file (fs example_window) = Holds (json_dumps SAMPLE_CONFIG)
  /\ fst (load_or_create_config example_json_load
            (step example_json_load window_after_add (FileChanged Missing)))
     = inr RetSample
  /\ config_file
       (fs (snd (load_or_create_config example_json_load
                   (step example_json_load window_after_add (FileChanged Missing)))))
     = Holds (json_dumps sample_with_new_project)
  /\ String.eqb (json_dumps sample_with_new_project) (json_dumps SAMPLE_CONFIG) = false
  /\ sample_config
       (snd (load_or_create_config example_json_load
               (step example_json_load window_after_add (FileChanged Missing))))
     = sample_with_new_project
  /\ lookup3 SAMPLE_CONFIG "dev" "NewProject" "core" = inl (KeyError "NewProject").
Proof. repeat split. Qed.

(** ** The push button and the tasks in flight *)

Section Frames.

Lemma keeps_ret {A} (a : A) : keeps_clone_state (ret a).
Proof. intros w. split; reflexivity. Qed.

Lemma keeps_get : keeps_clone_state get.
Proof. intros w. split; reflexivity. Qed.

Lemma keeps_lift {A} (r : result A) : keeps_clone_state (lift r).
Proof. intros w. split; reflexivity. Qed.

Lemma keeps_modify f :
  (forall w, threads (f w) = threads w /\ clone_btn_enabled (f w) = clone_btn_enabled w) ->
  keeps_clone_state (modify f).
Proof. intros H w. apply H. Qed.

Lemma keeps_bind {A B} (m : M A) (k : A -> M B) :
  keeps_clone_state m -> (forall a, keeps_clone_state (k a)) ->
  keeps_clone_state (bind m k).
Proof.
  intros Hm Hk w. unfold bind. specialize (Hm w).
  destruct (m w) as [[e|a] w1]; cbn [snd] in *; [exact Hm|].
  specialize (Hk a w1). destruct Hm as [H1 H2], Hk as [H3 H4].
  split; congruence.
Qed.

Lemma keeps_slot m : keeps_clone_state m -> keeps_clone_state (slot m).
Proof.
  intros Hm w. unfold slot. specialize (Hm w).
  destruct (m w) as [[e|a] w1]; exact Hm.
Qed.

Lemma keeps_try {A} (m : M A) : keeps_clone_state m -> keeps_clone_state (try_ m).
Proof.
  intros Hm w. unfold try_. specialize (Hm w). destruct (m w) as [r w1]. exact Hm.
Qed.

Lemma keeps_for_each {A} (xs : list A) body :
  (forall x, keeps_clone_state (body x)) -> keeps_clone_state (for_each xs body).
Proof.
  intros H. induction xs as [|x xs IH]; simpl.
  - apply keeps_ret.
  - apply keeps_bind; [apply H | intros _; exact IH].
Qed.

Lemma keeps_write_config v : keeps_clone_state (write_config v).
Proof.
  intros w. unfold write_config. destruct (open_w_raises (fs w)); split; reflexivity.
Qed.

End Frames.

Ltac keeps_step :=
  first
    [ apply keeps_ret | apply keeps_get | apply keeps_lift
    | apply keeps_write_config
    | apply keeps_slot | apply keeps_try
    | apply keeps_for_each; intros ?
    | apply keeps_bind; [|intros ?]
    | apply keeps_modify; intros ?;
      first [ split; reflexivity
            | unfold store_repos;
              match goal with |- context [match repos ?w with _ => _ end] =>
                destruct (repos w) end; split; reflexivity ]
    | match goal with
      | |- keeps_clone_state (if ?b then _ else _) => destruct b
      | |- keeps_clone_state (match ?x with _ => _ end) => destruct x
      end ].

Ltac keeps := repeat keeps_step.

Lemma keeps_message k t m : keeps_clone_state (message k t m).
Proof. unfold message. keeps. Qed.

Lemma keeps_append_log t : keeps_clone_state (append_log t).
Proof. unfold append_log. keeps. Qed.

Lemma keeps_assign_repos l : keeps_clone_state (assign_repos l).
Proof. unfold assign_repos. apply keeps_modify. intros w. destruct l; split; reflexivity. Qed.

Lemma keeps_component_combo_do op : keeps_clone_state (component_combo_do op).
Proof. unfold component_combo_do. keeps. Qed.

Lemma keeps_on_project_change t : keeps_clone_state (on_project_change t).
Proof.
  unfold on_project_change.
  repeat first [apply keeps_component_combo_do | keeps_step].
Qed.

Lemma keeps_project_combo_do op : keeps_clone_state (project_combo_do op).
Proof.
  unfold project_combo_do.
  repeat first [apply keeps_on_project_change | keeps_step].
Qed.

Lemma keeps_on_category_change t : keeps_clone_state (on_category_change t).
Proof.
  unfold on_category_change.
  repeat first [apply keeps_project_combo_do | apply keeps_on_project_change | keeps_step].
Qed.

Lemma keeps_cat_combo_do op : keeps_clone_state (cat_combo_do op).
Proof.
  unfold cat_combo_do.
  repeat first [apply keeps_on_category_change | keeps_step].
Qed.

Lemma keeps_populate_sidebar : keeps_clone_state populate_sidebar.
Proof. unfold populate_sidebar. keeps. Qed.

Lemma keeps_upsertComponent c p k u : keeps_clone_state (upsertComponent c p k u).
Proof. unfold upsertComponent. keeps. Qed.

Section FramesWithJson.

Variable json_load : string -> result pyval.

Lemma keeps_load_or_create_config : keeps_clone_state (load_or_create_config json_load).
Proof.
  unfold load_or_create_config.
  repeat first [apply keeps_message | keeps_step].
Qed.

Lemma keeps_refresh_projects : keeps_clone_state (refresh_projects json_load).
Proof.
  unfold refresh_projects.
  repeat first [ apply keeps_load_or_create_config | apply keeps_assign_repos
               | apply keeps_populate_sidebar | apply keeps_cat_combo_do
               | apply keeps_append_log | keeps_step ].
Qed.

Lemma keeps_save_new_project t p c u :
  keeps_clone_state (save_new_project json_load t p c u).
Proof.
  unfold save_new_project.
  repeat first [ apply keeps_message | apply keeps_upsertComponent
               | apply keeps_refresh_projects | apply keeps_cat_combo_do
               | apply keeps_project_combo_do | apply keeps_component_combo_do
               | apply keeps_append_log | keeps_step ].
Qed.

Lemma keeps_add_project_dialog ch p c u :
  keeps_clone_state (add_project_dialog json_load ch p c u).
Proof.
  unfold add_project_dialog.
  apply keeps_bind; [apply keeps_get | intros w].
  apply keeps_bind; [apply keeps_lift | intros ks]. cbv zeta.
  apply keeps_bind; [apply keeps_modify; intros ?; split; reflexivity | intros _].
  apply keeps_slot, keeps_save_new_project.
Qed.

End FramesWithJson.

Lemma clone_button_clicked_cases env w :
  (threads (snd (clone_button_clicked env w)) = threads w
   /\ clone_btn_enabled (snd (clone_button_clicked env w)) = clone_btn_enabled w)
  \/ (exists t,
        threads (snd (clone_button_clicked env w)) = (threads w ++ [(t, true)])%list
        /\ clone_btn_enabled (snd (clone_button_clicked env w)) = false).
Proof.
  unfold clone_button_clicked, bind, get, message, modify, append_log, ret, lift.
  destruct (negb (truthy (currentText (cat_combo w)))
            || negb (truthy (currentText (project_combo w)))
            || negb (truthy (currentText (component_combo w)))); [now left|].
  destruct (lookup3 _ _ _ _) as [e|u]; [now left|].
  destruct (negb (truthy (strip (dest_line w)))); [now left|].
  destruct (dest_exists env); [destruct (dest_any env) as [e|[|]]|]; cbn;
    try (destruct (answer_yes env); [destruct (clear_raises env)|]; cbn);
    try (now left); right; eexists; split; reflexivity.
Qed.

Lemma in_flight_started w t :
  in_flight (set_threads (threads w ++ [(t, true)])%list w) = S (in_flight w).
Proof.
  unfold in_flight. cbn [threads set_threads].
  rewrite filter_app, length_app. simpl. lia.
Qed.

Lemma mark_done_running ts : forall i th,
  nth_error ts i = Some (th, true) ->
  S (List.length (filter (fun t => snd t) (mark_done i ts)))
  = List.length (filter (fun t => snd t) ts).
Proof.
  induction ts as [|[t b] ts IH]; intros [|i] th H; simpl in *; try discriminate.
  - now inversion H; subst.
  - destruct b; simpl; rewrite (IH i th H); reflexivity.
Qed.

Section OneClone.

Variable json_load : string -> result pyval.

Lemma deliver_threads t : forall w, threads (snd (deliver t w)) = threads w.
Proof.
  induction t as [|x t IH]; intros w; [reflexivity|].
  destruct x; cbn [deliver]; try apply IH.
  - unfold bind. cbn. now rewrite IH.
  - unfold bind. cbn. now rewrite IH.
Qed.

Lemma deliver_returns t : forall w, fst (deliver t w) = inr tt.
Proof.
  induction t as [|x t IH]; intros w; [reflexivity|].
  destruct x; cbn [deliver]; try apply IH; unfold bind; cbn; apply IH.
Qed.

Lemma thread_runs_one_clone i env w :
  one_clone_at_a_time w -> one_clone_at_a_time (snd (thread_runs i env w)).
Proof.
  intros [Hle Hen]. unfold thread_runs, bind, get.
  destruct (nth_error (threads w) i) as [[th [|]]|] eqn:E; try (split; assumption).
  destruct (run th env) as [t outcome].
  pose proof (deliver_threads t w) as Ht. pose proof (deliver_returns t w) as Hr.
  destruct (deliver t w) as [r w1]. cbn [fst snd] in *. subst r.
  unfold modify.
  assert (in_flight (set_threads (mark_done i (threads w1)) w1) = 0) as Z.
  { unfold in_flight in *. cbn [threads set_threads]. rewrite Ht.
    pose proof (mark_done_running _ _ _ E). lia. }
  destruct outcome as [e|[]]; cbn [snd ret]; unfold one_clone_at_a_time.
  - change (in_flight (set_stderr ?x ?y)) with (in_flight y).
    rewrite Z. split; [lia | reflexivity].
  - rewrite Z. split; [lia | reflexivity].
Qed.

Lemma step_one_clone w ev :
  is_toolbar_clone ev = false ->
  one_clone_at_a_time w -> one_clone_at_a_time (step json_load w ev).
Proof.
  intros Hev [Hle Hen]. destruct ev; try discriminate; unfold step.
  - destruct (clone_btn_enabled w) eqn:B;
      [|cbn [snd]; split; [assumption | intros; congruence]].
    specialize (Hen eq_refl).
    assert (snd (slot (clone_button_clicked env) w)
            = snd (clone_button_clicked env w)
            \/ exists e, snd (slot (clone_button_clicked env) w)
                         = set_stderr e (snd (clone_button_clicked env w))) as S.
    { unfold slot. destruct (clone_button_clicked env w) as [[e|[]] w1]; cbn [snd];
        [right; eexists; reflexivity | left; reflexivity]. }
    destruct (clone_button_clicked_cases env w) as [[T C]|(t & T & C)];
      destruct S as [->|(e & ->)]; unfold one_clone_at_a_time, in_flight in *;
      cbn [threads clone_btn_enabled set_stderr]; rewrite T, C;
      rewrite ?filter_app, ?length_app; simpl; split; intros; try lia; congruence.
  - pose proof (keeps_slot _ (keeps_refresh_projects json_load) w) as [T C].
    unfold one_clone_at_a_time, in_flight in *. rewrite T, C. now split.
  - pose proof (keeps_slot _ (keeps_add_project_dialog json_load choice project
                                component repo_url) w) as [T C].
    unfold one_clone_at_a_time, in_flight in *. rewrite T, C. now split.
  - now apply thread_runs_one_clone.
  - split; assumption.
Qed.

(** As long as the toolbar action is left alone, at most one task is in
    flight, and none while the push button is enabled. *)
Lemma push_button_alone_one_clone evs : forall w,
  existsb is_toolbar_clone evs = false ->
  one_clone_at_a_time w -> one_clone_at_a_time (steps json_load w evs).
Proof.
  induction evs as [|ev evs IH]; intros w Hev Hw; [exact Hw|].
  cbn in Hev. apply orb_false_iff in Hev as [H1 H2].
  cbn [steps fold_left]. apply IH; [exact H2|]. now apply step_one_clone.
Qed.

End OneClone.

(** * Further properties *)

(** ** [CloneThread.run] and [stop] *)

Lemma for_line_kill out : forall self,
  existsb is_Kill (fst (for_line_in_stdout self out)) = snd (for_line_in_stdout self out).
Proof.
  induction out as [|[l|] out IH]; intros self; simpl; auto.
  destruct (_stopped self); [reflexivity|].
  specialize (IH self). destruct (for_line_in_stdout self out). exact IH.
Qed.

Lemma for_line_returned out : forall self,
  snd (for_line_in_stdout self out) = true ->
  _stopped self = true \/ In StopCall out.
Proof.
  induction out as [|[l|] out IH]; intros self; simpl.
  - discriminate.
  - destruct (_stopped self) eqn:S; [now left|].
    specialize (IH self). destruct (for_line_in_stdout self out) as [t r].
    cbn [snd] in *. intros H. destruct (IH H) as [Hs|Hin]; [congruence | right; now right].
  - intros _. right. now left.
Qed.

Lemma end_report_no_Kill fin : existsb is_Kill (end_report fin) = false.
Proof.
  destruct fin as [ret|e]; simpl.
  - unfold after_wait. now destruct (ret =? 0)%Z.
  - now destruct e.
Qed.

Lemma logged_lines_map ls :
  logged_lines (map Line ls) = map (fun l => LogEmit (rstrip l)) ls.
Proof. induction ls as [|l ls IH]; [reflexivity|]. simpl. now rewrite <- IH. Qed.

(** X1: once the parent directory is there, [run] returns normally and
    emits [finished_signal] exactly once.  Its value follows from what
    happened, the cases excluding each other: the launch failed (with
    [FileNotFoundError], or with anything else: the message), the loop saw the
    flag at a line ([aborted]), the reading failed, or the process ended
    (status 0, or another status). *)
Theorem run_reports_exactly_once (self : CloneThread) (env : run_env) :
  mkdir_raises env = None ->
  snd (run self env) = inr tt
  /\ finished_of (fst (run self env))
     = [ match popen env with
         | LaunchRaises (FileNotFoundError _) => (false, "git-not-found")
         | LaunchRaises e => (false, str_of_exn e)
         | Launched out fin =>
             if snd (for_line_in_stdout self out) then (false, "aborted")
             else match fin with
                  | Eof ret =>
                      if (ret =? 0)%Z then (true, "success")
                      else (false, "exit " ++ str_of_int ret)
                  | ReadRaises (FileNotFoundError _) => (false, "git-not-found")
                  | ReadRaises e => (false, str_of_exn e)
                  end
         end ].
Proof.
  intros Hm. split; [apply (run_reports_once self env Hm)|].
  rewrite (run_report self env Hm).
  destruct (popen env) as [[m|c m]|out fin]; try reflexivity.
  destruct (snd (for_line_in_stdout self out)); [reflexivity|].
  destruct fin as [ret|[m|c m]]; try reflexivity.
  now destruct (ret =? 0)%Z.
Qed.

Lemma run_reports_exactly_once_witness :
  snd (run example_thread {| mkdir_raises := None; popen := Launched [] (Eof 128) |})
  = inr tt
  /\ finished_of
       (fst (run example_thread {| mkdir_raises := None; popen := Launched [] (Eof 128) |}))
     = [(false, "exit 128")].
Proof.
  apply (run_reports_exactly_once example_thread
           {| mkdir_raises := None; popen := Launched [] (Eof 128) |}).
  reflexivity.
Defined.

(** X2: while nobody calls [stop()], every line the process prints is logged
    once, stripped of trailing white space, in the order printed, between the
    announcement and the launch on one side and the final report on the
    other; the process is never killed. *)
Theorem run_relays_every_line
  (self : CloneThread) (env : run_env) (ls : list string) (fin : stream_end) :
  mkdir_raises env = None ->
  _stopped self = false ->
  popen env = Launched (map Line ls) fin ->
  fst (run self env)
  = (run_head self ++ map (fun l => LogEmit (rstrip l)) ls ++ end_report fin)%list
  /\ existsb is_Kill (fst (run self env)) = false.
Proof.
  intros Hm Hs Hp.
  assert (fst (run self env)
          = (run_head self ++ map (fun l => LogEmit (rstrip l)) ls ++ end_report fin)%list)
    as E.
  { unfold run. rewrite Hm, Hp.
    pose proof (for_line_lines ls [] self Hs) as H. rewrite app_nil_r in H.
    rewrite H. cbn [for_line_in_stdout fst snd]. rewrite app_nil_r.
    rewrite logged_lines_map. destruct fin; reflexivity. }
  split; [exact E|]. rewrite E.
  rewrite !existsb_app, end_report_no_Kill. cbn [run_head existsb is_Kill orb].
  clear. induction ls as [|l ls IH]; [reflexivity|]. exact IH.
Qed.

Lemma run_relays_every_line_witness :
  fst (run example_thread
         {| mkdir_raises := None;
            popen := Launched (map Line [String "a" (String " " LF); String "b" LF]) (Eof 0) |})
  = (run_head example_thread ++ [LogEmit "a"; LogEmit "b"] ++ after_wait 0)%list
  /\ existsb is_Kill
       (fst (run example_thread
               {| mkdir_raises := None;
                  popen := Launched (map Line [String "a" (String " " LF); String "b" LF])
                             (Eof 0) |})) = false.
Proof.
  apply (run_relays_every_line example_thread
           {| mkdir_raises := None;
              popen := Launched (map Line [String "a" (String " " LF); String "b" LF])
                         (Eof 0) |}
           [String "a" (String " " LF); String "b" LF] (Eof 0)); reflexivity.
Defined.

(** X3: [run] kills the process only when [stop()] has been called, before
    the start or between two reads, and a run that kills reports
    [aborted]. *)
Theorem run_kills_only_when_stopped (self : CloneThread) (env : run_env) :
  existsb is_Kill (fst (run self env)) = true ->
  (_stopped self = true
   \/ exists out fin, popen env = Launched out fin /\ In StopCall out)
  /\ finished_of (fst (run self env)) = [(false, "aborted")].
Proof.
  unfold run. destruct (mkdir_raises env) as [e|]; [discriminate|].
  destruct (popen env) as [e|out fin].
  - cbn [fst]. rewrite existsb_app. cbn [existsb is_Kill orb].
    pose proof (end_report_no_Kill (ReadRaises e)) as H. cbn [end_report] in H.
    rewrite H. discriminate.
  - pose proof (for_line_kill out self) as Hk.
    pose proof (for_line_returned out self) as Hr.
    pose proof (for_line_finished out self) as Hf.
    destruct (for_line_in_stdout self out) as [t returned]. cbn [fst snd] in *.
    destruct returned.
    + intros _. split.
      * destruct (Hr eq_refl) as [H|H]; [now left | right; eauto].
      * cbn [fst]. rewrite finished_of_app, Hf. reflexivity.
    + assert (existsb is_Kill (end_report fin) = false) as He
        by apply end_report_no_Kill.
      destruct fin as [ret|e]; cbn [fst end_report] in *;
        rewrite !existsb_app, Hk, He; discriminate.
Qed.

Lemma run_kills_only_when_stopped_witness :
  (_stopped example_thread = true
   \/ exists out fin,
        popen {| mkdir_raises := None; popen := Launched example_output (Eof 0) |}
        = Launched out fin /\ In StopCall out)
  /\ finished_of
       (fst (run example_thread
               {| mkdir_raises := None; popen := Launched example_output (Eof 0) |}))
     = [(false, "aborted")].
Proof.
  apply (run_kills_only_when_stopped example_thread
           {| mkdir_raises := None; popen := Launched example_output (Eof 0) |}).
  reflexivity.
Defined.

(** X4: a task on which [stop()] was called before it started still creates
    the directory and launches the process.  It logs nothing the process
    prints: it kills the process at the first line and reports [aborted], or,
    when the process prints no line at all, reports the end of the process as
    if [stop()] had never been called. *)
Theorem stopped_before_start
  (self : CloneThread) (env : run_env) (out : list stdout_event) (fin : stream_end) :
  mkdir_raises env = None ->
  popen env = Launched out fin ->
  fst (run (stop self) env)
  = (run_head self ++ (if existsb is_Line out then abort_report else end_report fin))%list.
Proof.
  intros Hm Hp. unfold run. rewrite Hm, Hp.
  rewrite (for_line_stopped out (stop self) eq_refl).
  destruct (existsb is_Line out); [reflexivity|].
  destruct fin; reflexivity.
Qed.

Lemma stopped_before_start_witness :
  fst (run (stop example_thread)
         {| mkdir_raises := None; popen := Launched example_output (Eof 0) |})
  = (run_head example_thread ++ abort_report)%list.
Proof.
  apply (stopped_before_start example_thread
           {| mkdir_raises := None; popen := Launched example_output (Eof 0) |}
           example_output (Eof 0)); reflexivity.
Defined.

(** ** [load_or_create_config], [__init__] and [populate_sidebar] *)

Section LoadAndInit.

Variable json_load : string -> result pyval.

(** X5: a file that cannot be read, or whose text does not parse, makes
    [load_or_create_config] show one Critical box titled "Config Error" with
    the cause and return the [SAMPLE_CONFIG] object; nothing else changes, in
    particular the file is not written. *)
Theorem load_falls_back_to_sample (w : Window) (e : exn) :
  (config_file (fs w) = Unreadable e
   \/ exists content, config_file (fs w) = Holds content /\ json_load content = inl e) ->
  load_or_create_config json_load w
  = (inr RetSample,
     set_boxes (boxes w ++ [{| kind := Critical; title := "Config Error";
                               text := "Failed to read repos.json: " ++ str_of_exn e |}])%list
       w).
Proof.
  intros [H|(content & H & J)]; unfold load_or_create_config, bind, get; rewrite H.
  - reflexivity.
  - now rewrite J.
Qed.

(** X6: when the file is missing and can be created, [load_or_create_config]
    writes the content of the [SAMPLE_CONFIG] object as indented JSON, shows
    one Information box that names the resolved path, and returns that
    object; nothing else changes. *)
Theorem load_creates_missing_file (w : Window) :
  config_file (fs w) = Missing ->
  open_w_raises (fs w) = None ->
  load_or_create_config json_load w
  = (inr RetSample,
     set_boxes
       (boxes w ++ [{| kind := Information; title := "Sample Config Created";
                       text := "repos.json was not found and a sample has been created at "
                               ++ resolved (fs w) ++ LF ++ LF
                               ++ "Please update it with your repo links." |}])%list
       (set_fs (set_config_file (Holds (json_dumps (sample_config w))) (fs w)) w)).
Proof.
  intros Hf Hw. unfold load_or_create_config, bind, get, write_config.
  now rewrite Hf, Hw.
Qed.

(** X7: when the file is missing and cannot be created, the exception of the
    write leaves [load_or_create_config]: no box is shown, nothing changes,
    and the constructor of the window, which loads first, fails with the same
    exception. *)
Theorem load_missing_unwritable_raises (w : Window) (e : exn) :
  config_file (fs w) = Missing ->
  open_w_raises (fs w) = Some e ->
  load_or_create_config json_load w = (inl e, w)
  /\ init json_load w = (inl e, w).
Proof.
  intros Hf Hw.
  assert (load_or_create_config json_load w = (inl e, w)) as L.
  { unfold load_or_create_config, bind, get, write_config. now rewrite Hf, Hw. }
  split; [exact L|]. unfold init. unfold bind at 1. now rewrite L.
Qed.

(** X8: a file that parses to something that is not a dictionary is accepted
    by [load_or_create_config], and the constructor then fails: the first use
    of the value, [self.repos.keys()], raises [AttributeError]. *)
Theorem init_rejects_non_dict (files : FileSystem) (content : string) (data : pyval) :
  config_file files = Holds content ->
  json_load content = inr data ->
  (forall d, data <> PDict d) ->
  fst (init json_load (blank files))
  = inl (AttributeError ("'" ++ type_name data ++ "' object has no attribute 'keys'")).
Proof.
  intros Hf Hj Hd. unfold init, load_or_create_config, bind, get, assign_repos, modify, lift.
  cbn [fs blank]. rewrite Hf, Hj. cbn.
  destruct data; try reflexivity. now elim (Hd kvs).
Qed.

End LoadAndInit.

Lemma load_falls_back_to_sample_witness :
  load_or_create_config example_json_load (blank broken_files)
  = (inr RetSample,
     set_boxes
       [{| kind := Critical; title := "Config Error";
           text := "Failed to read repos.json: "
                   ++ "Expecting property name enclosed in double quotes: line 1 column 2 (char 1)" |}]
       (blank broken_files)).
Proof.
  apply (load_falls_back_to_sample example_json_load (blank broken_files)
           (JSONDecodeError
              "Expecting property name enclosed in double quotes: line 1 column 2 (char 1)")).
  right. exists "{". split; reflexivity.
Defined.

Lemma load_creates_missing_file_witness :
  load_or_create_config example_json_load (blank example_files)
  = (inr RetSample,
     set_boxes
       [{| kind := Information; title := "Sample Config Created";
           text := "repos.json was not found and a sample has been created at "
                   ++ "/home/u/repos.json" ++ LF ++ LF
                   ++ "Please update it with your repo links." |}]
       (set_fs (set_config_file (Holds (json_dumps SAMPLE_CONFIG)) example_files)
          (blank example_files))).
Proof.
  apply (load_creates_missing_file example_json_load (blank example_files)); reflexivity.
Defined.

Lemma load_missing_unwritable_raises_witness :
  load_or_create_config example_json_load
    (blank {| config_file := Missing; open_w_raises := open_w_raises broken_files;
              resolved := "/repos.json"; cwd := "/" |})
  = (inl (OtherError "PermissionError" "[Errno 13] Permission denied: 'repos.json'"),
     blank {| config_file := Missing; open_w_raises := open_w_raises broken_files;
              resolved := "/repos.json"; cwd := "/" |})
  /\ init example_json_load
        (blank {| config_file := Missing; open_w_raises := open_w_raises broken_files;
                  resolved := "/repos.json"; cwd := "/" |})
     = (inl (OtherError "PermissionError" "[Errno 13] Permission denied: 'repos.json'"),
        blank {| config_file := Missing; open_w_raises := open_w_raises broken_files;
                 resolved := "/repos.json"; cwd := "/" |}).
Proof.
  apply (load_missing_unwritable_raises example_json_load
           (blank {| config_file := Missing; open_w_raises := open_w_raises broken_files;
                     resolved := "/repos.json"; cwd := "/" |})); reflexivity.
Defined.

Lemma init_rejects_non_dict_witness :
  fst (init example_json_load
         (blank {| config_file := Holds "[]"; open_w_raises := None;
                   resolved := "/home/u/repos.json"; cwd := "/home/u" |}))
  = inl (AttributeError "'list' object has no attribute 'keys'").
Proof.
  apply (init_rejects_non_dict example_json_load
           {| config_file := Holds "[]"; open_w_raises := None;
              resolved := "/home/u/repos.json"; cwd := "/home/u" |}
           "[]" (PList [])); [reflexivity | reflexivity | discriminate].
Defined.

Lemma for_each_project_items cat ps : forall w,
  for_each ps (fun proj =>
    modify (fun w => set_sidebar (sidebar w ++ [ProjectItem cat proj])%list w)) w
  = (inr tt, set_sidebar (sidebar w ++ map (ProjectItem cat) ps)%list w).
Proof.
  induction ps as [|p ps IH]; intros w.
  - cbn. rewrite app_nil_r. now destruct w.
  - cbn [for_each]. unfold bind, modify. rewrite IH. cbn [map sidebar set_sidebar].
    rewrite <- app_assoc. reflexivity.
Qed.

Lemma for_each_category_items v cats0 : forall w,
  (forall cat, In cat cats0 -> exists d, py_getitem v cat = inr (PDict d)) ->
  for_each cats0 (fun cat =>
    modify (fun w => set_sidebar (sidebar w ++ [CategoryItem cat])%list w) ;;
    c <- lift (py_getitem v cat) ;;
    projs <- lift (py_keys c) ;;
    for_each (sorted projs) (fun proj =>
      modify (fun w => set_sidebar (sidebar w ++ [ProjectItem cat proj])%list w))) w
  = (inr tt,
     set_sidebar
       (sidebar w
        ++ flat_map (fun cat =>
             CategoryItem cat
             :: map (ProjectItem cat)
                  (match project_names v cat with
                   | inr ps => sorted ps
                   | inl _ => []
                   end)) cats0)%list w).
Proof.
  induction cats0 as [|cat cats0 IH]; intros w H.
  - cbn. rewrite app_nil_r. now destruct w.
  - destruct (H cat (or_introl eq_refl)) as [d Hd].
    cbn [for_each]. unfold bind at 1. unfold bind at 1.
    cbn [modify]. unfold bind at 1. cbn [lift]. rewrite Hd.
    unfold bind at 1. cbn [lift py_keys].
    rewrite for_each_project_items.
    rewrite IH by (intros c Hc; apply H; now right).
    cbn [flat_map sidebar set_sidebar].
    assert (project_names v cat = inr (dict_keys d)) as ->
      by (unfold project_names, rbind; now rewrite Hd).
    rewrite <- !app_assoc. reflexivity.
Qed.

(** X9: on a catalog, [populate_sidebar] replaces the sidebar by the
    categories in sorted order, each followed by its projects in sorted
    order, and changes nothing else. *)
Theorem populate_sidebar_lists_catalog (w : Window) (cats : list (string * pyval)) :
  repos_value w = PDict cats ->
  is_catalog (PDict cats) = true ->
  populate_sidebar w
  = (inr tt,
     set_sidebar
       (flat_map (fun cat =>
          CategoryItem cat
          :: map (ProjectItem cat)
               (match project_names (PDict cats) cat with
                | inr ps => sorted ps
                | inl _ => []
                end)) (sorted (dict_keys cats))) w).
Proof.
  intros Hv Hc. unfold populate_sidebar.
  unfold bind at 1, modify at 1. unfold bind at 1, get at 1.
  change (repos_value (set_sidebar [] w)) with (repos_value w). rewrite Hv.
  unfold bind at 1, lift at 1. cbn [py_keys].
  rewrite (for_each_category_items (PDict cats)).
  - reflexivity.
  - intros cat Hin.
    apply (Permutation_in _ (Permutation_sym (sorted_Permutation _))) in Hin.
    unfold dict_keys in Hin. apply in_map_iff in Hin as ([k x] & <- & Hkx).
    cbn [fst py_getitem].
    destruct (dict_get k cats) as [y|] eqn:E.
    + pose proof (is_dict_of_get _ _ _ _ Hc E) as Hy.
      destruct (is_dict_of_inv _ _ Hy) as [d ->]. eauto.
    + apply dict_get_None in E. elim E. unfold dict_keys.
      now apply (in_map fst) in Hkx.
Qed.

Lemma populate_sidebar_lists_catalog_witness :
  populate_sidebar example_window
  = (inr tt,
     set_sidebar
       [ CategoryItem "dev"; ProjectItem "dev" "ProjectA"; ProjectItem "dev" "ProjectB";
         CategoryItem "localization"; ProjectItem "localization" "ProjectA" ]
       example_window).
Proof.
  apply (populate_sidebar_lists_catalog example_window (sub_dict (Some SAMPLE_CONFIG)));
    reflexivity.
Defined.

(** ** Starting and finishing a clone *)

Lemma truthy_neq s : truthy s = true -> s <> "".
Proof. unfold truthy. intros H ->. discriminate. Qed.

(** X10: [clone_button_clicked] starts a task only if a category, a project
    and a component are selected, the catalog has an entry for them, the
    destination field is not blank and, when the destination exists and is
    not empty, the user has answered Yes and the old content could be
    removed.  When it starts one it returns normally and disables the push
    button. *)
Theorem clone_starts_only_when_ready (env : click_env) (w : Window) :
  threads (snd (clone_button_clicked env w)) <> threads w ->
  currentText (cat_combo w) <> ""
  /\ currentText (project_combo w) <> ""
  /\ currentText (component_combo w) <> ""
  /\ strip (dest_line w) <> ""
  /\ (exists u,
        lookup3 (repos_value w) (currentText (cat_combo w))
          (currentText (project_combo w)) (currentText (component_combo w)) = inr u)
  /\ (dest_exists env = true ->
      dest_any env = inr false
      \/ (dest_any env = inr true /\ answer_yes env = true /\ clear_raises env = None))
  /\ fst (clone_button_clicked env w) = inr tt
  /\ clone_btn_enabled (snd (clone_button_clicked env w)) = false.
Proof.
  unfold clone_button_clicked, bind, get, message, modify, append_log, ret, lift.
  destruct (truthy (currentText (cat_combo w))) eqn:T1;
    [|intros H; now elim H].
  destruct (truthy (currentText (project_combo w))) eqn:T2;
    [|intros H; now elim H].
  destruct (truthy (currentText (component_combo w))) eqn:T3;
    [|intros H; now elim H].
  cbn [negb orb].
  destruct (lookup3 _ _ _ _) as [e|u]; [intros H; now elim H|].
  destruct (truthy (strip (dest_line w))) eqn:T4; [|intros H; now elim H].
  cbn [negb].
  intros H.
  repeat (split; [now apply truthy_neq|]).
  split; [eauto|].
  destruct (dest_exists env); [destruct (dest_any env) as [e|[|]]|]; cbn in H |- *;
    try (destruct (answer_yes env); [destruct (clear_raises env)|]; cbn in H |- *);
    try (now elim H);
    (split; [intros; auto; try discriminate | split; reflexivity]).
Qed.

Lemma clone_starts_only_when_ready_witness :
  currentText (cat_combo example_window) <> ""
  /\ currentText (project_combo example_window) <> ""
  /\ currentText (component_combo example_window) <> ""
  /\ strip (dest_line example_window) <> ""
  /\ (exists u,
        lookup3 (repos_value example_window) (currentText (cat_combo example_window))
          (currentText (project_combo example_window))
          (currentText (component_combo example_window)) = inr u)
  /\ (dest_exists fresh_destination = true ->
      dest_any fresh_destination = inr false
      \/ (dest_any fresh_destination = inr true /\ answer_yes fresh_destination = true
          /\ clear_raises fresh_destination = None))
  /\ fst (clone_button_clicked fresh_destination example_window) = inr tt
  /\ clone_btn_enabled (snd (clone_button_clicked fresh_destination example_window)) = false.
Proof.
  apply (clone_starts_only_when_ready fresh_destination example_window). discriminate.
Defined.

(** ** The end of a task *)

Lemma deliver_logs t : forall w,
  finished_of t = [] ->
  deliver t w = (inr tt, set_log_view (log_view w ++ logs_of t)%list w).
Proof.
  induction t as [|x t IH]; intros w H.
  - cbn. rewrite app_nil_r. now destruct w.
  - destruct x; cbn [deliver]; cbn in H; try discriminate;
      try (rewrite (IH w H); reflexivity).
    unfold bind, slot, append_log, modify. cbn. rewrite (IH _ H).
    cbn [log_view set_log_view]. rewrite <- app_assoc. reflexivity.
Qed.

Lemma deliver_app t1 t2 : forall w,
  deliver (t1 ++ t2) w = deliver t2 (snd (deliver t1 w)).
Proof.
  induction t1 as [|x t1 IH]; intros w; [reflexivity|].
  destruct x; cbn [deliver app]; try apply IH; unfold bind; cbn; apply IH.
Qed.

Lemma for_line_aborted out : forall self,
  snd (for_line_in_stdout self out) = true ->
  exists t0, fst (for_line_in_stdout self out)
             = (t0 ++ [FinishedEmit false "aborted"])%list
             /\ finished_of t0 = [].
Proof.
  induction out as [|[l|] out IH]; intros self; simpl.
  - discriminate.
  - destruct (_stopped self).
    + intros _. exists [Kill; LogEmit ("Clone aborted by user." ++ LF)].
      split; reflexivity.
    + specialize (IH self). destruct (for_line_in_stdout self out) as [t r].
      cbn [fst snd] in *. intros H. destruct (IH H) as (t0 & -> & F).
      exists (LogEmit (rstrip l) :: t0). split; [reflexivity | exact F].
  - apply IH.
Qed.

Lemma run_except_ends e :
  exists l s i, run_except e = [LogEmit l; FinishedEmit s i].
Proof. destruct e; eexists _, _, _; reflexivity. Qed.

Lemma after_wait_ends ret :
  exists l s i, after_wait ret = [LogEmit l; FinishedEmit s i].
Proof. unfold after_wait. destruct (ret =? 0)%Z; eexists _, _, _; reflexivity. Qed.

Lemma run_ends_with_finished self env :
  mkdir_raises env = None ->
  exists t0 success info,
    fst (run self env) = (t0 ++ [FinishedEmit success info])%list
    /\ finished_of t0 = [].
Proof.
  intros Hm. unfold run. rewrite Hm.
  destruct (popen env) as [e|out fin].
  - destruct (run_except_ends e) as (l & s & i & E). cbn [fst]. rewrite E.
    eexists [_; _; _; LogEmit l], s, i. split; reflexivity.
  - pose proof (for_line_finished out self) as Hf.
    pose proof (for_line_aborted out self) as Hab.
    destruct (for_line_in_stdout self out) as [t returned]. cbn [fst snd] in *.
    destruct returned.
    + destruct (Hab eq_refl) as (t0 & E & F). subst t.
      eexists (_ :: _ :: _ :: t0)%list, _, _. cbn [fst]. split; [reflexivity|].
      exact F.
    + assert (exists l s i, end_report fin = [LogEmit l; FinishedEmit s i])
        as (l & s & i & E).
      { destruct fin; [apply after_wait_ends | apply run_except_ends]. }
      exists ([Mkdir (str_of_path (parent (Path_of (dest self))));
               LogEmit ("Starting clone: " ++ py_str (url self) ++ " -> "
                        ++ dest self ++ LF);
               Popen [PStr "git"; PStr "clone"; url self; PStr (dest self)]]
              ++ t ++ [LogEmit l])%list, s, i.
      split.
      * destruct fin; cbn [fst end_report] in *; rewrite E;
          rewrite <- app_assoc; cbn [app]; rewrite <- app_assoc; reflexivity.
      * rewrite finished_of_app, finished_of_app, Hf. reflexivity.
Qed.

Lemma logs_of_app a b : logs_of (a ++ b) = (logs_of a ++ logs_of b)%list.
Proof. apply flat_map_app. Qed.

Section Finishing.

Variable json_load : string -> result pyval.

(** X11: as long as only the push button is used to start clones (the
    toolbar action is left alone), at most one task is in flight, whatever
    else happens: refreshes, added projects, changes of the file, tasks
    running to their end. *)
Theorem one_clone_via_push_button (w : Window) (evs : list event) :
  in_flight w = 0 ->
  existsb is_toolbar_clone evs = false ->
  in_flight (steps json_load w evs) <= 1.
Proof.
  intros H0 Hev.
  apply (push_button_alone_one_clone json_load evs w Hev).
  split; [lia | intros _; exact H0].
Qed.

(** X12: when a running task whose directory could be created comes to its
    end, the window appends what the task logged to the log view, in order,
    then one line "Clone finished" with the report, shows one Information box
    with the same report, enables the push button, and counts the task as no
    longer in flight. *)
Theorem finished_task_enables_button
  (w : Window) (i : nat) (th : CloneThread) (env : run_env) :
  nth_error (threads w) i = Some (th, true) ->
  mkdir_raises env = None ->
  exists success info,
    finished_of (fst (run th env)) = [(success, info)]
    /\ clone_btn_enabled (step json_load w (ThreadRuns i env)) = true
    /\ S (in_flight (step json_load w (ThreadRuns i env))) = in_flight w
    /\ log_view (step json_load w (ThreadRuns i env))
       = (log_view w ++ logs_of (fst (run th env))
          ++ [("Clone finished. success=" ++ str_of_bool success ++ ", info=" ++ info)%string])%list
    /\ boxes (step json_load w (ThreadRuns i env))
       = (boxes w
          ++ [{| kind := Information; title := "Clone Finished";
                 text := ("Finished: success=" ++ str_of_bool success
                          ++ ", info=" ++ info)%string |}])%list
    /\ stderr (step json_load w (ThreadRuns i env)) = stderr w.
Proof.
  intros Hn Hm.
  destruct (run_ends_with_finished th env Hm) as (t0 & success & info & E & F).
  pose proof (run_reports_once th env Hm) as [Hret _].
  exists success, info.
  unfold step, thread_runs, bind, get. rewrite Hn.
  destruct (run th env) as [t outcome]. cbn [fst snd] in *. subst t outcome.
  rewrite deliver_app, (deliver_logs t0 w F). cbn [snd deliver].
  unfold bind, slot, clone_finished, bind, append_log, message, modify, ret. cbn.
  rewrite finished_of_app, F, logs_of_app. cbn.
  repeat split.
  - unfold in_flight. cbn. apply (mark_done_running _ _ _ Hn).
  - now rewrite app_nil_r, <- app_assoc.
Qed.

(** X13: when the directory of a running task cannot be created, its end
    leaves no trace in the window but the reported exception: nothing is
    logged, no box is shown, and the push button stays as it was, disabled if
    the task had been started from it. *)
Theorem failed_mkdir_leaves_button_disabled
  (w : Window) (i : nat) (th : CloneThread) (env : run_env) (e : exn) :
  nth_error (threads w) i = Some (th, true) ->
  mkdir_raises env = Some e ->
  step json_load w (ThreadRuns i env)
  = set_stderr (stderr w ++ [e])%list (set_threads (mark_done i (threads w)) w).
Proof.
  intros Hn Hm. unfold step, thread_runs, bind, get. rewrite Hn.
  unfold run. rewrite Hm. reflexivity.
Qed.

End Finishing.

Lemma one_clone_via_push_button_witness :
  in_flight
    (steps example_json_load example_window
       [ ClickCloneButton fresh_destination; ClickCloneButton fresh_destination;
         TriggerRefresh;
         ThreadRuns 0 {| mkdir_raises := None; popen := Launched example_output (Eof 0) |};
         ClickCloneButton fresh_destination ]) <= 1.
Proof.
  apply (one_clone_via_push_button example_json_load example_window); reflexivity.
Defined.

Lemma finished_task_enables_button_witness :
  exists success info,
    finished_of
      (fst (run (new_CloneThread (PStr "https://github.com/user/projectA-component2.git")
                   "/home/u/cloned/ProjectA/Component2")
              {| mkdir_raises := None; popen := Launched [] (Eof 0) |}))
    = [(success, info)]
    /\ clone_btn_enabled
         (step example_json_load
            (step example_json_load example_window (ClickCloneButton fresh_destination))
            (ThreadRuns 0 {| mkdir_raises := None; popen := Launched [] (Eof 0) |})) = true
    /\ S (in_flight
            (step example_json_load
               (step example_json_load example_window (ClickCloneButton fresh_destination))
               (ThreadRuns 0 {| mkdir_raises := None; popen := Launched [] (Eof 0) |})))
       = in_flight
           (step example_json_load example_window (ClickCloneButton fresh_destination))
    /\ log_view
         (step example_json_load
            (step example_json_load example_window (ClickCloneButton fresh_destination))
            (ThreadRuns 0 {| mkdir_raises := None; popen := Launched [] (Eof 0) |}))
       = (log_view
            (step example_json_load example_window (ClickCloneButton fresh_destination))
          ++ logs_of
               (fst (run (new_CloneThread
                            (PStr "https://github.com/user/projectA-component2.git")
                            "/home/u/cloned/ProjectA/Component2")
                       {| mkdir_raises := None; popen := Launched [] (Eof 0) |}))
          ++ [("Clone finished. success=" ++ str_of_bool success ++ ", info=" ++ info)%string])%list
    /\ boxes
         (step example_json_load
            (step example_json_load example_window (ClickCloneButton fresh_destination))
            (ThreadRuns 0 {| mkdir_raises := None; popen := Launched [] (Eof 0) |}))
       = (boxes (step example_json_load example_window (ClickCloneButton fresh_destination))
          ++ [{| kind := Information; title := "Clone Finished";
                 text := ("Finished: success=" ++ str_of_bool success
                          ++ ", info=" ++ info)%string |}])%list
    /\ stderr
         (step example_json_load
            (step example_json_load example_window (ClickCloneButton fresh_destination))
            (ThreadRuns 0 {| mkdir_raises := None; popen := Launched [] (Eof 0) |}))
       = stderr (step example_json_load example_window (ClickCloneButton fresh_destination)).
Proof.
  apply (finished_task_enables_button example_json_load
           (step example_json_load example_window (ClickCloneButton fresh_destination))
           0
           (new_CloneThread (PStr "https://github.com/user/projectA-component2.git")
              "/home/u/cloned/ProjectA/Component2")
           {| mkdir_raises := None; popen := Launched [] (Eof 0) |}); reflexivity.
Defined.

Lemma failed_mkdir_leaves_button_disabled_witness :
  clone_btn_enabled
    (step example_json_load
       (step example_json_load example_window (ClickCloneButton fresh_destination))
       (ThreadRuns 0 {| mkdir_raises := Some (OtherError "FileExistsError"
                                                "[Errno 17] File exists: '/home/u/cloned/ProjectA'");
                        popen := Launched [] (Eof 0) |})) = false.
Proof.
  rewrite (failed_mkdir_leaves_button_disabled example_json_load
             (step example_json_load example_window (ClickCloneButton fresh_destination))
             0
             (new_CloneThread (PStr "https://github.com/user/projectA-component2.git")
                "/home/u/cloned/ProjectA/Component2")
             {| mkdir_raises := Some (OtherError "FileExistsError"
                                        "[Errno 17] File exists: '/home/u/cloned/ProjectA'");
                popen := Launched [] (Eof 0) |}
             (OtherError "FileExistsError"
                "[Errno 17] File exists: '/home/u/cloned/ProjectA'")); reflexivity.
Defined.

(** ** The three boxes and the catalog *)

Lemma is_catalog_category v cat c :
  is_catalog v = true -> py_getitem v cat = inr c -> is_category c = true.
Proof.
  intros H G. destruct (is_dict_of_inv _ _ H) as [d ->].
  simpl in G. destruct (dict_get cat d) eqn:E; [|discriminate].
  injection G as <-. apply (is_dict_of_get _ _ _ _ H E).
Qed.

Lemma py_contains_dict v k P :
  is_dict_of P v = true ->
  py_contains k v = inr (match py_getitem v k with inr _ => true | inl _ => false end).
Proof.
  intros H. destruct (is_dict_of_inv _ _ H) as [d ->]. simpl.
  unfold dict_mem. now destruct (dict_get k d).
Qed.

Lemma on_project_change_sync text w :
  is_catalog (repos_value w) = true ->
  on_project_change text w
  = (inr tt,
     set_component_combo
       (box_of (component_list (repos_value w) (currentText (cat_combo w)) text)) w).
Proof.
  intros H.
  unfold on_project_change, component_combo_do, bind, get, lift, modify, ret.
  cbn -[sorted truthy py_contains py_getitem py_keys box_of component_list].
  change (repos_value (set_component_combo ?b w)) with (repos_value w).
  unfold component_list, component_names, rbind.
  destruct (truthy (currentText (cat_combo w)) && truthy text); [|reflexivity].
  rewrite (py_contains_dict _ _ _ H).
  destruct (py_getitem (repos_value w) (currentText (cat_combo w))) as [e|c] eqn:E1;
    [reflexivity|].
  pose proof (is_catalog_category _ _ _ H E1) as Hc.
  rewrite (py_contains_dict _ _ _ Hc).
  destruct (py_getitem c text) as [e|p] eqn:E2; [reflexivity|].
  assert (is_project p = true) as Hp.
  { destruct (is_dict_of_inv _ _ Hc) as [d ->]. simpl in E2.
    destruct (dict_get text d) eqn:E; [|discriminate]. injection E2 as <-.
    apply (is_dict_of_get _ _ _ _ Hc E). }
  destruct (is_dict_of_inv _ _ Hp) as [d ->]. reflexivity.
Qed.

Lemma component_list_no_project v cat : component_list v cat "" = [].
Proof. unfold component_list. cbn [truthy String.eqb negb]. now rewrite andb_false_r. Qed.

Lemma currentText_box_of l : currentText (box_of l) = hd "" l.
Proof. destruct l; reflexivity. Qed.

Lemma currentText_no_items cb : items cb = [] -> currentText cb = "".
Proof.
  unfold currentText. intros ->. destruct (currentIndex cb) as [[|i]|]; reflexivity.
Qed.

Lemma project_combo_do_sync op w :
  is_catalog (repos_value w) = true ->
  project_combo_do op w
  = (inr tt,
     match snd (op (project_combo w)) with
     | Some t =>
         set_component_combo
           (box_of (component_list (repos_value w) (currentText (cat_combo w)) t))
           (set_project_combo (fst (op (project_combo w))) w)
     | None => set_project_combo (fst (op (project_combo w))) w
     end).
Proof.
  intros H. unfold project_combo_do, bind, get, modify, ret.
  destruct (op (project_combo w)) as [cb [t|]]; cbn [fst snd]; [|reflexivity].
  unfold slot. rewrite on_project_change_sync by exact H. reflexivity.
Qed.

Lemma project_combo_clear_sync w :
  is_catalog (repos_value w) = true ->
  (currentText (project_combo w) = "" -> items (component_combo w) = []) ->
  exists cb,
    project_combo_do cb_clear w
    = (inr tt, set_component_combo cb (set_project_combo empty_combo w))
    /\ items cb = [].
Proof.
  intros H Hinv. rewrite (project_combo_do_sync _ _ H).
  unfold cb_clear, text_changed. cbn [fst snd].
  destruct (currentText (project_combo w) =? currentText empty_combo) eqn:E.
  - exists (component_combo w). split; [destruct w; reflexivity|].
    apply Hinv. now apply String.eqb_eq in E.
  - eexists. split; [reflexivity|].
    change (currentText empty_combo) with "".
    now rewrite component_list_no_project.
Qed.

Lemma on_category_change_sync text w :
  is_catalog (repos_value w) = true ->
  currentText (cat_combo w) = text ->
  (currentText (project_combo w) = "" -> items (component_combo w) = []) ->
  exists cb,
    on_category_change text w
    = (inr tt,
       set_component_combo cb
         (set_project_combo (box_of (project_list (repos_value w) text)) w))
    /\ items cb
       = component_list (repos_value w) text
           (currentText (box_of (project_list (repos_value w) text))).
Proof.
  intros H Ht Hinv.
  destruct (project_combo_clear_sync w H Hinv) as (cb1 & R1 & I1).
  unfold on_category_change. unfold bind at 1. rewrite R1.
  unfold bind at 1, get at 1.
  unfold project_list, component_list, project_names, component_names, rbind.
  destruct (truthy text) eqn:T.
  2:{ exists cb1. split; [reflexivity | exact I1]. }
  unfold bind at 1, lift at 1.
  change (repos_value (set_component_combo cb1 (set_project_combo empty_combo w)))
    with (repos_value w).
  rewrite (py_contains_dict _ _ _ H).
  destruct (py_getitem (repos_value w) text) as [e|c] eqn:G.
  { exists cb1. split; [reflexivity|]. rewrite I1. now rewrite andb_false_r. }
  unfold bind at 1, lift at 1.
  pose proof (is_catalog_category _ _ _ H G) as Hc.
  destruct (is_dict_of_inv _ _ Hc) as [d ->].
  unfold bind at 1, lift at 1. cbn [py_keys].
  remember (sorted (dict_keys d)) as l eqn:El.
  assert (is_catalog (repos_value
            (set_component_combo cb1 (set_project_combo empty_combo w))) = true) as H1
    by exact H.
  unfold bind at 1. rewrite (project_combo_do_sync _ _ H1).
  destruct l as [|x l'].
  - cbn. exists cb1. split; [destruct w; reflexivity | exact I1].
  - unfold bind at 1, get at 1.
    match goal with
    | |- context [Nat.ltb 0 (count (project_combo ?s))] =>
        assert (project_combo s = box_of (x :: l')) as P2
          by (cbn; destruct (text_changed _ _); reflexivity);
        assert (is_catalog (repos_value s) = true) as H2
          by (cbn; destruct (text_changed _ _); exact H);
        assert (currentText (cat_combo s) = text) as C2
          by (cbn; destruct (text_changed _ _); exact Ht);
        assert (repos_value s = repos_value w) as V2
          by (cbn; destruct (text_changed _ _); reflexivity);
        remember s as w2 eqn:E2
    end.
    rewrite P2. cbn [Nat.ltb Nat.leb count items box_of cb_addItems fst app List.length empty_combo].
    unfold bind at 1. rewrite (project_combo_do_sync _ _ H2). rewrite P2.
    assert (cb_setCurrentIndex 0 (box_of (x :: l')) = (box_of (x :: l'), None)) as S0.
    { unfold cb_setCurrentIndex, text_changed. cbn. now rewrite String.eqb_refl. }
    rewrite S0. cbn [fst snd].
    unfold bind at 1, get at 1.
    rewrite on_project_change_sync by exact H2.
    change (currentText (project_combo (set_project_combo (box_of (x :: l')) w2)))
      with x.
    change (cat_combo (set_project_combo (box_of (x :: l')) w2)) with (cat_combo w2).
    change (repos_value (set_project_combo (box_of (x :: l')) w2)) with (repos_value w2).
    rewrite C2, V2.
    eexists. split.
    + subst w2. cbn. destruct (text_changed _ _); destruct w; reflexivity.
    + cbn [items currentText currentIndex nth].
      unfold component_list, component_names, rbind.
      rewrite T, G. reflexivity.
Qed.

Ltac window_fields :=
  cbn [sample_config repos_obj repos fs cat_combo project_combo component_combo
       sidebar dest_line clone_btn_enabled log_view boxes dialog_open threads stderr
       set_sample_config set_repos_obj set_repos set_fs set_cat_combo
       set_project_combo set_component_combo set_sidebar set_dest_line
       set_clone_btn_enabled set_log_view set_boxes set_dialog_open set_threads
       set_stderr repos_value].

Lemma text_changed_refl cb : text_changed cb cb = None.
Proof. unfold text_changed. now rewrite String.eqb_refl. Qed.

Lemma text_changed_Some old new t :
  text_changed old new = Some t -> t = currentText new /\ currentText old <> t.
Proof.
  unfold text_changed. destruct (currentText old =? currentText new) eqn:E;
    [discriminate|].
  intros [= <-]. split; [reflexivity|]. now apply String.eqb_neq.
Qed.

Lemma text_changed_None old new :
  text_changed old new = None -> currentText new = currentText old.
Proof.
  unfold text_changed. destruct (currentText old =? currentText new) eqn:E;
    [|discriminate].
  intros _. symmetry. now apply String.eqb_eq.
Qed.

Lemma findText_In t xs :
  In t xs ->
  exists i, findText t xs = Some i /\ Nat.ltb i (List.length xs) = true
            /\ nth i xs "" = t.
Proof.
  induction xs as [|x xs IH]; [intros []|]. intros Hin. cbn [findText].
  destruct (t =? x) eqn:E.
  - apply String.eqb_eq in E. subst x. exists 0. repeat split.
  - destruct Hin as [->|Hin]; [now rewrite String.eqb_refl in E|].
    destruct (IH Hin) as (i & -> & L & N). exists (S i). repeat split; assumption.
Qed.

(** The operations by which a selection is made leave the items alone and
    emit the signal exactly on a change of the text. *)
Lemma cb_setCurrentIndex_selects i cb :
  items (fst (cb_setCurrentIndex i cb)) = items cb
  /\ snd (cb_setCurrentIndex i cb) = text_changed cb (fst (cb_setCurrentIndex i cb)).
Proof. split; reflexivity. Qed.

Lemma cb_setCurrentText_selects t cb :
  items (fst (cb_setCurrentText t cb)) = items cb
  /\ snd (cb_setCurrentText t cb) = text_changed cb (fst (cb_setCurrentText t cb)).
Proof.
  unfold cb_setCurrentText. destruct (findText t (items cb)).
  - apply cb_setCurrentIndex_selects.
  - cbn [fst snd]. now rewrite text_changed_refl.
Qed.

Lemma cb_setCurrentText_found t cb :
  In t (items cb) -> currentText (fst (cb_setCurrentText t cb)) = t.
Proof.
  intros Hin. destruct (findText_In _ _ Hin) as (i & F & L & N).
  unfold cb_setCurrentText. rewrite F. unfold cb_setCurrentIndex, count.
  cbn [fst]. rewrite L. exact N.
Qed.

Lemma cat_combo_do_same op w :
  snd (op (cat_combo w)) = None ->
  cat_combo_do op w = (inr tt, set_cat_combo (fst (op (cat_combo w))) w).
Proof.
  unfold cat_combo_do, bind, get, modify, ret.
  destruct (op (cat_combo w)) as [cb s]. cbn [fst snd]. now intros ->.
Qed.

Lemma cat_combo_do_changed op w t :
  is_catalog (repos_value w) = true ->
  (currentText (project_combo w) = "" -> items (component_combo w) = []) ->
  snd (op (cat_combo w)) = Some t ->
  currentText (fst (op (cat_combo w))) = t ->
  exists cb,
    cat_combo_do op w
    = (inr tt,
       set_component_combo cb
         (set_project_combo (box_of (project_list (repos_value w) t))
            (set_cat_combo (fst (op (cat_combo w))) w)))
    /\ items cb
       = component_list (repos_value w) t
           (currentText (box_of (project_list (repos_value w) t))).
Proof.
  intros H Hinv Hs Ht.
  unfold cat_combo_do, bind, get, modify, ret.
  destruct (op (cat_combo w)) as [cc s]. cbn [fst snd] in *. subst s.
  destruct (on_category_change_sync t (set_cat_combo cc w) H Ht Hinv) as (cb & R & I).
  unfold slot. rewrite R. exists cb. split; [reflexivity | exact I].
Qed.

Lemma in_sync_blank w :
  in_sync w -> currentText (project_combo w) = "" -> items (component_combo w) = [].
Proof.
  intros (_ & _ & _ & Hc) E. rewrite Hc, E. apply component_list_no_project.
Qed.

Lemma cat_combo_select_sync op w :
  in_sync w ->
  items (fst (op (cat_combo w))) = items (cat_combo w) ->
  snd (op (cat_combo w)) = text_changed (cat_combo w) (fst (op (cat_combo w))) ->
  exists pb cb,
    cat_combo_do op w
    = (inr tt,
       set_component_combo cb
         (set_project_combo pb (set_cat_combo (fst (op (cat_combo w))) w)))
    /\ in_sync (set_component_combo cb
                  (set_project_combo pb (set_cat_combo (fst (op (cat_combo w))) w))).
Proof.
  intros S Hi Hs. pose proof S as (H & Hcat & Hproj & Hcomp).
  destruct (snd (op (cat_combo w))) as [t|] eqn:E.
  - symmetry in Hs. apply text_changed_Some in Hs as [Ht _]. symmetry in Ht.
    destruct (cat_combo_do_changed op w t H (in_sync_blank w S) E Ht) as (cb & R & I).
    exists (box_of (project_list (repos_value w) t)), cb. split; [exact R|].
    unfold in_sync. window_fields.
    change (match repos w with TheSample => sample_config w | Loaded => repos_obj w end)
      with (repos_value w).
    rewrite Ht. repeat split; try assumption. now rewrite Hi.
  - exists (project_combo w), (component_combo w).
    rewrite (cat_combo_do_same op w E). split; [destruct w; reflexivity|].
    symmetry in Hs. apply text_changed_None in Hs.
    unfold in_sync. window_fields.
    change (match repos w with TheSample => sample_config w | Loaded => repos_obj w end)
      with (repos_value w).
    rewrite Hs, Hi. repeat split; assumption.
Qed.

Lemma project_combo_select_sync op w :
  in_sync w ->
  items (fst (op (project_combo w))) = items (project_combo w) ->
  snd (op (project_combo w))
  = text_changed (project_combo w) (fst (op (project_combo w))) ->
  exists cb,
    project_combo_do op w
    = (inr tt,
       set_component_combo cb (set_project_combo (fst (op (project_combo w))) w))
    /\ in_sync (set_component_combo cb
                  (set_project_combo (fst (op (project_combo w))) w)).
Proof.
  intros S Hi Hs. pose proof S as (H & Hcat & Hproj & Hcomp).
  rewrite (project_combo_do_sync op w H).
  destruct (snd (op (project_combo w))) as [t|] eqn:E.
  - symmetry in Hs. apply text_changed_Some in Hs as [Ht _].
    eexists. split; [reflexivity|].
    unfold in_sync. window_fields.
    change (match repos w with TheSample => sample_config w | Loaded => repos_obj w end)
      with (repos_value w).
    rewrite <- Ht, Hi. repeat split; assumption.
  - exists (component_combo w). split; [destruct w; reflexivity|].
    symmetry in Hs. apply text_changed_None in Hs.
    unfold in_sync. window_fields.
    change (match repos w with TheSample => sample_config w | Loaded => repos_obj w end)
      with (repos_value w).
    rewrite Hs, Hi. repeat split; assumption.
Qed.

Lemma populate_sidebar_frame w :
  is_catalog (repos_value w) = true ->
  exists sb, populate_sidebar w = (inr tt, set_sidebar sb w).
Proof.
  intros Hc. destruct (is_dict_of_inv _ _ Hc) as [cats Hv]. rewrite Hv in Hc.
  unfold populate_sidebar.
  unfold bind at 1, modify at 1. unfold bind at 1, get at 1.
  change (repos_value (set_sidebar [] w)) with (repos_value w). rewrite Hv.
  unfold bind at 1, lift at 1. cbn [py_keys].
  rewrite (for_each_category_items (PDict cats)).
  - eexists. reflexivity.
  - intros cat Hin.
    apply (Permutation_in _ (Permutation_sym (sorted_Permutation _))) in Hin.
    unfold dict_keys in Hin. apply in_map_iff in Hin as ([k x] & <- & Hkx).
    cbn [fst py_getitem].
    destruct (dict_get k cats) as [y|] eqn:E.
    + pose proof (is_dict_of_get _ _ _ _ Hc E) as Hy.
      destruct (is_dict_of_inv _ _ Hy) as [d ->]. eauto.
    + apply dict_get_None in E. elim E. unfold dict_keys.
      now apply (in_map fst) in Hkx.
Qed.

(** An operation on the category box, when the project and component boxes
    are empty wherever nothing is selected before them. *)
Lemma cat_combo_do_relists op w :
  is_catalog (repos_value w) = true ->
  (currentText (project_combo w) = "" -> items (component_combo w) = []) ->
  snd (op (cat_combo w)) = text_changed (cat_combo w) (fst (op (cat_combo w))) ->
  exists pb cb,
    cat_combo_do op w
    = (inr tt,
       set_component_combo cb
         (set_project_combo pb (set_cat_combo (fst (op (cat_combo w))) w)))
    /\ (currentText (fst (op (cat_combo w))) <> currentText (cat_combo w) ->
        pb = box_of (project_list (repos_value w) (currentText (fst (op (cat_combo w)))))
        /\ items cb
           = component_list (repos_value w) (currentText (fst (op (cat_combo w))))
               (currentText pb))
    /\ (currentText (fst (op (cat_combo w))) = currentText (cat_combo w) ->
        pb = project_combo w /\ cb = component_combo w).
Proof.
  intros H Hinv Hs.
  destruct (snd (op (cat_combo w))) as [t|] eqn:E.
  - symmetry in Hs. apply text_changed_Some in Hs as [Ht Hne]. symmetry in Ht.
    destruct (cat_combo_do_changed op w t H Hinv E Ht) as (cb & R & I).
    exists (box_of (project_list (repos_value w) t)), cb.
    split; [exact R|]. rewrite Ht. split.
    + intros _. split; [reflexivity | exact I].
    + intros Heq. now elim Hne.
  - exists (project_combo w), (component_combo w).
    rewrite (cat_combo_do_same op w E). split; [destruct w; reflexivity|].
    symmetry in Hs. apply text_changed_None in Hs. split.
    + intros Hne. now elim Hne.
    + intros _. split; reflexivity.
Qed.

Lemma In_category_list v k :
  is_catalog v = true ->
  In k (category_list v) <-> py_contains k v = inr true.
Proof.
  intros H. destruct (is_dict_of_inv _ _ H) as [d ->].
  unfold category_list. cbn [py_keys py_contains]. split.
  - intros Hin.
    apply (Permutation_in _ (Permutation_sym (sorted_Permutation _))) in Hin.
    unfold dict_mem. destruct (dict_get k d) eqn:E; [reflexivity|].
    now apply dict_get_None in E.
  - intros [= Hm]. unfold dict_mem in Hm.
    destruct (dict_get k d) eqn:E; [|discriminate].
    apply (Permutation_in _ (sorted_Permutation _)).
    apply (dict_get_Some_key _ _ _ E).
Qed.

Section RefreshFacts.

Variable json_load : string -> result pyval.

Lemma refresh_projects_sync w content v' :
  (currentText (cat_combo w) = "" -> items (project_combo w) = []) ->
  (currentText (project_combo w) = "" -> items (component_combo w) = []) ->
  config_file (fs w) = Holds content ->
  json_load content = inr v' ->
  is_catalog v' = true ->
  exists sb cc pb cb,
    refresh_projects json_load w
    = (inr tt,
       set_log_view (log_view w ++ ["Refreshed project list from repos.json"])%list
         (set_component_combo cb
            (set_project_combo pb
               (set_cat_combo cc
                  (set_sidebar sb (set_repos Loaded (set_repos_obj v' w)))))))
    /\ in_sync (set_component_combo cb
                  (set_project_combo pb
                     (set_cat_combo cc
                        (set_sidebar sb (set_repos Loaded (set_repos_obj v' w))))))
    /\ (truthy (currentText (cat_combo w)) = true ->
        py_contains (currentText (cat_combo w)) v' = inr true ->
        currentText cc = currentText (cat_combo w))
    /\ (truthy (currentText (cat_combo w)) = false
        \/ py_contains (currentText (cat_combo w)) v' = inr false ->
        cc = box_of (category_list v'))
    /\ (currentText cc <> "" -> pb = box_of (project_list v' (currentText cc))).
Proof.
  intros Hb1 Hb2 Hf Hj Hc.
  unfold refresh_projects.
  unfold bind at 1. unfold load_or_create_config. unfold bind at 1, get at 1.
  rewrite Hf, Hj. cbn [ret].
  unfold bind at 1, assign_repos, modify.
  set (w0 := set_repos Loaded (set_repos_obj v' w)).
  assert (repos_value w0 = v') as V0 by reflexivity.
  assert (is_catalog (repos_value w0) = true) as H0 by exact Hc.
  destruct (populate_sidebar_frame w0 H0) as [sb Rsb].
  unfold bind at 1. rewrite Rsb.
  set (wA := set_sidebar sb w0).
  unfold bind at 1, get at 1.
  change (currentText (cat_combo wA)) with (currentText (cat_combo w)).
  set (cur := currentText (cat_combo w)) in *.
  (* clear *)
  destruct (cat_combo_do_relists cb_clear wA H0 Hb2 eq_refl)
    as (pb1 & cb1 & R1 & Hch1 & Hsame1).
  unfold bind at 1. rewrite R1.
  change (fst (cb_clear (cat_combo wA))) with empty_combo in *.
  change (currentText empty_combo) with "" in *.
  change (currentText (cat_combo wA)) with cur in *.
  change (repos_value wA) with v' in *.
  assert (items pb1 = [] /\ items cb1 = []) as [I1 J1].
  { destruct (string_dec "" cur) as [E|E].
    - destruct (Hsame1 E) as [-> ->]. symmetry in E.
      pose proof (Hb1 E) as Hp. split; [exact Hp|].
      apply Hb2. now apply currentText_no_items.
    - destruct (Hch1 E) as [-> ->]. split; reflexivity. }
  clear Hch1 Hsame1 R1.
  set (wB := set_component_combo cb1
               (set_project_combo pb1 (set_cat_combo empty_combo wA))).
  unfold bind at 1, get at 1. unfold bind at 1, lift at 1.
  change (repos_value wB) with v'.
  destruct (is_dict_of_inv _ _ Hc) as [d Ed].
  assert (py_keys v' = inr (dict_keys d)) as K by (now rewrite Ed).
  rewrite K.
  assert (category_list v' = sorted (dict_keys d)) as CL by (now rewrite Ed).
  rewrite <- CL.
  (* addItems *)
  assert (currentText (project_combo wB) = "" -> items (component_combo wB) = [])
    as HinvB by (intros _; exact J1).
  destruct (cat_combo_do_relists (cb_addItems (category_list v')) wB H0 HinvB eq_refl)
    as (pb2 & cb2 & R2 & Hch2 & Hsame2).
  unfold bind at 1. rewrite R2.
  change (fst (cb_addItems (category_list v') (cat_combo wB)))
    with (box_of (category_list v')) in *.
  change (currentText (cat_combo wB)) with "" in *.
  change (repos_value wB) with v' in *.
  set (wC := set_component_combo cb2
               (set_project_combo pb2 (set_cat_combo (box_of (category_list v')) wB))).
  assert (in_sync wC) as SC.
  { unfold in_sync. subst wC. window_fields.
    change (match repos wB with TheSample => sample_config wB | Loaded => repos_obj wB end)
      with v'.
    split; [exact Hc|]. split; [reflexivity|].
    destruct (string_dec (currentText (box_of (category_list v'))) "") as [E|E].
    - destruct (Hsame2 E) as [-> ->]. subst wB. window_fields.
      rewrite E, I1, J1. split; reflexivity.
    - destruct (Hch2 E) as [-> ->]. split; reflexivity. }
  assert (currentText (box_of (category_list v')) <> "" ->
          pb2 = box_of (project_list v' (currentText (box_of (category_list v')))))
    as J2 by (intros E; apply (Hch2 E)).
  clear Hch2 Hsame2 R2.
  unfold bind at 1, get at 1.
  change (repos_value wC) with v'.
  destruct (truthy cur) eqn:T.
  - unfold bind at 1. unfold bind at 1, lift at 1.
    destruct (py_contains cur v') as [e|[|]] eqn:P.
    + rewrite Ed in P. discriminate.
    + destruct (cat_combo_select_sync (cb_setCurrentText cur) wC SC
                  (proj1 (cb_setCurrentText_selects _ _))
                  (proj2 (cb_setCurrentText_selects _ _)))
        as (pb3 & cb3 & R3 & S3).
      destruct (cat_combo_do_relists (cb_setCurrentText cur) wC H0
                  (in_sync_blank wC SC) (proj2 (cb_setCurrentText_selects _ _)))
        as (pb3' & cb3' & R3' & Hch3 & Hsame3).
      assert (pb3' = pb3) as ->.
      { rewrite R3 in R3'.
        apply (f_equal (fun r => project_combo (snd r))) in R3'. cbn in R3'.
        now symmetry. }
      rewrite R3. unfold append_log, modify.
      exists sb, (fst (cb_setCurrentText cur (cat_combo wC))), pb3, cb3.
      split; [reflexivity|]. split; [exact S3|].
      assert (currentText (fst (cb_setCurrentText cur (cat_combo wC))) = cur) as Ecur.
      { apply cb_setCurrentText_found.
        change (items (cat_combo wC)) with (category_list v').
        now apply In_category_list. }
      split; [intros _ _; exact Ecur|].
      split; [intros [?|?]; discriminate|].
      intros Hne.
      destruct (string_dec (currentText (fst (cb_setCurrentText cur (cat_combo wC))))
                  (currentText (cat_combo wC))) as [E|E].
      * destruct (Hsame3 E) as [-> _]. rewrite E.
        change (project_combo wC) with pb2.
        change (currentText (cat_combo wC)) with (currentText (box_of (category_list v'))).
        apply J2. rewrite E in Hne. exact Hne.
      * apply (Hch3 E).
    + cbn [ret]. unfold append_log, modify.
      exists sb, (box_of (category_list v')), pb2, cb2.
      split; [reflexivity|]. split; [exact SC|].
      split; [intros _ ?; discriminate|]. split; [reflexivity | exact J2].
  - unfold bind at 1. cbn [ret]. unfold append_log, modify.
    exists sb, (box_of (category_list v')), pb2, cb2.
    split; [reflexivity|]. split; [exact SC|].
    split; [intros ?; discriminate|]. split; [reflexivity | exact J2].
Qed.

End RefreshFacts.

Lemma dict_get_of_key {V} (d : list (string * V)) k :
  In k (dict_keys d) -> exists x, dict_get k d = Some x.
Proof.
  intros Hin. destruct (dict_get k d) as [x|] eqn:E; [eauto|].
  now apply dict_get_None in E.
Qed.

Lemma sorted_In x xs : In x (sorted xs) <-> In x xs.
Proof.
  split; intros H.
  - apply (Permutation_in _ (Permutation_sym (sorted_Permutation _)) H).
  - apply (Permutation_in _ (sorted_Permutation _) H).
Qed.

Lemma lookup3_listed v k p c x :
  is_catalog v = true -> k <> "" -> p <> "" ->
  lookup3 v k p c = inr x ->
  In k (category_list v) /\ In p (project_list v k) /\ In c (component_list v k p).
Proof.
  intros H Hk Hp L. unfold lookup3, rbind in L.
  destruct (py_getitem v k) as [|cv] eqn:G1; [discriminate|].
  destruct (py_getitem cv p) as [|pv] eqn:G2; [discriminate|].
  pose proof (is_catalog_category _ _ _ H G1) as Hc.
  split; [|split].
  - apply In_category_list; [exact H|]. now apply py_contains_of_getitem in G1.
  - unfold project_list, project_names, rbind.
    rewrite (truthy_true _ Hk), G1.
    apply py_getitem_inr in G2 as (d & -> & G2). cbn [py_keys].
    apply sorted_In. apply (dict_get_Some_key _ _ _ G2).
  - unfold component_list, component_names, rbind.
    rewrite (truthy_true _ Hk), (truthy_true _ Hp), G1, G2. cbn [andb].
    apply py_getitem_inr in L as (d & -> & L). cbn [py_keys].
    apply sorted_In. apply (dict_get_Some_key _ _ _ L).
Qed.

Lemma currentText_listed cb : currentText cb <> "" -> In (currentText cb) (items cb).
Proof.
  unfold currentText. destruct (currentIndex cb) as [i|]; [|intros H; now elim H].
  intros H. destruct (Nat.ltb i (List.length (items cb))) eqn:L.
  - apply nth_In. now apply Nat.ltb_lt.
  - apply Nat.ltb_ge in L. rewrite nth_overflow in H by exact L. now elim H.
Qed.

Lemma component_list_url v k p c :
  is_catalog v = true -> In c (component_list v k p) ->
  exists u, lookup3 v k p c = inr (PStr u).
Proof.
  intros H Hin. unfold component_list, component_names, rbind in Hin.
  destruct (truthy k && truthy p); [|destruct Hin].
  destruct (py_getitem v k) as [|cv] eqn:G1; [destruct Hin|].
  destruct (py_getitem cv p) as [|pv] eqn:G2; [destruct Hin|].
  pose proof (is_catalog_category _ _ _ H G1) as Hc.
  assert (is_project pv = true) as Hp.
  { destruct (is_dict_of_inv _ _ Hc) as [d ->]. simpl in G2.
    destruct (dict_get p d) eqn:E; [|discriminate]. injection G2 as <-.
    apply (is_dict_of_get _ _ _ _ Hc E). }
  destruct (is_dict_of_inv _ _ Hp) as [d ->]. cbn [py_keys] in Hin.
  apply (proj1 (sorted_In _ _)) in Hin. destruct (dict_get_of_key _ _ Hin) as [x E].
  pose proof (is_dict_of_get _ _ _ _ Hp E) as Hx.
  destruct x; try discriminate. exists s.
  unfold lookup3, rbind. rewrite G1, G2. cbn [py_getitem]. now rewrite E.
Qed.

(** X14: choosing an entry of the category box or of the project box keeps
    the three boxes in sync with the catalog.  After a change of the
    category the project box lists that category's projects with the first
    one chosen. *)
Theorem selection_keeps_boxes_in_sync (w : Window) (i : nat) :
  in_sync w ->
  (fst (cat_combo_do (cb_setCurrentIndex i) w) = inr tt
   /\ in_sync (snd (cat_combo_do (cb_setCurrentIndex i) w))
   /\ cat_combo (snd (cat_combo_do (cb_setCurrentIndex i) w))
      = fst (cb_setCurrentIndex i (cat_combo w))
   /\ (currentText (fst (cb_setCurrentIndex i (cat_combo w)))
       <> currentText (cat_combo w) ->
       project_combo (snd (cat_combo_do (cb_setCurrentIndex i) w))
       = box_of (project_list (repos_value w)
                   (currentText (fst (cb_setCurrentIndex i (cat_combo w)))))))
  /\ (fst (project_combo_do (cb_setCurrentIndex i) w) = inr tt
      /\ in_sync (snd (project_combo_do (cb_setCurrentIndex i) w))
      /\ project_combo (snd (project_combo_do (cb_setCurrentIndex i) w))
         = fst (cb_setCurrentIndex i (project_combo w))
      /\ cat_combo (snd (project_combo_do (cb_setCurrentIndex i) w)) = cat_combo w).
Proof.
  intros S. split.
  - destruct (cat_combo_select_sync (cb_setCurrentIndex i) w S eq_refl eq_refl)
      as (pb & cb & R & S').
    pose proof S as (H & _).
    destruct (cat_combo_do_relists (cb_setCurrentIndex i) w H (in_sync_blank w S) eq_refl)
      as (pb' & cb' & R' & Hch & _).
    rewrite R. cbn [fst snd].
    split; [reflexivity|]. split; [exact S'|]. split; [reflexivity|].
    intros Hne. rewrite R in R'.
    apply (f_equal (fun r => project_combo (snd r))) in R'. cbn in R'. rewrite R'.
    apply (Hch Hne).
  - destruct (project_combo_select_sync (cb_setCurrentIndex i) w S eq_refl eq_refl)
      as (cb & R & S').
    rewrite R. cbn [fst snd].
    split; [reflexivity|]. split; [exact S'|]. split; reflexivity.
Qed.

Lemma selection_keeps_boxes_in_sync_witness :
  in_sync example_window
  /\ in_sync (snd (cat_combo_do (cb_setCurrentIndex 1) example_window))
  /\ currentText (project_combo (snd (cat_combo_do (cb_setCurrentIndex 1) example_window)))
     = "ProjectA".
Proof.
  assert (in_sync example_window) as S by (repeat split; reflexivity).
  split; [exact S|].
  destruct (selection_keeps_boxes_in_sync example_window 1 S)
    as ((_ & S' & _ & P) & _).
  split; [exact S'|]. rewrite P; [reflexivity | discriminate].
Defined.

(** X15: a click on a project of the sidebar, when the boxes are in sync and
    the project is one the catalog lists under that category, selects the
    category and the project and lists the project's components; the boxes
    stay in sync. *)
Theorem sidebar_click_selects_project (w : Window) (cat proj : string) :
  in_sync w ->
  In cat (category_list (repos_value w)) ->
  In proj (project_list (repos_value w) cat) ->
  fst (on_sidebar_item_clicked (ProjectItem cat proj) w) = inr tt
  /\ in_sync (snd (on_sidebar_item_clicked (ProjectItem cat proj) w))
  /\ currentText (cat_combo (snd (on_sidebar_item_clicked (ProjectItem cat proj) w)))
     = cat
  /\ currentText (project_combo (snd (on_sidebar_item_clicked (ProjectItem cat proj) w)))
     = proj
  /\ items (component_combo (snd (on_sidebar_item_clicked (ProjectItem cat proj) w)))
     = component_list (repos_value w) cat proj
  /\ repos_value (snd (on_sidebar_item_clicked (ProjectItem cat proj) w))
     = repos_value w.
Proof.
  intros S Hcat Hproj. pose proof S as (H & Icat & _).
  assert (exists w2,
             on_sidebar_item_clicked (ProjectItem cat proj) w
             = (inr tt,
                set_component_combo (box_of (component_list (repos_value w) cat proj)) w2)
             /\ in_sync w2
             /\ currentText (cat_combo w2) = cat
             /\ currentText (project_combo w2) = proj
             /\ repos_value w2 = repos_value w) as (w2 & R & S2 & C2 & P2 & V2).
  { unfold on_sidebar_item_clicked.
    destruct (cat_combo_select_sync (cb_setCurrentText cat) w S
                (proj1 (cb_setCurrentText_selects _ _))
                (proj2 (cb_setCurrentText_selects _ _)))
      as (pb & cb & R1 & S1).
    unfold bind at 1. rewrite R1.
    set (w1 := set_component_combo cb
                 (set_project_combo pb
                    (set_cat_combo (fst (cb_setCurrentText cat (cat_combo w))) w))) in *.
    assert (currentText (cat_combo w1) = cat) as C1.
    { apply cb_setCurrentText_found. now rewrite Icat. }
    assert (repos_value w1 = repos_value w) as V1 by reflexivity.
    clearbody w1.
    pose proof S1 as (_ & _ & Iproj1 & _).
    destruct (project_combo_select_sync (cb_setCurrentText proj) w1 S1
                (proj1 (cb_setCurrentText_selects _ _))
                (proj2 (cb_setCurrentText_selects _ _)))
      as (cb2 & R2 & S2).
    unfold bind at 1. rewrite R2.
    set (w2 := set_component_combo cb2
                 (set_project_combo (fst (cb_setCurrentText proj (project_combo w1))) w1))
      in *.
    assert (currentText (project_combo w2) = proj) as P2.
    { apply cb_setCurrentText_found. now rewrite Iproj1, C1, V1. }
    assert (currentText (cat_combo w2) = cat) as C2 by exact C1.
    assert (repos_value w2 = repos_value w) as V2 by exact V1.
    clearbody w2.
    pose proof S2 as (H2 & _).
    rewrite (on_project_change_sync proj w2 H2). rewrite C2, V2.
    exists w2. split; [reflexivity|]. split; [exact S2|]. split; [exact C2|].
    split; [exact P2 | exact V2]. }
  rewrite R. cbn [fst snd].
  pose proof S2 as (H2 & Icat2 & Iproj2 & _).
  unfold in_sync.
  change (repos_value (set_component_combo ?x w2)) with (repos_value w2).
  cbn [cat_combo project_combo component_combo set_component_combo].
  rewrite P2, C2, V2. rewrite V2 in H2, Icat2, Iproj2. rewrite C2 in Iproj2.
  repeat split; first [assumption | reflexivity].
Qed.

Lemma sidebar_click_selects_project_witness :
  in_sync example_window
  /\ currentText
       (project_combo
          (snd (on_sidebar_item_clicked (ProjectItem "localization" "ProjectA")
                  example_window))) = "ProjectA"
  /\ items
       (component_combo
          (snd (on_sidebar_item_clicked (ProjectItem "localization" "ProjectA")
                  example_window))) = ["strings"; "ui"].
Proof.
  assert (in_sync example_window) as S by (repeat split; reflexivity).
  split; [exact S|].
  destruct (sidebar_click_selects_project example_window "localization" "ProjectA" S)
    as (_ & _ & _ & P & I & _).
  - right. left. reflexivity.
  - left. reflexivity.
  - split; [exact P | exact I].
Defined.

(** X16: with the boxes in sync, a selection that is complete (no box shows
    the empty text) names a component of the catalog whose URL is a string,
    so the lookup in [clone_button_clicked] cannot fail; with a destination
    text that is not blank and a destination that does not exist yet, the
    click shows no box, disables the push button, logs one line and starts
    one task for that URL and the folder destination/project/component. *)
Theorem synced_selection_starts_clone (env : click_env) (w : Window) :
  in_sync w ->
  currentText (cat_combo w) <> "" ->
  currentText (project_combo w) <> "" ->
  currentText (component_combo w) <> "" ->
  strip (dest_line w) <> "" ->
  dest_exists env = false ->
  exists u,
    lookup3 (repos_value w) (currentText (cat_combo w))
      (currentText (project_combo w)) (currentText (component_combo w))
    = inr (PStr u)
    /\ clone_button_clicked env w
       = (inr tt,
          set_threads
            (threads w
             ++ [(new_CloneThread (PStr u)
                    (str_of_path
                       (truediv (truediv (Path_of (strip (dest_line w)))
                                   (currentText (project_combo w)))
                          (currentText (component_combo w)))),
                  true)])%list
            (set_log_view
               (log_view w
                ++ [("Cloning " ++ u ++ " into "
                     ++ str_of_path
                          (truediv (truediv (Path_of (strip (dest_line w)))
                                      (currentText (project_combo w)))
                             (currentText (component_combo w)))
                     ++ " ...")%string])%list
               (set_clone_btn_enabled false w))).
Proof.
  intros S Hcat Hproj Hcomp Hd He.
  assert (exists u,
            lookup3 (repos_value w) (currentText (cat_combo w))
              (currentText (project_combo w)) (currentText (component_combo w))
            = inr (PStr u)) as [u L].
  { destruct S as (H & _ & _ & Icomp).
    apply (component_list_url _ _ _ _ H). rewrite <- Icomp.
    now apply currentText_listed. }
  exists u. split; [exact L|].
  unfold clone_button_clicked. unfold bind at 1, get at 1.
  rewrite (truthy_true _ Hcat), (truthy_true _ Hproj), (truthy_true _ Hcomp).
  cbn [negb orb]. rewrite L.
  rewrite (truthy_true _ Hd). cbn [negb]. rewrite He.
  reflexivity.
Qed.

Lemma synced_selection_starts_clone_witness :
  exists u,
    lookup3 (repos_value example_window) (currentText (cat_combo example_window))
      (currentText (project_combo example_window))
      (currentText (component_combo example_window))
    = inr (PStr u)
    /\ clone_button_clicked fresh_destination example_window
       = (inr tt,
          set_threads
            (threads example_window
             ++ [(new_CloneThread (PStr u)
                    (str_of_path
                       (truediv (truediv (Path_of (strip (dest_line example_window)))
                                   (currentText (project_combo example_window)))
                          (currentText (component_combo example_window)))),
                  true)])%list
            (set_log_view
               (log_view example_window
                ++ [("Cloning " ++ u ++ " into "
                     ++ str_of_path
                          (truediv (truediv (Path_of (strip (dest_line example_window)))
                                      (currentText (project_combo example_window)))
                             (currentText (component_combo example_window)))
                     ++ " ...")%string])%list
               (set_clone_btn_enabled false example_window))).
Proof.
  apply (synced_selection_starts_clone fresh_destination example_window).
  - repeat split; vm_compute; reflexivity.
  - intros E; vm_compute in E; discriminate E.
  - intros E; vm_compute in E; discriminate E.
  - intros E; vm_compute in E; discriminate E.
  - intros E; vm_compute in E; discriminate E.
  - reflexivity.
Defined.

Section RefreshAndInit.

Variable json_load : string -> result pyval.

(** X17: a refresh on a window in sync, when the file holds a well-shaped
    catalog, loads that catalog and leaves the boxes in sync with it.  The
    category chosen before stays chosen if the new catalog has it, else the
    first category is chosen; the project box falls back to the first
    project of the chosen category.  One line is logged, no box is shown and
    no exception is reported. *)
Theorem refresh_keeps_category (w : Window) (content : string) (v' : pyval) :
  in_sync w ->
  config_file (fs w) = Holds content ->
  json_load content = inr v' ->
  is_catalog v' = true ->
  in_sync (step json_load w TriggerRefresh)
  /\ repos_value (step json_load w TriggerRefresh) = v'
  /\ (currentText (cat_combo w) <> "" ->
      In (currentText (cat_combo w)) (category_list v') ->
      currentText (cat_combo (step json_load w TriggerRefresh))
      = currentText (cat_combo w))
  /\ (currentText (cat_combo w) = ""
      \/ ~ In (currentText (cat_combo w)) (category_list v') ->
      cat_combo (step json_load w TriggerRefresh) = box_of (category_list v'))
  /\ (currentText (cat_combo (step json_load w TriggerRefresh)) <> "" ->
      project_combo (step json_load w TriggerRefresh)
      = box_of (project_list v'
                  (currentText (cat_combo (step json_load w TriggerRefresh)))))
  /\ log_view (step json_load w TriggerRefresh)
     = (log_view w ++ ["Refreshed project list from repos.json"])%list
  /\ boxes (step json_load w TriggerRefresh) = boxes w
  /\ stderr (step json_load w TriggerRefresh) = stderr w
  /\ fs (step json_load w TriggerRefresh) = fs w.
Proof.
  intros S Hf Hj Hc. pose proof S as (_ & _ & Iproj & Icomp).
  assert (currentText (cat_combo w) = "" -> items (project_combo w) = []) as Hb1.
  { intros E. rewrite Iproj, E. reflexivity. }
  destruct (refresh_projects_sync json_load w content v' Hb1 (in_sync_blank w S) Hf Hj Hc)
    as (sb & cc & pb & cb & R & S' & K1 & K2 & J).
  unfold step, slot. rewrite R. cbn [snd].
  split; [exact S'|]. split; [reflexivity|].
  window_fields.
  split.
  { intros Hne Hin. apply K1; [now apply truthy_true|].
    now apply In_category_list. }
  split.
  { intros [E|Hn]; apply K2.
    - left. now rewrite E.
    - right. destruct (is_dict_of_inv _ _ Hc) as [d Ed].
      destruct (py_contains (currentText (cat_combo w)) v') as [e|[|]] eqn:P.
      + rewrite Ed in P. discriminate.
      + elim Hn. now apply In_category_list.
      + reflexivity. }
  split; [exact J|].
  repeat split.
Qed.

(** X18: the constructor, on a file that holds a well-shaped catalog, shows
    no box and leaves the window in sync with that catalog: the first
    category is chosen, and the first project of that category. *)
Theorem init_selects_first (files : FileSystem) (content : string) (v' : pyval) :
  config_file files = Holds content ->
  json_load content = inr v' ->
  is_catalog v' = true ->
  fst (init json_load (blank files)) = inr tt
  /\ in_sync (snd (init json_load (blank files)))
  /\ repos_value (snd (init json_load (blank files))) = v'
  /\ cat_combo (snd (init json_load (blank files))) = box_of (category_list v')
  /\ project_combo (snd (init json_load (blank files)))
     = box_of (project_list v' (hd "" (category_list v')))
  /\ dest_line (snd (init json_load (blank files)))
     = str_of_path (truediv (Path_of (cwd files)) "cloned")
  /\ boxes (snd (init json_load (blank files))) = []
  /\ fs (snd (init json_load (blank files))) = files.
Proof.
  intros Hf Hj Hc.
  assert (exists sb cb,
            init json_load (blank files)
            = (inr tt,
               set_component_combo cb
                 (set_project_combo (box_of (project_list v' (hd "" (category_list v'))))
                    (set_sidebar sb
                       (set_dest_line (str_of_path (truediv (Path_of (cwd files)) "cloned"))
                          (set_cat_combo (box_of (category_list v'))
                             (set_repos Loaded (set_repos_obj v' (blank files)))))))) 
            /\ items cb
               = component_list v' (hd "" (category_list v'))
                   (hd "" (project_list v' (hd "" (category_list v')))))
    as (sb & cb & R & I).
  { unfold init.
    unfold bind at 1. unfold load_or_create_config. unfold bind at 1, get at 1.
    change (fs (blank files)) with files. rewrite Hf, Hj. cbn [ret].
    unfold bind at 1, assign_repos, modify.
    unfold bind at 1, get at 1. unfold bind at 1, lift at 1.
    change (repos_value (set_repos Loaded (set_repos_obj v' (blank files)))) with v'.
    destruct (is_dict_of_inv _ _ Hc) as [d Ed].
    assert (py_keys v' = inr (dict_keys d)) as K by (now rewrite Ed).
    rewrite K.
    assert (category_list v' = sorted (dict_keys d)) as CL by (now rewrite Ed).
    rewrite <- CL.
    unfold bind at 1. unfold bind at 1.
    set (wA := set_dest_line _ (set_cat_combo _ _)).
    assert (is_catalog (repos_value wA) = true) as HA by exact Hc.
    destruct (populate_sidebar_frame wA HA) as [sb Rsb].
    unfold bind at 1. rewrite Rsb.
    unfold bind at 1, get at 1.
    change (cat_combo (set_sidebar sb wA)) with (box_of (category_list v')).
    destruct (category_list v') as [|x l] eqn:El.
    - cbn [count items box_of cb_addItems fst app List.length Nat.ltb Nat.leb empty_combo ret].
      exists sb, empty_combo. split; [reflexivity|]. reflexivity.
    - cbn [count items box_of cb_addItems fst app List.length Nat.ltb Nat.leb empty_combo].
      unfold bind at 1.
      rewrite cat_combo_do_same;
        [|cbn; unfold text_changed; cbn; now rewrite String.eqb_refl].
      unfold bind at 1, get at 1.
      match goal with
      | |- context [on_category_change ?t ?s] =>
          destruct (on_category_change_sync t s HA eq_refl (fun _ => eq_refl))
            as (cb & R & I)
      end.
      rewrite R. exists sb, cb. split; [reflexivity|].
      rewrite I. cbn [hd]. now rewrite currentText_box_of. }
  rewrite R. cbn [fst snd].
  split; [reflexivity|]. split.
  { unfold in_sync. window_fields.
    rewrite !currentText_box_of. repeat split; [exact Hc | exact I]. }
  repeat split.
Qed.

End RefreshAndInit.

Lemma refresh_keeps_category_witness :
  in_sync localization_window
  /\ currentText (cat_combo (step example_json_load localization_window TriggerRefresh))
     = "localization"
  /\ log_view (step example_json_load localization_window TriggerRefresh)
     = (log_view localization_window ++ ["Refreshed project list from repos.json"])%list.
Proof.
  assert (in_sync localization_window) as S by (repeat split; vm_compute; reflexivity).
  split; [exact S|].
  assert (example_json_load (json_dumps SAMPLE_CONFIG) = inr SAMPLE_CONFIG) as Hj
    by (vm_compute; reflexivity).
  assert (config_file (fs localization_window) = Holds (json_dumps SAMPLE_CONFIG)) as Hf
    by (vm_compute; reflexivity).
  assert (is_catalog SAMPLE_CONFIG = true) as Hc by (vm_compute; reflexivity).
  destruct (refresh_keeps_category example_json_load localization_window
              (json_dumps SAMPLE_CONFIG) SAMPLE_CONFIG S Hf Hj Hc)
    as (_ & _ & K & _ & _ & L & _).
  split; [|exact L].
  apply K; [intros E; vm_compute in E; discriminate E | vm_compute; auto].
Defined.

Lemma init_selects_first_witness :
  currentText
    (cat_combo
       (snd (init example_json_load
               (blank {| config_file := Holds (json_dumps SAMPLE_CONFIG);
                         open_w_raises := None;
                         resolved := "/home/u/repos.json"; cwd := "/home/u" |}))))
  = "dev".
Proof.
  assert (example_json_load (json_dumps SAMPLE_CONFIG) = inr SAMPLE_CONFIG) as Hj
    by (vm_compute; reflexivity).
  assert (is_catalog SAMPLE_CONFIG = true) as Hc by (vm_compute; reflexivity).
  destruct (init_selects_first example_json_load
              {| config_file := Holds (json_dumps SAMPLE_CONFIG);
                 open_w_raises := None;
                 resolved := "/home/u/repos.json"; cwd := "/home/u" |}
              (json_dumps SAMPLE_CONFIG) SAMPLE_CONFIG eq_refl Hj Hc)
    as (_ & _ & _ & C & _).
  rewrite C. reflexivity.
Defined.

Lemma store_repos_frame v w :
  cat_combo (store_repos v w) = cat_combo w
  /\ project_combo (store_repos v w) = project_combo w
  /\ component_combo (store_repos v w) = component_combo w
  /\ log_view (store_repos v w) = log_view w
  /\ boxes (store_repos v w) = boxes w.
Proof. unfold store_repos. destruct (repos w); repeat split. Qed.

(** The three selections that end [save_new_project]. *)
Lemma select_new_component (w : Window) (k p c : string) :
  in_sync w ->
  In k (category_list (repos_value w)) ->
  exists W,
    (cat_combo_do (cb_setCurrentText k) ;;
     project_combo_do (cb_setCurrentText p) ;;
     component_combo_do (cb_setCurrentText c)) w = (inr tt, W)
    /\ in_sync W
    /\ repos_value W = repos_value w
    /\ fs W = fs w
    /\ dialog_open W = dialog_open w
    /\ boxes W = boxes w
    /\ log_view W = log_view w
    /\ currentText (cat_combo W) = k
    /\ (In p (project_list (repos_value w) k) -> currentText (project_combo W) = p)
    /\ (In p (project_list (repos_value w) k) ->
        In c (component_list (repos_value w) k p) ->
        currentText (component_combo W) = c).
Proof.
  intros S Lk.
  destruct (cat_combo_select_sync (cb_setCurrentText k) w S
              (proj1 (cb_setCurrentText_selects _ _))
              (proj2 (cb_setCurrentText_selects _ _)))
    as (pb4 & cb4 & R4 & S4).
  unfold bind at 1. rewrite R4.
  remember (set_component_combo cb4
              (set_project_combo pb4
                 (set_cat_combo (fst (cb_setCurrentText k (cat_combo w))) w)))
    as w4 eqn:E4.
  assert (currentText (cat_combo w4) = k) as K4.
  { rewrite E4. apply cb_setCurrentText_found. destruct S as (_ & -> & _). exact Lk. }
  assert (repos_value w4 = repos_value w) as V4 by (now rewrite E4).
  assert (fs w4 = fs w) as A4 by (now rewrite E4).
  assert (dialog_open w4 = dialog_open w) as B4 by (now rewrite E4).
  assert (boxes w4 = boxes w) as C4 by (now rewrite E4).
  assert (log_view w4 = log_view w) as D4 by (now rewrite E4).
  clear E4 R4.
  destruct (project_combo_select_sync (cb_setCurrentText p) w4 S4
              (proj1 (cb_setCurrentText_selects _ _))
              (proj2 (cb_setCurrentText_selects _ _)))
    as (cb5 & R5 & S5).
  unfold bind at 1. rewrite R5.
  remember (set_component_combo cb5
              (set_project_combo (fst (cb_setCurrentText p (project_combo w4))) w4))
    as w5 eqn:E5.
  assert (In p (project_list (repos_value w) k) -> currentText (project_combo w5) = p)
    as P5.
  { intros Lp. rewrite E5. apply cb_setCurrentText_found.
    destruct S4 as (_ & _ & -> & _). now rewrite V4, K4. }
  assert (currentText (cat_combo w5) = k) as K5 by (now rewrite E5).
  assert (repos_value w5 = repos_value w) as V5 by (now rewrite E5).
  assert (fs w5 = fs w) as A5 by (now rewrite E5).
  assert (dialog_open w5 = dialog_open w) as B5 by (now rewrite E5).
  assert (boxes w5 = boxes w) as C5 by (now rewrite E5).
  assert (log_view w5 = log_view w) as D5 by (now rewrite E5).
  clear E5 R5.
  unfold component_combo_do, modify.
  eexists. split; [reflexivity|].
  pose proof S5 as (H5 & I5 & J5 & L5).
  destruct (cb_setCurrentText_selects c (component_combo w5)) as [Ei _].
  unfold in_sync.
  change (repos_value (set_component_combo ?x w5)) with (repos_value w5).
  cbn [cat_combo project_combo component_combo set_component_combo
       fs dialog_open log_view boxes].
  rewrite Ei.
  repeat split; try assumption.
  intros Lp Lc. apply cb_setCurrentText_found.
  now rewrite L5, V5, K5, (P5 Lp).
Qed.

Section Saving.

Variable json_load : string -> result pyval.

Lemma save_new_project_sync (w : Window) (k p c u : string) (d : list (string * pyval)) :
  in_sync w ->
  repos_value w = PDict d ->
  p <> "" -> c <> "" -> u <> "" ->
  open_w_raises (fs w) = None ->
  json_load (json_dumps (PDict (upsert_spec d k p c u)))
  = inr (PDict (upsert_spec d k p c u)) ->
  exists W,
    save_new_project json_load k p c u w = (inr tt, W)
    /\ in_sync W
    /\ repos_value W = PDict (upsert_spec d k p c u)
    /\ config_file (fs W) = Holds (json_dumps (PDict (upsert_spec d k p c u)))
    /\ currentText (cat_combo W) = k
    /\ (In p (project_list (PDict (upsert_spec d k p c u)) k) ->
        currentText (project_combo W) = p)
    /\ (In p (project_list (PDict (upsert_spec d k p c u)) k) ->
        In c (component_list (PDict (upsert_spec d k p c u)) k p) ->
        currentText (component_combo W) = c)
    /\ dialog_open W = false
    /\ log_view W
       = (log_view w
          ++ [("Added project: " ++ k ++ "/" ++ p ++ "/" ++ c ++ LF)%string;
              "Refreshed project list from repos.json"])%list
    /\ boxes W
       = (boxes w
          ++ [{| kind := Information; title := "Saved";
                 text := "Project added successfully." |}])%list.
Proof.
  intros S Ed Hp Hcn Hu Hw Hj.
  pose proof S as (H & _ & Iproj & Icomp).
  rewrite Ed in H.
  remember (PDict (upsert_spec d k p c u)) as v' eqn:Ev.
  assert (is_catalog v' = true) as Hc' by (rewrite Ev; now apply upsert_spec_is_catalog).
  assert (In k (category_list v')) as Lk.
  { apply In_category_list; [exact Hc'|]. rewrite Ev. unfold upsert_spec.
    cbn [py_contains]. unfold dict_mem. now rewrite dict_get_set_same. }
  unfold save_new_project.
  rewrite (truthy_true _ Hp), (truthy_true _ Hcn), (truthy_true _ Hu). cbn [negb orb].
  unfold bind at 1. rewrite (upsertComponent_refines w d k p c u Ed H). rewrite <- Ev.
  unfold bind at 1, get at 1. rewrite repos_value_store.
  unfold bind at 1, try_, write_config. rewrite fs_store, Hw.
  unfold bind at 1, append_log, modify.
  unfold bind at 1, message, modify.
  unfold bind at 1, modify.
  destruct (store_repos_frame v' w) as (F1 & F2 & F3 & F4 & F5).
  unfold bind at 1.
  match goal with
  | |- context [refresh_projects json_load ?s] => remember s as w2 eqn:E2
  end.
  assert (cat_combo w2 = cat_combo w) as G1 by (now rewrite E2).
  assert (project_combo w2 = project_combo w) as G2 by (now rewrite E2).
  assert (component_combo w2 = component_combo w) as G3 by (now rewrite E2).
  assert (log_view w2
          = (log_view w ++ [("Added project: " ++ k ++ "/" ++ p ++ "/" ++ c ++ LF)%string])%list)
    as G4 by (rewrite E2; window_fields; now rewrite F4).
  assert (boxes w2
          = (boxes w ++ [{| kind := Information; title := "Saved";
                            text := "Project added successfully." |}])%list)
    as G5 by (rewrite E2; window_fields; now rewrite F5).
  assert (config_file (fs w2) = Holds (json_dumps v')) as G6 by (now rewrite E2).
  assert (dialog_open w2 = false) as G7 by (now rewrite E2).
  clear E2.
  assert (currentText (cat_combo w2) = "" -> items (project_combo w2) = []) as Hb1.
  { rewrite G1, G2. intros E. rewrite Iproj, E. reflexivity. }
  assert (currentText (project_combo w2) = "" -> items (component_combo w2) = []) as Hb2.
  { rewrite G2, G3. apply (in_sync_blank w S). }
  destruct (refresh_projects_sync json_load w2 (json_dumps v') v' Hb1 Hb2 G6 Hj Hc')
    as (sb & cc & pb & cb & R3 & S3 & _).
  rewrite R3.
  match goal with
  | |- context [bind _ _ ?s] => remember s as w3 eqn:E3
  end.
  assert (in_sync w3) as S3' by (rewrite E3; exact S3).
  assert (repos_value w3 = v') as V3 by (now rewrite E3).
  assert (fs w3 = fs w2) as A3 by (now rewrite E3).
  assert (dialog_open w3 = dialog_open w2) as B3 by (now rewrite E3).
  assert (boxes w3 = boxes w2) as C3 by (now rewrite E3).
  assert (log_view w3
          = (log_view w2 ++ ["Refreshed project list from repos.json"])%list)
    as D3 by (now rewrite E3).
  clear E3 S3 R3.
  rewrite <- V3 in Lk.
  destruct (select_new_component w3 k p c S3' Lk)
    as (W & R & T1 & T2 & T3 & T4 & T5 & T6 & T7 & T8 & T9).
  rewrite V3 in T8, T9.
  exists W. rewrite R. split; [reflexivity|].
  rewrite T2, T3, T4, T5, T6, A3, B3, C3, D3, G4, G5, G6, G7, <- app_assoc.
  split; [exact T1|]. split; [exact V3|]. split; [reflexivity|].
  split; [exact T7|]. split; [exact T8|]. split; [exact T9|].
  split; [reflexivity|]. split; reflexivity.
Qed.

(** X19: Save in the Add New Project dialog, on a window in sync, with a
    repo type and three texts that are not empty, a file that can be written
    and a decoder that reads back the catalog just written: the file holds
    the updated catalog as [json.dump] prints it, the catalog in memory is
    the one read back, the dialog is closed, one Information box is shown,
    two lines are logged, and the three boxes show the new category, project
    and component, in sync with the catalog. *)
Theorem save_selects_new_component (w : Window) (k p c u : string) :
  in_sync w ->
  k <> "" -> p <> "" -> c <> "" -> u <> "" ->
  open_w_raises (fs w) = None ->
  json_load (json_dumps (PDict (upsert_spec (sub_dict (Some (repos_value w))) k p c u)))
  = inr (PDict (upsert_spec (sub_dict (Some (repos_value w))) k p c u)) ->
  fst (save_new_project json_load k p c u w) = inr tt
  /\ in_sync (snd (save_new_project json_load k p c u w))
  /\ repos_value (snd (save_new_project json_load k p c u w))
     = PDict (upsert_spec (sub_dict (Some (repos_value w))) k p c u)
  /\ config_file (fs (snd (save_new_project json_load k p c u w)))
     = Holds (json_dumps
                (PDict (upsert_spec (sub_dict (Some (repos_value w))) k p c u)))
  /\ currentText (cat_combo (snd (save_new_project json_load k p c u w))) = k
  /\ currentText (project_combo (snd (save_new_project json_load k p c u w))) = p
  /\ currentText (component_combo (snd (save_new_project json_load k p c u w))) = c
  /\ dialog_open (snd (save_new_project json_load k p c u w)) = false
  /\ log_view (snd (save_new_project json_load k p c u w))
     = (log_view w
        ++ [("Added project: " ++ k ++ "/" ++ p ++ "/" ++ c ++ LF)%string;
            "Refreshed project list from repos.json"])%list
  /\ boxes (snd (save_new_project json_load k p c u w))
     = (boxes w
        ++ [{| kind := Information; title := "Saved";
               text := "Project added successfully." |}])%list.
Proof.
  intros S Hk Hp Hcn Hu Hw Hj.
  pose proof S as (H & _).
  destruct (is_dict_of_inv _ _ H) as [d Ed].
  rewrite Ed in Hj |- *. cbn [sub_dict] in Hj |- *. rewrite Ed in H.
  assert (is_catalog (PDict (upsert_spec d k p c u)) = true) as Hc'
    by (now apply upsert_spec_is_catalog).
  destruct (lookup3_listed _ k p c (PStr u) Hc' Hk Hp (upsert_spec_lookup d k p c u))
    as (_ & Lp & Lc).
  destruct (save_new_project_sync w k p c u d S Ed Hp Hcn Hu Hw Hj)
    as (W & R & Q1 & Q2 & Q3 & Q4 & Q5 & Q6 & Q7 & Q8 & Q9).
  rewrite R. cbn [fst snd].
  split; [reflexivity|]. split; [exact Q1|]. split; [exact Q2|].
  split; [exact Q3|]. split; [exact Q4|]. split; [exact (Q5 Lp)|].
  split; [exact (Q6 Lp Lc)|]. split; [exact Q7|]. split; [exact Q8 | exact Q9].
Qed.

(** X22: Save with the empty text as repo type, which the dialog offers when
    the catalog is empty or has a category without a name: the component is
    filed under the category named by the empty text and written to the
    file, but the window takes that name for no selection: the project and
    component boxes stay empty. *)
Theorem save_under_unnamed_category (w : Window) (p c u : string) :
  in_sync w ->
  p <> "" -> c <> "" -> u <> "" ->
  open_w_raises (fs w) = None ->
  json_load (json_dumps (PDict (upsert_spec (sub_dict (Some (repos_value w))) "" p c u)))
  = inr (PDict (upsert_spec (sub_dict (Some (repos_value w))) "" p c u)) ->
  fst (save_new_project json_load "" p c u w) = inr tt
  /\ lookup3 (repos_value (snd (save_new_project json_load "" p c u w))) "" p c
     = inr (PStr u)
  /\ config_file (fs (snd (save_new_project json_load "" p c u w)))
     = Holds (json_dumps
                (PDict (upsert_spec (sub_dict (Some (repos_value w))) "" p c u)))
  /\ currentText (cat_combo (snd (save_new_project json_load "" p c u w))) = ""
  /\ items (project_combo (snd (save_new_project json_load "" p c u w))) = []
  /\ items (component_combo (snd (save_new_project json_load "" p c u w))) = [].
Proof.
  intros S Hp Hcn Hu Hw Hj.
  pose proof S as (H & _).
  destruct (is_dict_of_inv _ _ H) as [d Ed].
  rewrite Ed in Hj |- *. cbn [sub_dict] in Hj |- *.
  destruct (save_new_project_sync w "" p c u d S Ed Hp Hcn Hu Hw Hj)
    as (W & R & Q1 & Q2 & Q3 & Q4 & _).
  rewrite R. cbn [fst snd].
  destruct Q1 as (_ & _ & Ip & Ic). rewrite Q4 in Ip, Ic.
  split; [reflexivity|]. split; [rewrite Q2; apply upsert_spec_lookup|].
  split; [exact Q3|]. split; [exact Q4|]. split; [exact Ip | exact Ic].
Qed.

(** X20: Save with a project name, a component name or a URL that is empty
    or made of white space only: one Warning box is shown and nothing else
    happens; the dialog stays open, the catalog and the file are as they
    were. *)
Theorem add_project_needs_all_fields
  (w : Window) (choice : option nat) (project component repo_url : string)
  (d : list (string * pyval)) :
  repos_value w = PDict d ->
  strip project = "" \/ strip component = "" \/ strip repo_url = "" ->
  step json_load w (TriggerAddProject choice project component repo_url)
  = set_boxes
      (boxes w ++ [{| kind := Warning; title := "Validation";
                      text := "Please fill all fields." |}])%list
      (set_dialog_open true w).
Proof.
  intros Hv Hs. unfold step, slot, add_project_dialog.
  unfold bind at 1, get at 1. unfold bind at 1, lift at 1. rewrite Hv.
  cbn [py_keys]. unfold bind at 1, modify at 1.
  unfold save_new_project.
  assert (negb (truthy (strip project)) || negb (truthy (strip component))
          || negb (truthy (strip repo_url)) = true) as ->.
  { destruct Hs as [E | [E | E]]; rewrite E; cbn [truthy String.eqb negb orb].
    - reflexivity.
    - now rewrite orb_true_r.
    - now rewrite orb_true_r. }
  reflexivity.
Qed.

End Saving.

Lemma save_selects_new_component_witness :
  in_sync example_window
  /\ repos_value
       (snd (save_new_project example_json_load "dev" "NewProject" "core"
               "https://example.org/core.git" example_window))
     = sample_with_new_project
  /\ currentText
       (component_combo
          (snd (save_new_project example_json_load "dev" "NewProject" "core"
                  "https://example.org/core.git" example_window))) = "core".
Proof.
  assert (in_sync example_window) as S by (repeat split; vm_compute; reflexivity).
  split; [exact S|].
  assert (example_json_load
            (json_dumps
               (PDict (upsert_spec (sub_dict (Some (repos_value example_window)))
                         "dev" "NewProject" "core" "https://example.org/core.git")))
          = inr (PDict (upsert_spec (sub_dict (Some (repos_value example_window)))
                          "dev" "NewProject" "core" "https://example.org/core.git")))
    as Hj by (vm_compute; reflexivity).
  destruct (save_selects_new_component example_json_load example_window
              "dev" "NewProject" "core" "https://example.org/core.git" S)
    as (_ & _ & V & _ & _ & _ & C & _);
    [discriminate | discriminate | discriminate | discriminate
    | vm_compute; reflexivity | exact Hj |].
  split; [exact V | exact C].
Defined.

Lemma save_under_unnamed_category_witness :
  in_sync unnamed_window
  /\ items
       (project_combo
          (snd (save_new_project example_json_load "" "ProjectA" "ui"
                  "https://github.com/user/localization-projectA-ui.git"
                  unnamed_window))) = []
  /\ lookup3
       (repos_value
          (snd (save_new_project example_json_load "" "ProjectA" "ui"
                  "https://github.com/user/localization-projectA-ui.git"
                  unnamed_window))) "" "ProjectA" "ui"
     = inr (PStr "https://github.com/user/localization-projectA-ui.git").
Proof.
  assert (in_sync unnamed_window) as S by (repeat split; vm_compute; reflexivity).
  split; [exact S|].
  assert (example_json_load
            (json_dumps
               (PDict (upsert_spec (sub_dict (Some (repos_value unnamed_window)))
                         "" "ProjectA" "ui"
                         "https://github.com/user/localization-projectA-ui.git")))
          = inr (PDict (upsert_spec (sub_dict (Some (repos_value unnamed_window)))
                          "" "ProjectA" "ui"
                          "https://github.com/user/localization-projectA-ui.git")))
    as Hj by (vm_compute; reflexivity).
  destruct (save_under_unnamed_category example_json_load unnamed_window
              "ProjectA" "ui" "https://github.com/user/localization-projectA-ui.git" S)
    as (_ & L & _ & _ & P & _);
    [discriminate | discriminate | discriminate
    | vm_compute; reflexivity | exact Hj |].
  split; [exact P | exact L].
Defined.

Lemma add_project_needs_all_fields_witness :
  dialog_open
    (step example_json_load example_window
       (TriggerAddProject None "   " "core" "https://example.org/core.git")) = true
  /\ repos_value
       (step example_json_load example_window
          (TriggerAddProject None "   " "core" "https://example.org/core.git"))
     = SAMPLE_CONFIG.
Proof.
  rewrite (add_project_needs_all_fields example_json_load example_window None
             "   " "core" "https://example.org/core.git"
             (sub_dict (Some SAMPLE_CONFIG))).
  - split; vm_compute; reflexivity.
  - vm_compute; reflexivity.
  - left. vm_compute; reflexivity.
Defined.

(** ** The catalog update: all or nothing *)

(** X21: the update of the catalog in [save_new_project] either completes
    or raises before it has changed anything: when it raises (a category or
    a project of the catalog is not a dictionary), the window, and with it
    the catalog, is as it was. *)
Theorem upsertComponent_all_or_nothing
  (w : Window) (repo_type_key project_name component_name repo_url : string) (e : exn) :
  fst (upsertComponent repo_type_key project_name component_name repo_url w) = inl e ->
  snd (upsertComponent repo_type_key project_name component_name repo_url w) = w.
Proof.
  unfold upsertComponent, bind, get, lift, modify, ret.
  destruct (py_contains repo_type_key (repos_value w)) as [e0|[|]] eqn:C1;
    cbn [negb fst snd]; [reflexivity | | ].
  - (* the category is there *)
    destruct (py_getitem (repos_value w) repo_type_key) as [e1|cv] eqn:G1;
      cbn [fst snd]; [reflexivity|].
    destruct (py_contains project_name cv) as [e2|[|]] eqn:C2;
      cbn [negb fst snd]; [reflexivity | | ].
    + rewrite G1. destruct (py_getitem cv project_name) as [e3|pv] eqn:G2;
        cbn [fst snd]; [reflexivity|].
      destruct (py_setitem pv component_name (PStr repo_url)) as [e4|pv'] eqn:S3;
        cbn [fst snd]; [reflexivity|].
      destruct (py_setitem cv project_name pv') as [e5|cv'] eqn:S4;
        cbn [fst snd]; [reflexivity|].
      destruct (py_setitem (repos_value w) repo_type_key cv') as [e6|v'] eqn:S5;
        cbn [fst snd]; [reflexivity | discriminate].
    + destruct (py_setitem cv project_name (PDict [])) as [e3|cv1] eqn:S1;
        cbn [fst snd]; [reflexivity|].
      destruct (py_setitem (repos_value w) repo_type_key cv1) as [e4|v1] eqn:S2;
        cbn [fst snd]; [reflexivity|].
      rewrite repos_value_store.
      (* from here on every step succeeds *)
      destruct (repos_value w) as [| | | | |xs|kvs]; try discriminate.
      cbn [py_setitem] in S2. injection S2 as <-.
      cbn [py_getitem]. rewrite dict_get_set_same. cbn [fst snd].
      destruct cv as [| | | | |xs|pkvs]; try discriminate.
      cbn [py_setitem] in S1. injection S1 as <-.
      cbn [py_getitem]. rewrite dict_get_set_same. cbn [fst snd py_setitem].
      discriminate.
  - (* the category is new *)
    destruct (py_setitem (repos_value w) repo_type_key (PDict [])) as [e1|v1] eqn:S1;
      cbn [fst snd]; [reflexivity|].
    rewrite repos_value_store.
    destruct (repos_value w) as [| | | | |xs|kvs]; try discriminate.
    cbn [py_setitem] in S1. injection S1 as <-.
    cbn [py_getitem]. rewrite dict_get_set_same.
    cbn [fst snd py_contains dict_mem dict_get negb py_setitem dict_set].
    rewrite repos_value_store. cbn [py_getitem]. rewrite dict_set_set_same, dict_get_set_same.
    cbn [fst snd py_getitem dict_get]. rewrite String.eqb_refl.
    cbn [fst snd py_setitem]. discriminate.
Qed.

Lemma upsertComponent_all_or_nothing_witness :
  exists e,
    fst (upsertComponent "dev" "ProjectA" "Component1" "https://example.org/a.git"
           (set_sample_config (PDict [("dev", PStr "https://example.org/dev.git")])
              example_window)) = inl e
    /\ snd (upsertComponent "dev" "ProjectA" "Component1" "https://example.org/a.git"
              (set_sample_config (PDict [("dev", PStr "https://example.org/dev.git")])
                 example_window))
       = set_sample_config (PDict [("dev", PStr "https://example.org/dev.git")])
           example_window.
Proof.
  eexists. split; [reflexivity|].
  apply (upsertComponent_all_or_nothing _ _ _ _ _
           (TypeError "'str' object does not support item assignment")).
  reflexivity.
Defined.
